(** * Curve pool transaction classifier

    A shallow embedding of the transaction parser of the curve-pools
    repository ([parseTransaction], [parseRemoveLiquidity],
    [parseAddLiquidity], [parseExchange]) and the properties its
    specification states about it.

    Conventions of the embedding:
    - an ethers [BigNumber] is a [Z];
    - a decimal.js [Decimal] is a rational in lowest terms ([Qc], so that
      equal values are equal terms); [new Decimal(formatUnits(raw, d))] is
      the exact quotient [raw / 10^d], since the constructor does not round,
      and [Decimal.add] rounds the sum to the 20 significant digits of the
      library's default configuration, which the parser does not change;
    - [undefined] is [None];
    - a JavaScript exception is the [Throw] outcome, and the two
      observable effects of the parser (a call of the pool's ABI decoder,
      a [console.warn]) are recorded in a trace of events. *)

From Stdlib Require Import QArith Qcanon Qabs Qround Qpower Lqa.
From stdpp Require Import base numbers list strings gmap.

Open Scope string_scope.
Open Scope list_scope.

(** ** Values of the host language *)

Abbreviation BigNumber := Z (only parsing).
Abbreviation Decimal := Qc (only parsing).

(** A thrown value: the name of its class and its [code] property, which
    ethers' logger sets and native errors lack. *)
Record JsError := { errName : string; code : option string }.

Definition TypeError : JsError :=
  {| errName := "TypeError"; code := None |}.
Definition INVALID_ARGUMENT : JsError :=
  {| errName := "Error"; code := Some "INVALID_ARGUMENT" |}.
Definition NUMERIC_FAULT : JsError :=
  {| errName := "Error"; code := Some "NUMERIC_FAULT" |}.

Inductive Outcome (A : Type) : Type :=
  | Return (a : A)
  | Throw (e : JsError).
Arguments Return {A} a.
Arguments Throw {A} e.

(** What the parser does besides computing its result. *)
Inductive Event : Type :=
  | DecodeCall (data value : string)
  | ConsoleWarn (message name : string).

(** A computation: the events it emitted, and how it ended. *)
Definition M (A : Type) : Type := (list Event * Outcome A)%type.

Definition ret {A} (a : A) : M A := ([], Return a).
Definition throw {A} (e : JsError) : M A := ([], Throw e).
Definition emit (ev : Event) : M unit := ([ev], Return tt).

Definition bind {A B} (m : M A) (k : A → M B) : M B :=
  match m with
  | (t, Return a) => let (t', r) := k a in (t ++ t', r)
  | (t, Throw e) => (t, Throw e)
  end.

(** [try { m } catch (e) { handler e }] *)
Definition try_catch {A} (m : M A) (handler : JsError → M A) : M A :=
  match m with
  | (t, Return a) => (t, Return a)
  | (t, Throw e) => let (t', r) := handler e in (t ++ t', r)
  end.

Notation "'let*' x ':=' m 'in' k" := (bind m (fun x => k))
  (at level 10, x pattern, m at level 100, k at level 200).

(** The nullish coalescing operator [a ?? b]. *)
Definition nullish {A} (a b : option A) : option A :=
  match a with
  | Some x => Some x
  | None => b
  end.
Infix "??" := nullish (at level 61, left associativity).

(** [s.startsWith(p)] *)
Definition startsWith (s p : string) : bool := String.prefix p s.

(** ** ethers *)

(** A decoded argument: an integer ([BigNumber]) or a fixed-size array of
    integers. *)
Inductive ArgValue : Type :=
  | VBig (n : BigNumber)
  | VArr (l : list BigNumber).

(** [ethers.utils.TransactionDescription]: the function name and the
    arguments by name. *)
Record TransactionDescription := {
  name : string;
  args : gmap string ArgValue;
}.

(** [x.toNumber()]: throws when [x] is not a [BigNumber] (no such method, or
    [x] undefined) and, in ethers, when [x] does not fit 53 bits. *)
Definition toNumber (x : option ArgValue) : M Z :=
  match x with
  | Some (VBig n) =>
      if (Z.abs n <? 2 ^ 53)%Z then ret n else throw NUMERIC_FAULT
  | _ => throw TypeError
  end.

(** [BigNumber.from(x)], as [formatUnits] applies it to its first argument:
    an array of [BigNumber]s, and [undefined], is rejected as an invalid
    argument. *)
Definition BigNumber_from (x : option ArgValue) : M BigNumber :=
  match x with
  | Some (VBig n) => ret n
  | _ => throw INVALID_ARGUMENT
  end.

(** The value of [new Decimal(ethers.utils.formatUnits(raw, decimals))]:
    the numeral that [formatUnits] prints for [raw] with [decimals]
    fractional digits, which the constructor of [Decimal] reads without
    rounding. *)
Definition unitsToDecimal (raw : BigNumber) (decimals : nat) : Decimal :=
  Q2Qc (Qmake raw (Z.to_pos (10 ^ Z.of_nat decimals))).

(** [new Decimal(ethers.utils.formatUnits(x, decimals))]: ethers rejects a
    precision above 256 digits as an invalid argument, before it converts
    [x]. *)
Definition formatUnits (x : option ArgValue) (decimals : nat) : M Decimal :=
  if (256 <? decimals)%nat then throw INVALID_ARGUMENT
  else
    let* raw := BigNumber_from x in
    ret (unitsToDecimal raw decimals).

(** ** decimal.js *)

(** The default configuration of the library: results are rounded to
    [precision] significant digits, in rounding mode [ROUND_HALF_UP] (to the
    nearest, and away from zero on a tie). *)
Definition precision : Z := 20.

(** The number of decimal digits of [n], less one, for [n] at least 1. *)
Fixpoint log10_aux (fuel : nat) (n : Z) : Z :=
  match fuel with
  | O => 0
  | S fuel => if (n <? 10)%Z then 0 else (1 + log10_aux fuel (n / 10))%Z
  end.

Definition log10 (n : Z) : Z := log10_aux (Z.to_nat (Z.log2 n)) n.

(** The exponent of the leading digit of [a / b], for positive [a] and
    [b]. *)
Definition exponent10 (a b : Z) : Z :=
  if (b <=? a)%Z then log10 (a / b) else (- (log10 ((b - 1) / a) + 1))%Z.

(** [finalise(x, precision, ROUND_HALF_UP)]: [x] rounded to a multiple of
    the unit of its [precision]-th significant digit. *)
Definition finalise (q : Q) : Q :=
  if Qeq_bool q 0 then 0%Q
  else
    let e := exponent10 (Z.abs (Qnum q)) (Z.pos (Qden q)) in
    let u := (10 ^ (e - (precision - 1)))%Q in
    let m := Qfloor (Qabs q / u + (1 # 2)) in
    if Qle_bool 0 q then (inject_Z m * u)%Q else (- (inject_Z m * u))%Q.

(** [x.add(y)]: the sum, rounded. *)
Definition Decimal_add (x y : Decimal) : Decimal :=
  Q2Qc (finalise (x + y)%Q).

(** ** Arrays *)

(** [arr[k]] for a number [k]. *)
Definition index {A} (arr : list A) (k : Z) : option A :=
  if (k <? 0)%Z then None else arr !! Z.to_nat k.

(** [arr[x]] for a decoded argument [x] used as a property key: the key is
    [x.toString()], the decimal numeral of a [BigNumber] and the elements
    joined by commas for an array. *)
Definition indexByKey {A} (arr : list A) (x : option ArgValue) : option A :=
  match x with
  | Some (VBig n) => index arr n
  | Some (VArr [n]) => index arr n
  | _ => None
  end.

(** [arr.map(callback)], for a callback that reads and updates a variable of
    the enclosing function (the state [St]); the elements are visited in
    order, each with its index. *)
Fixpoint Array_map_from {St A B} (callback : A → nat → St → M (B * St))
    (i : nat) (arr : list A) (s : St) : M (list B * St) :=
  match arr with
  | [] => ret ([], s)
  | x :: rest =>
      let* (b, s1) := callback x i s in
      let* (bs, s2) := Array_map_from callback (S i) rest s1 in
      ret (b :: bs, s2)
  end.

Definition Array_map {St A B} (callback : A → nat → St → M (B * St))
    (arr : list A) (s : St) : M (list B * St) :=
  Array_map_from callback 0 arr s.

(** [x.map] exists only on an array. *)
Definition asArray (x : option ArgValue) : M (list BigNumber) :=
  match x with
  | Some (VArr l) => ret l
  | _ => throw TypeError
  end.

(** [lodash.compact], on an array whose falsy entries are [undefined]. *)
Definition compact {A} (l : list (option A)) : list A := omap id l.

(** [o.field]: reading a property of [undefined] is a [TypeError]. *)
Definition get {A B} (o : option A) (field : A → B) : M B :=
  match o with
  | Some a => ret (field a)
  | None => throw TypeError
  end.

(** [Number(s)] of a string, kept symbolic: the parser only stores it. *)
Inductive JsNumber : Type :=
  | Number (s : string).

(** ** The parser's data *)

(** Modelled from the spec: the enumeration [CurveAssetTypeName] of
    [curve.constants], which is not among the sources: a fixed set of known
    asset types and the distinguished value "unknown". *)
Inductive CurveAssetTypeName : Type :=
  | UNKNOWN
  | KnownAssetType (label : string).

Module Coin.
(** Modelled from the spec: an entry of the coin sequence of a pool, whose
    declaration ([data/pools]) is not among the sources: symbol, address and
    decimal precision. The parser reads the precision through
    [Number(coin.decimals)]. *)
Record t := {
  symbol : string;
  address : string;
  decimals : nat;
}.
End Coin.

Module Interface.
(** [ethers.utils.Interface], of which the parser uses the decoder
    [parseTransaction({ data, value })]; the decoder may throw. *)
Record t := {
  parseTransaction : string → string → Outcome TransactionDescription;
}.
End Interface.

Module Pool.
(** Modelled from the spec: [CurvePoolWithInterface], whose declaration
    ([data/pools]) is not among the sources, with the fields the parser
    reads: the address, the ordered coins, the asset type and the ABI
    interface. *)
Record t := {
  address : string;
  coins : list Coin.t;
  assetTypeName : CurveAssetTypeName;
  interface : Interface.t;
}.
End Pool.

Module EtherscanTx.
(** Modelled from the spec: the transaction record of the block explorer,
    whose declaration ([utils/etherscan]) is not among the sources, with the
    fields the parser reads; the status and error flags are the strings the
    parser compares with ['1'], and the recipient may be absent. *)
Record t := {
  hash : string;
  timeStamp : string;
  txreceipt_status : string;
  isError : string;
  to : option string;
  input : string;
  value : string;
}.
End EtherscanTx.

Inductive CurveTransactionType : Type :=
  | ADD_LIQUIDITY
  | REMOVE_LIQUIDITY
  | EXCHANGE.

Inductive Direction : Type :=
  | add
  | remove.

Module CurveTokenWithAmount.
Record t := {
  symbol : string;
  address : string;
  amount : option Decimal;
  type : Direction;
}.
End CurveTokenWithAmount.

Module CurveTransaction.
Record t := {
  hash : string;
  pool : string;
  timestamp : JsNumber;
  type : CurveTransactionType;
  totalAmount : option Decimal;
  tokens : list CurveTokenWithAmount.t;
}.
End CurveTransaction.

Module ParseTransactionAPI.
Record t := {
  decodedInput : option TransactionDescription;
  transaction : option CurveTransaction.t;
}.
End ParseTransactionAPI.

(** [pool.assetTypeName !== CurveAssetTypeName.UNKNOWN] *)
Definition isKnown (a : CurveAssetTypeName) : bool :=
  match a with
  | UNKNOWN => false
  | KnownAssetType _ => true
  end.

(** [!s] for a string that may be absent. *)
Definition falsy (s : option string) : bool :=
  match s with
  | None => true
  | Some s => String.eqb s ""
  end.

(** [pool.interface.parseTransaction({ data, value })] *)
Definition decode (pool : Pool.t) (data value : string)
    : M TransactionDescription :=
  let* _ := emit (DecodeCall data value) in
  ([], Interface.parseTransaction (Pool.interface pool) data value).

(** ** The parser *)

Section Parser.

(** The precision of a pool's LP token, [CURVE_POOL_TOKEN_DECIMALS] of
    [curve.constants]. The constant's file is not among the sources, so
    its value is a parameter of the development. *)
Variable CURVE_POOL_TOKEN_DECIMALS : nat.

Definition parseRemoveLiquidity (tx : EtherscanTx.t) (pool : Pool.t)
    (decodedInput : TransactionDescription)
    : M (option CurveTransaction.t) :=
  let* branch :=
    if String.eqb (name decodedInput) "remove_liquidity_imbalance" then
      let rawAmounts :=
        args decodedInput !! "_amounts" ?? args decodedInput !! "amounts" in
      let totalAmount : Decimal := 0%Qc in
      let* arr := asArray rawAmounts in
      let* (mapped, totalAmount) :=
        Array_map (fun rawAmount i totalAmount =>
          if Z.eqb rawAmount 0 then
            (* Ignore zero values *)
            ret (None, totalAmount)
          else
            let coin := Pool.coins pool !! i in
            let* decimals := get coin Coin.decimals in
            let* amount := formatUnits (Some (VBig rawAmount)) decimals in
            let totalAmount := Decimal_add totalAmount amount in
            let* symbol := get coin Coin.symbol in
            let* address := get coin Coin.address in
            ret (Some {| CurveTokenWithAmount.symbol := symbol;
                         CurveTokenWithAmount.address := address;
                         CurveTokenWithAmount.amount := Some amount;
                         CurveTokenWithAmount.type := remove |},
                 totalAmount))
          arr totalAmount in
      ret (Some (totalAmount, compact mapped))
    else if String.eqb (name decodedInput) "remove_liquidity_one_coin" then
      let rawAmount :=
        args decodedInput !! "_token_amount"
          ?? args decodedInput !! "token_amount"
          ?? args decodedInput !! "_burn_amount" in
      let coin := indexByKey (Pool.coins pool) (args decodedInput !! "i") in
      let* totalAmount := formatUnits rawAmount CURVE_POOL_TOKEN_DECIMALS in
      let* symbol := get coin Coin.symbol in
      let* address := get coin Coin.address in
      ret (Some (totalAmount,
                 [ {| CurveTokenWithAmount.symbol := symbol;
                      CurveTokenWithAmount.address := address;
                      CurveTokenWithAmount.amount := None;
                      CurveTokenWithAmount.type := remove |} ]))
    else if String.eqb (name decodedInput) "remove_liquidity" then
      let rawAmount :=
        args decodedInput !! "_amount"
          ?? args decodedInput !! "_burn_amount" in
      let* totalAmount := formatUnits rawAmount CURVE_POOL_TOKEN_DECIMALS in
      (* all coins removed in amounts that map to current pool weighting *)
      let tokens :=
        map (fun coin =>
               {| CurveTokenWithAmount.symbol := Coin.symbol coin;
                  CurveTokenWithAmount.address := Coin.address coin;
                  CurveTokenWithAmount.amount := None;
                  CurveTokenWithAmount.type := remove |})
            (Pool.coins pool) in
      ret (Some (totalAmount, tokens))
    else
      let* _ := emit (ConsoleWarn
                        "[parseRemoveLiquidity] Unknown transaction type: "
                        (name decodedInput)) in
      ret None in
  match branch with
  | None => ret None
  | Some (totalAmount, tokens) =>
      ret (Some
        {| CurveTransaction.hash := EtherscanTx.hash tx;
           CurveTransaction.pool := Pool.address pool;
           CurveTransaction.timestamp := Number (EtherscanTx.timeStamp tx);
           CurveTransaction.type := REMOVE_LIQUIDITY;
           CurveTransaction.totalAmount :=
             if isKnown (Pool.assetTypeName pool)
             then Some totalAmount else None;
           CurveTransaction.tokens := tokens |})
  end.

Definition parseAddLiquidity (tx : EtherscanTx.t) (pool : Pool.t)
    (decodedInput : TransactionDescription)
    : M (option CurveTransaction.t) :=
  let* branch :=
    if String.eqb (name decodedInput) "add_liquidity" then
      let rawAmounts :=
        args decodedInput !! "_amounts"
          ?? args decodedInput !! "amounts"
          ?? args decodedInput !! "uamounts" in
      let totalAmount : Decimal := 0%Qc in
      let* arr := asArray rawAmounts in
      let* (mapped, totalAmount) :=
        Array_map (fun rawAmount i totalAmount =>
          if Z.eqb rawAmount 0 then
            (* Ignore zero values *)
            ret (None, totalAmount)
          else
            let coin := Pool.coins pool !! i in
            let* decimals := get coin Coin.decimals in
            let* amount := formatUnits (Some (VBig rawAmount)) decimals in
            let totalAmount := Decimal_add totalAmount amount in
            let* symbol := get coin Coin.symbol in
            let* address := get coin Coin.address in
            ret (Some {| CurveTokenWithAmount.symbol := symbol;
                         CurveTokenWithAmount.address := address;
                         CurveTokenWithAmount.amount := Some amount;
                         CurveTokenWithAmount.type := add |},
                 totalAmount))
          arr totalAmount in
      ret (Some (totalAmount, compact mapped))
    else
      let* _ := emit (ConsoleWarn
                        "[parseAddLiquidity] Unknown transaction type: "
                        (name decodedInput)) in
      ret None in
  match branch with
  | None => ret None
  | Some (totalAmount, tokens) =>
      ret (Some
        {| CurveTransaction.hash := EtherscanTx.hash tx;
           CurveTransaction.pool := Pool.address pool;
           CurveTransaction.timestamp := Number (EtherscanTx.timeStamp tx);
           CurveTransaction.type := ADD_LIQUIDITY;
           CurveTransaction.totalAmount :=
             if isKnown (Pool.assetTypeName pool)
             then Some totalAmount else None;
           CurveTransaction.tokens := tokens |})
  end.

Definition parseExchange (tx : EtherscanTx.t) (pool : Pool.t)
    (decodedInput : TransactionDescription)
    : M (option CurveTransaction.t) :=
  let* branch :=
    (* [exchange] is a standard exchange *)
    if String.eqb (name decodedInput) "exchange" then
      let* i := toNumber (args decodedInput !! "i") in
      let fromCoin := index (Pool.coins pool) i in
      let* j := toNumber (args decodedInput !! "j") in
      let toCoin := index (Pool.coins pool) j in
      let rawAmount :=
        args decodedInput !! "dx" ?? args decodedInput !! "_dx" in
      let* decimals := get fromCoin Coin.decimals in
      let* totalAmount := formatUnits rawAmount decimals in
      let* fromSymbol := get fromCoin Coin.symbol in
      let* fromAddress := get fromCoin Coin.address in
      let* toSymbol := get toCoin Coin.symbol in
      let* toAddress := get toCoin Coin.address in
      ret (Some (totalAmount,
                 [ {| CurveTokenWithAmount.symbol := fromSymbol;
                      CurveTokenWithAmount.address := fromAddress;
                      CurveTokenWithAmount.amount := Some totalAmount;
                      CurveTokenWithAmount.type := add |};
                   {| CurveTokenWithAmount.symbol := toSymbol;
                      CurveTokenWithAmount.address := toAddress;
                      CurveTokenWithAmount.amount := None;
                      CurveTokenWithAmount.type := remove |} ]))
    else if String.eqb (name decodedInput) "exchange_underlying" then
      (* the pool data has no underlying tokens *)
      ret None
    else
      let* _ := emit (ConsoleWarn
                        "[parseExchange] Unknown transaction type: "
                        (name decodedInput)) in
      ret None in
  match branch with
  | None => ret None
  | Some (totalAmount, tokens) =>
      ret (Some
        {| CurveTransaction.hash := EtherscanTx.hash tx;
           CurveTransaction.pool := Pool.address pool;
           CurveTransaction.timestamp := Number (EtherscanTx.timeStamp tx);
           CurveTransaction.type := EXCHANGE;
           CurveTransaction.totalAmount :=
             if isKnown (Pool.assetTypeName pool)
             then Some totalAmount else None;
           CurveTransaction.tokens := tokens |})
  end.

(** The result of [parseTransaction] for a transaction it does not
    classify. *)
Definition notApplicable : ParseTransactionAPI.t :=
  {| ParseTransactionAPI.decodedInput := None;
     ParseTransactionAPI.transaction := None |}.

Definition parseTransaction (pool : Pool.t) (tx : EtherscanTx.t)
    : M ParseTransactionAPI.t :=
  if negb (String.eqb (EtherscanTx.txreceipt_status tx) "1")
     || String.eqb (EtherscanTx.isError tx) "1"
  then
    (* Sometimes failed / reverted tx cannot be decoded/parsed correctly *)
    ret notApplicable
  else if falsy (EtherscanTx.to tx) then
    (* [to] is empty on deploy contract call *)
    ret notApplicable
  else
    let* decoded :=
      try_catch
        (let* d := decode pool (EtherscanTx.input tx) (EtherscanTx.value tx) in
         ret (inr d))
        (fun e =>
           match code e with
           | Some c =>
               if String.eqb c "INVALID_ARGUMENT"
               then ret (inl notApplicable) else throw e
           | None => throw e
           end) in
    match decoded with
    | inl early => ret early
    | inr decodedInput =>
        let* transaction :=
          if startsWith (name decodedInput) "remove_liquidity" then
            parseRemoveLiquidity tx pool decodedInput
          else if startsWith (name decodedInput) "add_liquidity" then
            parseAddLiquidity tx pool decodedInput
          else if startsWith (name decodedInput) "exchange" then
            parseExchange tx pool decodedInput
          else ret None in
        ret {| ParseTransactionAPI.decodedInput := Some decodedInput;
               ParseTransactionAPI.transaction := transaction |}
    end.

End Parser.

(** ** Vocabulary of the specification *)

(** A token leg: a coin, a direction and an amount that may be unknown. *)
Definition leg (dir : Direction) (coin : Coin.t) (amount : option Decimal)
    : CurveTokenWithAmount.t :=
  {| CurveTokenWithAmount.symbol := Coin.symbol coin;
     CurveTokenWithAmount.address := Coin.address coin;
     CurveTokenWithAmount.amount := amount;
     CurveTokenWithAmount.type := dir |}.

(** The record the three decoders assemble: the total is kept only for a
    pool whose asset type is known. *)
Definition classified (kind : CurveTransactionType) (tx : EtherscanTx.t)
    (pool : Pool.t) (total : Decimal) (legs : list CurveTokenWithAmount.t)
    : CurveTransaction.t :=
  {| CurveTransaction.hash := EtherscanTx.hash tx;
     CurveTransaction.pool := Pool.address pool;
     CurveTransaction.timestamp := Number (EtherscanTx.timeStamp tx);
     CurveTransaction.type := kind;
     CurveTransaction.totalAmount :=
       if isKnown (Pool.assetTypeName pool) then Some total else None;
     CurveTransaction.tokens := legs |}.

(** The entries [A[i]] that are not zero, each with the coin at its index. *)
Definition nonZeroEntries (A : list BigNumber) (coins : list Coin.t)
    : list (BigNumber * Coin.t) :=
  filter (λ p, p.1 ≠ 0%Z) (zip A coins).

(** The amount that the parser computes for an entry [A[i]] and its coin. *)
Definition converted (p : BigNumber * Coin.t) : Decimal :=
  unitsToDecimal p.1 (Coin.decimals p.2).

(** [raw / 10^decimals], in the rationals. *)
Abbreviation quotient raw decimals :=
  (Q2Qc (inject_Z raw) / Q2Qc (inject_Z (10 ^ Z.of_nat decimals)))%Qc.

(** [A[i] / 10^decimals[i]], as the specification states it. *)
Definition amountOf (p : BigNumber * Coin.t) : Decimal :=
  quotient p.1 (Coin.decimals p.2).

(** The exact sum. *)
Definition sumDecimal (l : list Decimal) : Decimal := foldr Qcplus 0%Qc l.

(** [r] is [x] rounded to 20 significant digits, to the nearest and away
    from zero on a tie: zero stays zero; otherwise, with [e] the exponent of
    the leading digit of [x], [r] has the sign of [x] and its magnitude is
    the multiple of [10^(e - 19)] within half a unit of that of [x], the
    upper one when two are. *)
Definition roundsTo (x r : Q) : Prop :=
  (x == 0 ∧ r == 0)%Q
  ∨ ∃ e m : Z,
      (10 ^ e <= Qabs x ∧ Qabs x < 10 ^ (e + 1)
       ∧ Qabs r == inject_Z m * 10 ^ (e - 19)
       ∧ 0 <= x * r
       ∧ Qabs r - (1 # 2) * 10 ^ (e - 19) <= Qabs x
       ∧ Qabs x < Qabs r + (1 # 2) * 10 ^ (e - 19))%Q.


(** [total] is what adding the [amounts] to [acc] gives, one after the
    other in their order, when every sum is rounded to 20 significant
    digits. *)
Fixpoint accumulates (acc : Decimal) (amounts : list Decimal)
    (total : Decimal) : Prop :=
  match amounts with
  | [] => total = acc
  | x :: rest =>
      ∃ r : Decimal, roundsTo (acc + x)%Q r ∧ accumulates r rest total
  end.

(** The amounts of the legs that have one. *)
Definition presentAmounts (legs : list CurveTokenWithAmount.t)
    : list Decimal :=
  omap CurveTokenWithAmount.amount legs.

(** Every entry of [A] that is not zero has a coin at its index. *)
Definition nonZeroInRange (A : list BigNumber) (coins : list Coin.t) : Prop :=
  ∀ i a, A !! i = Some a → a ≠ 0%Z → i < length coins.

(** The coin of every entry of [A] that is not zero has a precision of at
    most 256 digits, the largest that [formatUnits] accepts (that of an
    ERC-20 token is an unsigned byte). *)
Definition acceptedPrecisions (A : list BigNumber) (coins : list Coin.t)
    : Prop :=
  ∀ i a c, A !! i = Some a → a ≠ 0%Z → coins !! i = Some c →
           (Coin.decimals c ≤ 256)%nat.

(** The callback that [parseAddLiquidity] and [parseRemoveLiquidity] pass to
    [map], with the direction they tag the leg with. *)
Definition legCallback (dir : Direction) (coins : list Coin.t)
    (rawAmount : BigNumber) (i : nat) (totalAmount : Decimal)
    : M (option CurveTokenWithAmount.t * Decimal) :=
  if Z.eqb rawAmount 0 then ret (None, totalAmount)
  else
    let coin := coins !! i in
    let* decimals := get coin Coin.decimals in
    let* amount := formatUnits (Some (VBig rawAmount)) decimals in
    let totalAmount := Decimal_add totalAmount amount in
    let* symbol := get coin Coin.symbol in
    let* address := get coin Coin.address in
    ret (Some {| CurveTokenWithAmount.symbol := symbol;
                 CurveTokenWithAmount.address := address;
                 CurveTokenWithAmount.amount := Some amount;
                 CurveTokenWithAmount.type := dir |},
         totalAmount).

(** The transaction passes the guards of [parseTransaction] and the pool's
    decoder reads its calldata as the call [d]. *)
Definition decodesTo (pool : Pool.t) (tx : EtherscanTx.t)
    (d : TransactionDescription) : Prop :=
  EtherscanTx.txreceipt_status tx = "1"
  ∧ EtherscanTx.isError tx ≠ "1"
  ∧ falsy (EtherscanTx.to tx) = false
  ∧ Interface.parseTransaction (Pool.interface pool)
      (EtherscanTx.input tx) (EtherscanTx.value tx) = Return d.

(** ** Sample pools, transactions and calls *)

Definition DAI : Coin.t :=
  {| Coin.symbol := "DAI"; Coin.address := "0x6B17"; Coin.decimals := 18 |}.
Definition USDC : Coin.t :=
  {| Coin.symbol := "USDC"; Coin.address := "0xA0b8"; Coin.decimals := 6 |}.
Definition USDT : Coin.t :=
  {| Coin.symbol := "USDT"; Coin.address := "0xdAC1"; Coin.decimals := 6 |}.
Definition WBTC : Coin.t :=
  {| Coin.symbol := "WBTC"; Coin.address := "0x2260"; Coin.decimals := 8 |}.
Definition WETH : Coin.t :=
  {| Coin.symbol := "WETH"; Coin.address := "0xC02a"; Coin.decimals := 18 |}.

(** A decoder that answers every calldata the same way. *)
Definition decoderAnswering (r : Outcome TransactionDescription)
    : Interface.t :=
  {| Interface.parseTransaction := λ _ _, r |}.

Definition BUFFER_OVERRUN : JsError :=
  {| errName := "Error"; code := Some "BUFFER_OVERRUN" |}.

(** A pool of three dollar coins, with the decoder's answer as parameter. *)
Definition threePool (r : Outcome TransactionDescription) : Pool.t :=
  {| Pool.address := "0xbEbc";
     Pool.coins := [DAI; USDC; USDT];
     Pool.assetTypeName := KnownAssetType "usd";
     Pool.interface := decoderAnswering r |}.

(** A pool of coins of unlike kinds. *)
Definition triCrypto : Pool.t :=
  {| Pool.address := "0xD51a";
     Pool.coins := [USDT; WBTC; WETH];
     Pool.assetTypeName := UNKNOWN;
     Pool.interface := decoderAnswering (Throw INVALID_ARGUMENT) |}.

Definition okTx : EtherscanTx.t :=
  {| EtherscanTx.hash := "0x5f3a";
     EtherscanTx.timeStamp := "1654646411";
     EtherscanTx.txreceipt_status := "1";
     EtherscanTx.isError := "0";
     EtherscanTx.to := Some "0xbEbc";
     EtherscanTx.input := "0x3df02124";
     EtherscanTx.value := "0" |}.

Definition revertedTx : EtherscanTx.t :=
  {| EtherscanTx.hash := "0x77c1";
     EtherscanTx.timeStamp := "1654646500";
     EtherscanTx.txreceipt_status := "0";
     EtherscanTx.isError := "1";
     EtherscanTx.to := Some "0xbEbc";
     EtherscanTx.input := "0x3df02124";
     EtherscanTx.value := "0" |}.

(** One DAI and two and a half USDT, nothing of USDC. *)
Definition someAmounts : list BigNumber :=
  [1000000000000000000; 0; 2500000]%Z.

Definition addCall : TransactionDescription :=
  {| name := "add_liquidity";
     args := {[ "amounts" := VArr someAmounts ]} |}.


Definition balancedCall : TransactionDescription :=
  {| name := "remove_liquidity";
     args := {[ "_amount" := VBig 1500000000000000000 ]} |}.

Definition exchangeCall (i j dx : BigNumber) : TransactionDescription :=
  {| name := "exchange";
     args := <[ "i" := VBig i ]> (<[ "j" := VBig j ]> {[ "dx" := VBig dx ]}) |}.

Definition oneCoinCallAt (j : BigNumber) : TransactionDescription :=
  {| name := "remove_liquidity_one_coin";
     args := <[ "_token_amount" := VBig 1500000000000000000 ]>
               {[ "i" := VBig j ]} |}.

(** A contract creation: no recipient. *)
Definition deployTx : EtherscanTx.t :=
  {| EtherscanTx.hash := "0x9d02";
     EtherscanTx.timeStamp := "1654646600";
     EtherscanTx.txreceipt_status := "1";
     EtherscanTx.isError := "0";
     EtherscanTx.to := Some "";
     EtherscanTx.input := "0x60806040";
     EtherscanTx.value := "0" |}.

(** A call of the given name, with the arguments of an exchange. *)
Definition namedCall (n : string) : TransactionDescription :=
  {| name := n;
     args := <[ "i" := VBig 0 ]>
               (<[ "j" := VBig 2 ]> {[ "dx" := VBig 5000000000000000000 ]}) |}.

(** A call of the given name without arguments. *)
Definition bareCall (n : string) : TransactionDescription :=
  {| name := n; args := ∅ |}.

(** An exchange from DAI to USDT that states no amount. *)
Definition exchangeWithoutAmount : TransactionDescription :=
  {| name := "exchange";
     args := <[ "i" := VBig 0 ]> {[ "j" := VBig 2 ]} |}.



(** A deposit of nothing. *)
Definition zeroCall (n : string) : TransactionDescription :=
  {| name := n; args := {[ "_amounts" := VArr [0; 0; 0]%Z ]} |}.

(** The deposit of [someAmounts] into the pool of three dollar coins. *)
Definition someDeposit : CurveTransaction.t :=
  classified ADD_LIQUIDITY okTx (threePool (Return addCall))
    (sumDecimal [ unitsToDecimal 1000000000000000000 18;
                  unitsToDecimal 2500000 6 ])
    [ leg add DAI (Some (unitsToDecimal 1000000000000000000 18));
      leg add USDT (Some (unitsToDecimal 2500000 6)) ].

(** The exchange of five DAI for USDT in the pool of three dollar coins. *)
Definition someExchange : CurveTransaction.t :=
  classified EXCHANGE okTx
    (threePool (Return (exchangeCall 0 2 5000000000000000000)))
    (unitsToDecimal 5000000000000000000 18)
    [ leg add DAI (Some (unitsToDecimal 5000000000000000000 18));
      leg remove USDT None ].

(** A computation is silent when it emits no event, however it ends. *)
Definition silent {A} (m : M A) : Prop := m.1 = [].

(** * Properties *)

(** ** The monad and the conversions *)

Lemma bind_Return {A B} (m : M A) (k : A → M B) t b :
  bind m k = (t, Return b) →
  ∃ t1 a t2, m = (t1, Return a) ∧ k a = (t2, Return b) ∧ t = t1 ++ t2.
Proof.
  destruct m as [t1 [a|e]]; simpl.
  - destruct (k a) as [t2 r] eqn:Hk. intros [= <- ->]. eauto 6.
  - discriminate.
Qed.

Lemma get_Return {A B} (o : option A) (field : A → B) t b :
  get o field = (t, Return b) → ∃ a, o = Some a ∧ b = field a ∧ t = [].
Proof. destruct o; simpl; [intros [= <- <-]; eauto | discriminate]. Qed.

Lemma unitsToDecimal_zero raw decimals :
  unitsToDecimal raw decimals = 0%Qc ↔ raw = 0%Z.
Proof.
  unfold unitsToDecimal. split.
  - intros H. apply (f_equal this) in H. simpl in H.
    assert (Hq : Qred (raw # Z.to_pos (10 ^ Z.of_nat decimals)) == 0)
      by (rewrite H; reflexivity).
    rewrite Qred_correct in Hq. unfold Qeq in Hq. simpl in Hq. lia.
  - intros ->. apply Qc_is_canon. simpl. rewrite Qred_correct. reflexivity.
Qed.

(** [unitsToDecimal raw d] is the quotient of [raw] by [10^d]. *)
Lemma unitsToDecimal_scaled raw decimals :
  (unitsToDecimal raw decimals * Q2Qc (inject_Z (10 ^ Z.of_nat decimals))
   = Q2Qc (inject_Z raw))%Qc.
Proof.
  assert (Hpos : (0 < 10 ^ Z.of_nat decimals)%Z) by lia.
  apply Qc_is_canon. unfold unitsToDecimal. simpl.
  rewrite !Qred_correct. unfold Qeq, inject_Z, Qmult. cbn [Qnum Qden].
  rewrite Pos.mul_1_r, Z2Pos.id by done. ring.
Qed.

Example one_and_a_half :
  unitsToDecimal 1500000000000000000 18 = Q2Qc (3 # 2).
Proof. apply Qc_is_canon. reflexivity. Qed.

(** The value that the parser reads from [formatUnits] is the quotient of
    the specification. *)
Lemma unitsToDecimal_quotient raw decimals :
  unitsToDecimal raw decimals = quotient raw decimals.
Proof.
  assert (Hpos : (0 < 10 ^ Z.of_nat decimals)%Z) by lia.
  apply Qc_is_canon. unfold unitsToDecimal, Qcdiv, Qcmult, Qcinv.
  cbn [this Q2Qc]. rewrite !Qred_correct.
  destruct (10 ^ Z.of_nat decimals)%Z as [|p|p] eqn:Hp; try lia.
  unfold Qeq, Qmult, Qinv, inject_Z. cbn [Qnum Qden Z.to_pos]. lia.
Qed.

Lemma converted_amountOf p : converted p = amountOf p.
Proof. apply unitsToDecimal_quotient. Qed.

Lemma formatUnits_accepted x decimals :
  (decimals ≤ 256)%nat →
  formatUnits x decimals
  = let* raw := BigNumber_from x in ret (unitsToDecimal raw decimals).
Proof.
  intros Hd. unfold formatUnits.
  destruct (Nat.ltb_spec 256 decimals); [lia | done].
Qed.

Lemma formatUnits_rejected x decimals :
  (256 < decimals)%nat →
  formatUnits x decimals = ([], Throw INVALID_ARGUMENT).
Proof.
  intros Hd. unfold formatUnits.
  destruct (Nat.ltb_spec 256 decimals); [done | lia].
Qed.

(** ** Rounding to significant digits *)

Lemma log10_aux_spec fuel : ∀ n,
  (1 ≤ n < 10 ^ (Z.of_nat fuel + 1))%Z →
  (0 ≤ log10_aux fuel n
   ∧ 10 ^ log10_aux fuel n ≤ n < 10 ^ (log10_aux fuel n + 1))%Z.
Proof.
  induction fuel as [|fuel IH]; intros n Hn.
  - simpl in *. lia.
  - cbn [log10_aux]. destruct (Z.ltb_spec n 10) as [Hlt|Hge].
    + simpl. lia.
    + assert (Hdiv : (1 ≤ n / 10 < 10 ^ (Z.of_nat fuel + 1))%Z).
      { split.
        - apply Z.div_le_lower_bound; lia.
        - apply Z.div_lt_upper_bound; [lia|].
          replace (Z.of_nat (S fuel) + 1)%Z with (1 + (Z.of_nat fuel + 1))%Z
            in Hn by lia.
          rewrite Z.pow_add_r in Hn by lia. lia. }
      destruct (IH _ Hdiv) as (H0 & Hlo & Hhi).
      set (L := log10_aux fuel (n / 10)) in *.
      replace (1 + L + 1)%Z with (1 + (L + 1))%Z by lia.
      rewrite (Z.pow_add_r 10 1 L), (Z.pow_add_r 10 1 (L + 1)) by lia.
      change (10 ^ 1)%Z with 10%Z.
      pose proof (Z.mul_div_le n 10 ltac:(lia)).
      pose proof (Z.mul_succ_div_gt n 10 ltac:(lia)).
      lia.
Qed.

Lemma log10_spec n :
  (1 ≤ n)%Z → (0 ≤ log10 n ∧ 10 ^ log10 n ≤ n < 10 ^ (log10 n + 1))%Z.
Proof.
  intros Hn. apply log10_aux_spec. split; [done|].
  pose proof (Z.log2_spec n ltac:(lia)) as [_ Hhi].
  pose proof (Z.log2_nonneg n).
  rewrite Z2Nat.id by done.
  eapply Z.lt_le_trans; [exact Hhi|].
  replace (Z.succ (Z.log2 n)) with (Z.log2 n + 1)%Z by lia.
  apply Z.pow_le_mono_l. lia.
Qed.

(** [exponent10 a b] is the exponent of the leading digit of [a / b]. *)
Lemma exponent10_spec a b :
  (0 < a)%Z → (0 < b)%Z →
  let e := exponent10 a b in
  (0 ≤ e ∧ b * 10 ^ e ≤ a < b * 10 ^ (e + 1))%Z
  ∨ (e < 0 ∧ a * 10 ^ (- e - 1) < b ≤ a * 10 ^ (- e))%Z.
Proof.
  intros Ha Hb. unfold exponent10. cbv zeta.
  destruct (Z.leb_spec b a) as [Hle|Hlt].
  - left.
    assert (H1 : (1 ≤ a / b)%Z) by (apply Z.div_le_lower_bound; lia).
    destruct (log10_spec _ H1) as (H0 & Hlo & Hhi).
    set (L := log10 (a / b)) in *.
    pose proof (Z.mul_div_le a b Hb).
    pose proof (Z.mul_succ_div_gt a b Hb).
    split; [done|]. split; nia.
  - right.
    assert (H1 : (1 ≤ (b - 1) / a)%Z) by (apply Z.div_le_lower_bound; lia).
    destruct (log10_spec _ H1) as (H0 & Hlo & Hhi).
    set (L := log10 ((b - 1) / a)) in *.
    pose proof (Z.mul_div_le (b - 1) a Ha).
    pose proof (Z.mul_succ_div_gt (b - 1) a Ha).
    replace (- - (L + 1) - 1)%Z with L by lia.
    replace (- - (L + 1))%Z with (L + 1)%Z by lia.
    split; [lia|]. split; nia.
Qed.

Lemma Qpower10_nonneg k : (0 ≤ k)%Z → (10 ^ k == inject_Z (10 ^ k))%Q.
Proof. intros Hk. symmetry. by apply (Zpower_Qpower 10 k). Qed.

Lemma Qpower10_neg k : (0 ≤ k)%Z → (10 ^ (- k) == / inject_Z (10 ^ k))%Q.
Proof. intros Hk. by rewrite Qpower_opp, Qpower10_nonneg. Qed.

Lemma Qpower10_pos k : (0 < 10 ^ k)%Q.
Proof. by apply Qpower_0_lt. Qed.

Lemma Qpower10_succ k : (10 ^ (k + 1) == 10 * 10 ^ k)%Q.
Proof. rewrite Qpower_plus by done. rewrite Qmult_comm. reflexivity. Qed.

Lemma exponent10_Qabs (q : Q) :
  ¬ (q == 0)%Q →
  let e := exponent10 (Z.abs (Qnum q)) (Z.pos (Qden q)) in
  (10 ^ e <= Qabs q ∧ Qabs q < 10 ^ (e + 1))%Q.
Proof.
  destruct q as [n d]. intros Hq. cbn [Qnum Qden Qabs].
  assert (Ha : (0 < Z.abs n)%Z).
  { destruct (decide (n = 0%Z)) as [->|]; [|lia]. by destruct Hq. }
  destruct (exponent10_spec (Z.abs n) (Z.pos d) Ha ltac:(done))
    as [(He & Hlo & Hhi) | (He & Hlo & Hhi)];
    set (e := exponent10 (Z.abs n) (Z.pos d)) in *; cbv zeta.
  - rewrite !Qpower10_nonneg by lia. unfold Qle, Qlt. simpl. lia.
  - replace e with (- (- e))%Z at 1 by lia.
    replace (e + 1)%Z with (- (- e - 1))%Z by lia.
    rewrite !Qpower10_neg by lia. split.
    + apply Qle_shift_inv_r.
      * change 0%Q with (inject_Z 0). rewrite <- Zlt_Qlt. lia.
      * unfold Qle, Qmult, inject_Z. simpl. lia.
    + apply Qlt_shift_inv_l.
      * change 0%Q with (inject_Z 0). rewrite <- Zlt_Qlt. lia.
      * unfold Qlt, Qmult, inject_Z. simpl. lia.
Qed.

Lemma Qabs_nonzero q : ¬ (q == 0)%Q → (0 < Qabs q)%Q.
Proof.
  intros Hq. destruct (Qlt_le_dec 0 (Qabs q)) as [|Hle]; [done|].
  destruct Hq. apply Qabs_Qle_condition in Hle. lra.
Qed.

Lemma half_up_bounds (a u : Q) :
  (0 <= a)%Q → (0 < u)%Q →
  let m := Qfloor (a / u + (1 # 2)) in
  (0 ≤ m)%Z
  ∧ (inject_Z m * u - (1 # 2) * u <= a ∧ a < inject_Z m * u + (1 # 2) * u)%Q.
Proof.
  intros Ha Hu m.
  assert (Ht : (a == (a / u) * u)%Q) by (field; lra).
  set (t := (a / u)%Q) in *.
  assert (Ht0 : (0 <= t)%Q).
  { unfold t. apply Qle_shift_div_l; lra. }
  pose proof (Qfloor_le (t + (1 # 2))) as Hlo.
  pose proof (Qlt_floor (t + (1 # 2))) as Hhi.
  fold m in Hlo, Hhi. rewrite inject_Z_plus in Hhi.
  change (inject_Z 1) with 1%Q in Hhi.
  split.
  - assert (H : (-1 < inject_Z m)%Q) by lra.
    change (-1)%Q with (inject_Z (-1)) in H. rewrite <- Zlt_Qlt in H. lia.
  - assert (H1 : (0 <= (t + (1 # 2) - inject_Z m) * u)%Q)
      by (apply Qmult_le_0_compat; lra).
    assert (H2 : (0 < (inject_Z m + 1 - (t + (1 # 2))) * u)%Q)
      by (apply Qmult_lt_0_compat; lra).
    rewrite Ht. split; lra.
Qed.

(** [finalise] rounds as [roundsTo] states. *)
Lemma finalise_spec q : roundsTo q (finalise q).
Proof.
  unfold finalise. destruct (Qeq_bool q 0) eqn:Hz.
  - left. apply Qeq_bool_eq in Hz. split; [done | reflexivity].
  - right. apply Qeq_bool_neq in Hz. cbv zeta.
    change (precision - 1)%Z with 19%Z.
    set (e := exponent10 (Z.abs (Qnum q)) (Z.pos (Qden q))).
    destruct (exponent10_Qabs q Hz) as [Hlo Hhi]. fold e in Hlo, Hhi.
    pose proof (Qpower10_pos (e - 19)) as Hu.
    pose proof (Qabs_nonneg q) as Ha.
    destruct (half_up_bounds (Qabs q) (10 ^ (e - 19)) Ha Hu)
      as (Hm & Hb1 & Hb2).
    set (m := Qfloor (Qabs q / 10 ^ (e - 19) + (1 # 2))) in *.
    assert (Hm' : (0 <= inject_Z m)%Q).
    { change 0%Q with (inject_Z 0). by rewrite <- Zle_Qle. }
    assert (Hmu : (0 <= inject_Z m * 10 ^ (e - 19))%Q) by nra.
    exists e, m.
    destruct (Qle_bool 0 q) eqn:Hs.
    + apply Qle_bool_iff in Hs.
      rewrite (Qabs_pos (inject_Z m * _)) by done.
      split_and!; try done; try reflexivity; try nra; try lra.
    + assert (Hneg : (q < 0)%Q).
      { apply Qnot_le_lt. intros Hle. apply Qle_bool_iff in Hle. congruence. }
      rewrite Qabs_opp, (Qabs_pos (inject_Z m * _)) by done.
      split_and!; try done; try reflexivity; try nra; try lra.
Qed.

Lemma roundsTo_wd x x' r r' :
  (x == x')%Q → (r == r')%Q → roundsTo x r → roundsTo x' r'.
Proof.
  intros Hx Hr [[H1 H2] | (e & m & H)].
  - left. by rewrite <- Hx, <- Hr.
  - right. exists e, m. by rewrite <- Hx, <- Hr.
Qed.

Lemma roundsTo_nonzero x r e :
  (10 ^ e <= Qabs x)%Q →
  (Qabs x < Qabs r + (1 # 2) * 10 ^ (e - 19))%Q →
  (0 < Qabs r)%Q.
Proof.
  intros Hlo Hhi.
  pose proof (Qpower10_pos e).
  assert (10 ^ (e - 19) <= 10 ^ e)%Q
    by (apply Qpower_le_compat_l; [lia | done]).
  lra.
Qed.

(** Rounding keeps the sign, and never reaches zero. *)
Lemma roundsTo_pos x r : (0 < x)%Q → roundsTo x r → (0 < r)%Q.
Proof.
  intros Hx [[H1 H2] | (e & m & Hlo & _ & _ & Hsign & _ & Hhi)]; [lra|].
  pose proof (roundsTo_nonzero x r e Hlo Hhi) as Hr.
  destruct (Qlt_le_dec 0 r) as [|Hle]; [done|].
  assert (x * r <= 0)%Q by nra.
  assert (Hxr : (x * r == 0)%Q) by lra.
  apply Qmult_integral in Hxr as [Hz | Hz]; [lra|].
  rewrite Hz in Hr. by apply Qlt_irrefl in Hr.
Qed.

Lemma roundsTo_zero r : roundsTo 0 r → (r == 0)%Q.
Proof.
  intros [[_ H] | (e & m & Hlo & _)]; [done|].
  pose proof (Qpower10_pos e). change (Qabs 0) with 0%Q in Hlo. lra.
Qed.

Lemma roundsTo_opp x r : roundsTo x r → roundsTo (- x) (- r).
Proof.
  intros [[H1 H2] | (e & m & H)].
  - left. rewrite H1, H2. done.
  - right. exists e, m. rewrite !Qabs_opp.
    destruct H as (? & ? & ? & Hs & ? & ?). split_and!; try done.
    assert (E : (- x * - r == x * r)%Q) by ring. by rewrite E.
Qed.

Lemma roundsTo_unique_pos x r1 r2 :
  (0 < x)%Q → roundsTo x r1 → roundsTo x r2 → (r1 == r2)%Q.
Proof.
  intros Hx H1 H2.
  pose proof (roundsTo_pos _ _ Hx H1) as Hr1.
  pose proof (roundsTo_pos _ _ Hx H2) as Hr2.
  destruct H1 as [[H1 _] | (e1 & m1 & Hlo1 & Hhi1 & Hm1 & _ & Ha1 & Hb1)];
    [lra|].
  destruct H2 as [[H2 _] | (e2 & m2 & Hlo2 & Hhi2 & Hm2 & _ & Ha2 & Hb2)];
    [lra|].
  rewrite (Qabs_pos r1) in * by lra. rewrite (Qabs_pos r2) in * by lra.
  assert (He : e1 = e2).
  { assert (e1 < e2 + 1)%Z
      by (apply (Qpower_lt_compat_l_inv 10); [lra | done]).
    assert (e2 < e1 + 1)%Z
      by (apply (Qpower_lt_compat_l_inv 10); [lra | done]).
    lia. }
  subst e2.
  pose proof (Qpower10_pos (e1 - 19)) as Hu.
  set (u := (10 ^ (e1 - 19))%Q) in *.
  assert (Hlt : ∀ a b : Z,
    (inject_Z a * u - (1 # 2) * u < inject_Z b * u + (1 # 2) * u)%Q →
    (a < b + 1)%Z).
  { intros a b Hab. destruct (Z.lt_ge_cases a (b + 1)) as [|Hge]; [done|].
    rewrite Zle_Qle, inject_Z_plus in Hge.
    change (inject_Z 1) with 1%Q in Hge.
    assert (0 <= (inject_Z a - inject_Z b - 1) * u)%Q
      by (apply Qmult_le_0_compat; lra).
    lra. }
  assert (m1 = m2).
  { assert (m1 < m2 + 1)%Z by (apply Hlt; rewrite <- Hm1, <- Hm2; lra).
    assert (m2 < m1 + 1)%Z by (apply Hlt; rewrite <- Hm1, <- Hm2; lra).
    lia. }
  subst m2. by rewrite Hm1, Hm2.
Qed.

(** [roundsTo] determines the rounded value. *)
Lemma roundsTo_unique x r1 r2 :
  roundsTo x r1 → roundsTo x r2 → (r1 == r2)%Q.
Proof.
  intros H1 H2.
  destruct (Q_dec x 0) as [[Hneg | Hpos] | Hz].
  - apply roundsTo_opp in H1, H2.
    assert (H : (- r1 == - r2)%Q)
      by (apply (roundsTo_unique_pos (- x)); [lra | done | done]).
    lra.
  - by apply (roundsTo_unique_pos x).
  - apply (roundsTo_wd _ 0 _ r1) in H1; [|done | reflexivity].
    apply (roundsTo_wd _ 0 _ r2) in H2; [|done | reflexivity].
    apply roundsTo_zero in H1, H2. by rewrite H1, H2.
Qed.



(** [x.add(y)] is the sum of [x] and [y], rounded. *)
Lemma Decimal_add_spec (x y : Decimal) : roundsTo (x + y)%Q (Decimal_add x y).
Proof.
  unfold Decimal_add. cbn [this Q2Qc].
  eapply roundsTo_wd; [reflexivity | | apply finalise_spec].
  symmetry. apply Qred_correct.
Qed.

(** Adding the amounts of a list with [Decimal.add], from left to right, is
    the one way to accumulate them. *)
Lemma foldl_accumulates l : ∀ acc, accumulates acc l (foldl Decimal_add acc l).
Proof.
  induction l as [|x l IH]; intros acc; simpl; [done|].
  exists (Decimal_add acc x). split; [apply Decimal_add_spec | apply IH].
Qed.

Lemma accumulates_unique l :
  ∀ acc total, accumulates acc l total → total = foldl Decimal_add acc l.
Proof.
  induction l as [|x l IH]; intros acc total; simpl; [done|].
  intros (r & Hr & Hrest).
  assert (r = Decimal_add acc x) as ->; [|by apply IH].
  apply Qc_is_canon.
  exact (roundsTo_unique _ _ _ Hr (Decimal_add_spec acc x)).
Qed.




(** The entries of [nonZeroEntries] by index: the pairs of an entry of [A]
    that is not zero with the coin at the same index. *)
Lemma nonZeroEntries_spec A coins a c :
  (a, c) ∈ nonZeroEntries A coins
  ↔ a ≠ 0%Z ∧ ∃ i, A !! i = Some a ∧ coins !! i = Some c.
Proof.
  unfold nonZeroEntries.
  rewrite list_elem_of_filter, elem_of_lookup_zip_with. simpl. split.
  - intros (Ha & i & x & y & [= -> ->] & Hx & Hy). eauto.
  - intros (Ha & i & Hx & Hy). split; [done|]. by exists i, a, c.
Qed.

(** ** The map over the raw amounts *)

Lemma drop_S_tail {A} (l : list A) k : drop (S k) l = tail (drop k l).
Proof.
  revert l. induction k as [|k IH]; intros [|x l]; simpl; auto.
Qed.

Lemma nonZeroEntries_zero arr coins :
  nonZeroEntries (0%Z :: arr) coins = nonZeroEntries arr (tail coins).
Proof.
  unfold nonZeroEntries. destruct coins as [|c cs]; simpl.
  - by destruct arr.
  - rewrite filter_cons_False; [done | simpl; lia].
Qed.

Lemma nonZeroEntries_cons a arr c cs :
  a ≠ 0%Z →
  nonZeroEntries (a :: arr) (c :: cs) = (a, c) :: nonZeroEntries arr cs.
Proof.
  intros Ha. unfold nonZeroEntries. simpl. by rewrite filter_cons_True.
Qed.

Lemma legCallback_zero dir coins i s :
  legCallback dir coins 0%Z i s = ([], Return (None, s)).
Proof. reflexivity. Qed.

Lemma legCallback_coin dir coins a i s c :
  a ≠ 0%Z → coins !! i = Some c → (Coin.decimals c ≤ 256)%nat →
  legCallback dir coins a i s
    = ([], Return (Some (leg dir c (Some (converted (a, c)))),
                   Decimal_add s (converted (a, c)))).
Proof.
  intros Ha Hc Hd. unfold legCallback. rewrite Hc.
  destruct (Z.eqb_spec a 0); [done|].
  cbn [get bind ret app]. by rewrite formatUnits_accepted.
Qed.

Lemma legCallback_no_coin dir coins a i s :
  a ≠ 0%Z → coins !! i = None →
  legCallback dir coins a i s = ([], Throw TypeError).
Proof.
  intros Ha Hc. unfold legCallback. rewrite Hc.
  destruct (Z.eqb_spec a 0); [done | reflexivity].
Qed.

Lemma legCallback_rejected dir coins a i s c :
  a ≠ 0%Z → coins !! i = Some c → (256 < Coin.decimals c)%nat →
  legCallback dir coins a i s = ([], Throw INVALID_ARGUMENT).
Proof.
  intros Ha Hc Hd. unfold legCallback. rewrite Hc.
  destruct (Z.eqb_spec a 0); [done|].
  cbn [get bind ret app]. by rewrite formatUnits_rejected.
Qed.

(** When every non-zero entry has a coin of an accepted precision, the map
    returns, without an event: the legs of the non-zero entries, and the
    total to which their amounts were added in order. *)
Lemma Array_map_from_legs dir coins arr :
  ∀ k s,
    (∀ i a, arr !! i = Some a → a ≠ 0%Z →
            ∃ c, coins !! (k + i) = Some c ∧ (Coin.decimals c ≤ 256)%nat) →
    ∃ mapped,
      Array_map_from (legCallback dir coins) k arr s
        = ([], Return (mapped,
             foldl Decimal_add s
               (map converted (nonZeroEntries arr (drop k coins)))))
      ∧ compact mapped
        = map (λ p, leg dir p.2 (Some (converted p)))
              (nonZeroEntries arr (drop k coins)).
Proof.
  induction arr as [|a arr IH]; intros k s Hrange.
  - exists []. by destruct (drop k coins).
  - assert (Hrest : ∀ i b, arr !! i = Some b → b ≠ 0%Z →
                            ∃ c, coins !! (S k + i) = Some c
                                 ∧ (Coin.decimals c ≤ 256)%nat).
    { intros i b Hi Hb. destruct (Hrange (S i) b Hi Hb) as (c & Hc & Hd).
      exists c. split; [|done]. by rewrite <- Hc, Nat.add_succ_r. }
    cbn [Array_map_from].
    destruct (decide (a = 0%Z)) as [->|Ha].
    + destruct (IH (S k) s Hrest) as (mapped0 & Hm0 & Hc0).
      rewrite legCallback_zero. cbn [bind]. rewrite Hm0.
      exists (None :: mapped0). rewrite nonZeroEntries_zero, <- drop_S_tail.
      split; [reflexivity | exact Hc0].
    + destruct (Hrange 0 a eq_refl Ha) as (c & Hc & Hd).
      rewrite Nat.add_0_r in Hc.
      rewrite (legCallback_coin _ _ _ _ _ c Ha Hc Hd). cbn [bind].
      destruct (IH (S k) (Decimal_add s (converted (a, c))) Hrest)
        as (mapped & -> & Hcm).
      exists (Some (leg dir c (Some (converted (a, c)))) :: mapped).
      rewrite (drop_S _ _ _ Hc), nonZeroEntries_cons by done.
      split; [reflexivity|].
      cbn [compact omap id map]. simpl. by rewrite <- Hcm.
Qed.

(** Whenever the map returns, it emitted no event, the amounts of the legs
    it kept were added to the total in order, and none of them is zero. *)
Lemma Array_map_from_Return dir coins arr :
  ∀ k s t mapped s',
    Array_map_from (legCallback dir coins) k arr s
      = (t, Return (mapped, s')) →
    t = []
    ∧ s' = foldl Decimal_add s (presentAmounts (compact mapped))
    ∧ Forall (λ l, ∃ q, CurveTokenWithAmount.amount l = Some q ∧ q ≠ 0%Qc)
             (compact mapped).
Proof.
  induction arr as [|a arr IH]; intros k s t mapped s' Hrun.
  - injection Hrun as <- <- <-. repeat split. constructor.
  - cbn [Array_map_from] in Hrun.
    apply bind_Return in Hrun as (t1 & [b s1] & t2 & Hcb & Hrest & ->).
    apply bind_Return in Hrest as (t3 & [bs s2] & t4 & Hmap & Hret & ->).
    injection Hret as <- <- <-.
    apply IH in Hmap as (-> & -> & Hall).
    destruct (decide (a = 0%Z)) as [->|Ha].
    + rewrite legCallback_zero in Hcb. injection Hcb as <- <- <-.
      repeat split; done.
    + destruct (coins !! k) as [c|] eqn:Hc.
      * destruct (le_lt_dec (Coin.decimals c) 256) as [Hd|Hd].
        -- rewrite (legCallback_coin _ _ _ _ _ c Ha Hc Hd) in Hcb.
           injection Hcb as <- <- <-. repeat split.
           constructor; [|done]. eexists. split; [reflexivity|].
           unfold converted. cbn [fst snd]. by rewrite unitsToDecimal_zero.
        -- rewrite (legCallback_rejected _ _ _ _ _ c Ha Hc Hd) in Hcb.
           discriminate.
      * rewrite legCallback_no_coin in Hcb by done. discriminate.
Qed.

(** The map returns only if every entry that is not zero has a coin, of a
    precision that [formatUnits] accepts: the callback throws a [TypeError]
    on an entry without a coin, and an invalid-argument error on a
    precision above 256 digits. *)
Lemma Array_map_from_Return_range dir coins arr :
  ∀ k s t r,
    Array_map_from (legCallback dir coins) k arr s = (t, Return r) →
    ∀ i a, arr !! i = Some a → a ≠ 0%Z →
           ∃ c, coins !! (k + i) = Some c ∧ (Coin.decimals c ≤ 256)%nat.
Proof.
  induction arr as [|a0 arr IH]; intros k s t r Hrun i a Hi Ha; [done|].
  cbn [Array_map_from] in Hrun.
  apply bind_Return in Hrun as (t1 & [b s1] & t2 & Hcb & Hrest & ->).
  apply bind_Return in Hrest as (t3 & [bs s2] & t4 & Hmap & _ & ->).
  destruct i as [|i]; simpl in Hi.
  - injection Hi as ->. rewrite Nat.add_0_r.
    destruct (coins !! k) as [c|] eqn:Hc.
    + exists c. split; [done|].
      destruct (le_lt_dec (Coin.decimals c) 256) as [Hd|Hd]; [done|].
      rewrite (legCallback_rejected _ _ _ _ _ c Ha Hc Hd) in Hcb.
      discriminate.
    + rewrite legCallback_no_coin in Hcb by done. discriminate.
  - destruct (IH _ _ _ _ Hmap i a Hi Ha) as (c & Hc & Hd).
    exists c. split; [|done]. by rewrite Nat.add_succ_r.
Qed.

(** The two conditions on the raw amounts, by index. *)
Lemma entries_accepted A coins :
  nonZeroInRange A coins ∧ acceptedPrecisions A coins
  ↔ ∀ i a, A !! i = Some a → a ≠ 0%Z →
           ∃ c, coins !! (0 + i) = Some c ∧ (Coin.decimals c ≤ 256)%nat.
Proof.
  split.
  - intros [Hrange Hprec] i a Hi Ha.
    destruct (lookup_lt_is_Some_2 coins i) as [c Hc]; [by eapply Hrange|].
    exists c. split; [done|]. by eapply Hprec.
  - intros H. split.
    + intros i a Hi Ha. destruct (H i a Hi Ha) as (c & Hc & _).
      by apply lookup_lt_Some in Hc.
    + intros i a c Hi Ha Hc. destruct (H i a Hi Ha) as (c' & Hc' & Hd).
      simpl in Hc'. congruence.
Qed.

Lemma map_converted E : map converted E = map amountOf E.
Proof. apply map_ext. intros p. apply converted_amountOf. Qed.

Lemma legs_converted dir (E : list (BigNumber * Coin.t)) :
  map (λ p, leg dir p.2 (Some (converted p))) E
  = map (λ p, leg dir p.2 (Some (amountOf p))) E.
Proof. apply map_ext. intros p. by rewrite converted_amountOf. Qed.

(** ** The decoders *)

(** The deposit decoder on raw amounts that are not zero only where the pool
    has a coin, of an accepted precision. *)
Lemma parseAddLiquidity_amounts tx pool d A :
  nonZeroInRange A (Pool.coins pool) →
  acceptedPrecisions A (Pool.coins pool) →
  name d = "add_liquidity" →
  args d !! "_amounts" ?? args d !! "amounts" ?? args d !! "uamounts"
    = Some (VArr A) →
  parseAddLiquidity tx pool d
    = ([], Return (Some (classified ADD_LIQUIDITY tx pool
         (foldl Decimal_add 0%Qc
            (map amountOf (nonZeroEntries A (Pool.coins pool))))
         (map (λ p, leg add p.2 (Some (amountOf p)))
              (nonZeroEntries A (Pool.coins pool)))))).
Proof.
  intros Hrange Hprec Hname Hargs.
  destruct (Array_map_from_legs add (Pool.coins pool) A 0 0%Qc)
    as (mapped & Hm & Hc); [by apply entries_accepted|].
  rewrite drop_0, map_converted in Hm. rewrite drop_0, legs_converted in Hc.
  unfold parseAddLiquidity. rewrite Hname, Hargs.
  cbn [String.eqb Ascii.eqb Bool.eqb asArray ret bind app]. unfold Array_map.
  match goal with
  | |- context [Array_map_from ?f 0 A] =>
      change f with (legCallback add (Pool.coins pool))
  end.
  rewrite Hm. cbn [bind ret app]. by rewrite Hc.
Qed.

(** The imbalanced removal, likewise. *)
Lemma parseRemoveLiquidity_imbalance lp tx pool d A :
  nonZeroInRange A (Pool.coins pool) →
  acceptedPrecisions A (Pool.coins pool) →
  name d = "remove_liquidity_imbalance" →
  args d !! "_amounts" ?? args d !! "amounts" = Some (VArr A) →
  parseRemoveLiquidity lp tx pool d
    = ([], Return (Some (classified REMOVE_LIQUIDITY tx pool
         (foldl Decimal_add 0%Qc
            (map amountOf (nonZeroEntries A (Pool.coins pool))))
         (map (λ p, leg remove p.2 (Some (amountOf p)))
              (nonZeroEntries A (Pool.coins pool)))))).
Proof.
  intros Hrange Hprec Hname Hargs.
  destruct (Array_map_from_legs remove (Pool.coins pool) A 0 0%Qc)
    as (mapped & Hm & Hc); [by apply entries_accepted|].
  rewrite drop_0, map_converted in Hm. rewrite drop_0, legs_converted in Hc.
  unfold parseRemoveLiquidity. rewrite Hname, Hargs.
  cbn [String.eqb Ascii.eqb Bool.eqb asArray ret bind app]. unfold Array_map.
  match goal with
  | |- context [Array_map_from ?f 0 A] =>
      change f with (legCallback remove (Pool.coins pool))
  end.
  rewrite Hm. cbn [bind ret app]. by rewrite Hc.
Qed.



Lemma toNumber_safe (i : nat) :
  (Z.of_nat i < 2 ^ 53)%Z →
  toNumber (Some (VBig (Z.of_nat i))) = ([], Return (Z.of_nat i)).
Proof.
  intros Hi. unfold toNumber.
  destruct (Z.ltb_spec (Z.abs (Z.of_nat i)) (2 ^ 53)); [done | lia].
Qed.

Lemma toNumber_in_range (k : Z) :
  (Z.abs k < 2 ^ 53)%Z → toNumber (Some (VBig k)) = ([], Return k).
Proof.
  intros Hk. unfold toNumber.
  destruct (Z.ltb_spec (Z.abs k) (2 ^ 53)); [done | lia].
Qed.

Lemma index_of_nat {A} (arr : list A) (i : nat) :
  index arr (Z.of_nat i) = arr !! i.
Proof.
  unfold index. destruct (Z.ltb_spec (Z.of_nat i) 0); [lia|].
  by rewrite Nat2Z.id.
Qed.

Lemma index_Some {A} (arr : list A) (k : Z) (x : A) :
  index arr k = Some x → (0 ≤ k < Z.of_nat (length arr))%Z.
Proof.
  unfold index. destruct (Z.ltb_spec k 0); [done|].
  intros Hx%lookup_lt_Some. lia.
Qed.

Lemma index_in_range {A} (arr : list A) (k : Z) :
  (0 ≤ k < Z.of_nat (length arr))%Z → ∃ x, index arr k = Some x.
Proof.
  intros Hk. unfold index. destruct (Z.ltb_spec k 0); [lia|].
  apply lookup_lt_is_Some_2. lia.
Qed.

(** The exchange decoder, when both indices find a coin. *)
Lemma parseExchange_indices tx pool d (i j : Z) dx ci cj :
  name d = "exchange" →
  args d !! "i" = Some (VBig i) → (Z.abs i < 2 ^ 53)%Z →
  args d !! "j" = Some (VBig j) → (Z.abs j < 2 ^ 53)%Z →
  args d !! "dx" ?? args d !! "_dx" = Some (VBig dx) →
  index (Pool.coins pool) i = Some ci →
  index (Pool.coins pool) j = Some cj →
  (Coin.decimals ci ≤ 256)%nat →
  parseExchange tx pool d
    = ([], Return (Some (classified EXCHANGE tx pool
         (unitsToDecimal dx (Coin.decimals ci))
         [ leg add ci (Some (unitsToDecimal dx (Coin.decimals ci)));
           leg remove cj None ]))).
Proof.
  intros Hname Hi Hsi Hj Hsj Hdx Hci Hcj Hd.
  unfold parseExchange.
  rewrite Hname, Hi, Hj, Hdx, !toNumber_in_range by done.
  cbn [String.eqb Ascii.eqb Bool.eqb bind app].
  rewrite Hci, Hcj. cbn [get bind ret app].
  by rewrite formatUnits_accepted.
Qed.

(** The same, for indices that are natural numbers. *)
Lemma parseExchange_coins tx pool d (i j : nat) dx ci cj :
  name d = "exchange" →
  args d !! "i" = Some (VBig (Z.of_nat i)) → (Z.of_nat i < 2 ^ 53)%Z →
  args d !! "j" = Some (VBig (Z.of_nat j)) → (Z.of_nat j < 2 ^ 53)%Z →
  args d !! "dx" ?? args d !! "_dx" = Some (VBig dx) →
  Pool.coins pool !! i = Some ci →
  Pool.coins pool !! j = Some cj →
  (Coin.decimals ci ≤ 256)%nat →
  parseExchange tx pool d
    = ([], Return (Some (classified EXCHANGE tx pool
         (unitsToDecimal dx (Coin.decimals ci))
         [ leg add ci (Some (unitsToDecimal dx (Coin.decimals ci)));
           leg remove cj None ]))).
Proof.
  intros Hname Hi Hsi Hj Hsj Hdx Hci Hcj Hd.
  apply (parseExchange_indices _ _ _ (Z.of_nat i) (Z.of_nat j));
    try done; try lia; by rewrite index_of_nat.
Qed.

(** The one-coin removal, when the index finds a coin. *)
Lemma parseRemoveLiquidity_one_coin_index lp tx pool d (j : Z) burn c :
  name d = "remove_liquidity_one_coin" →
  args d !! "_token_amount" ?? args d !! "token_amount"
    ?? args d !! "_burn_amount" = Some (VBig burn) →
  args d !! "i" = Some (VBig j) →
  index (Pool.coins pool) j = Some c →
  (lp ≤ 256)%nat →
  parseRemoveLiquidity lp tx pool d
    = ([], Return (Some (classified REMOVE_LIQUIDITY tx pool
         (unitsToDecimal burn lp)
         [ leg remove c None ]))).
Proof.
  intros Hname Hburn Hi Hc Hlp.
  unfold parseRemoveLiquidity.
  rewrite Hname, Hburn, Hi.
  cbn [String.eqb Ascii.eqb Bool.eqb indexByKey].
  by rewrite Hc, formatUnits_accepted.
Qed.

Lemma parseRemoveLiquidity_one_coin lp tx pool d (j : nat) burn c :
  name d = "remove_liquidity_one_coin" →
  args d !! "_token_amount" ?? args d !! "token_amount"
    ?? args d !! "_burn_amount" = Some (VBig burn) →
  args d !! "i" = Some (VBig (Z.of_nat j)) →
  Pool.coins pool !! j = Some c →
  (lp ≤ 256)%nat →
  parseRemoveLiquidity lp tx pool d
    = ([], Return (Some (classified REMOVE_LIQUIDITY tx pool
         (unitsToDecimal burn lp)
         [ leg remove c None ]))).
Proof.
  intros Hname Hburn Hi Hc Hlp.
  apply (parseRemoveLiquidity_one_coin_index _ _ _ _ (Z.of_nat j));
    try done. by rewrite index_of_nat.
Qed.

(** The balanced removal. *)
Lemma parseRemoveLiquidity_balanced lp tx pool d burn :
  name d = "remove_liquidity" →
  args d !! "_amount" ?? args d !! "_burn_amount" = Some (VBig burn) →
  (lp ≤ 256)%nat →
  parseRemoveLiquidity lp tx pool d
    = ([], Return (Some (classified REMOVE_LIQUIDITY tx pool
         (unitsToDecimal burn lp)
         (map (λ c, leg remove c None) (Pool.coins pool))))).
Proof.
  intros Hname Hburn Hlp. unfold parseRemoveLiquidity.
  rewrite Hname, Hburn. cbn [String.eqb Ascii.eqb Bool.eqb].
  by rewrite formatUnits_accepted.
Qed.

(** C2. An [exchange] call with source index [i], destination index [j] and
    raw input amount [dx] yields exactly two legs: the pool's coin [i] tagged
    [add] with amount [dx / 10^decimals[i]], then the pool's coin [j] tagged
    [remove] with no amount; the computed total is [dx / 10^decimals[i]]
    (emitted unless the pool's asset type is unknown). The indices are
    numbers that [toNumber] can return, and the precision of the source
    coin is one that [formatUnits] accepts, of at most 256 digits. *)
Theorem exchange_two_legs
    (tx : EtherscanTx.t) (pool : Pool.t) (d : TransactionDescription)
    (i j : nat) (dx : BigNumber) (ci cj : Coin.t) :
  name d = "exchange" →
  args d !! "i" = Some (VBig (Z.of_nat i)) → (Z.of_nat i < 2 ^ 53)%Z →
  args d !! "j" = Some (VBig (Z.of_nat j)) → (Z.of_nat j < 2 ^ 53)%Z →
  args d !! "dx" ?? args d !! "_dx" = Some (VBig dx) →
  Pool.coins pool !! i = Some ci →
  Pool.coins pool !! j = Some cj →
  (Coin.decimals ci ≤ 256)%nat →
  parseExchange tx pool d
    = ([], Return (Some (classified EXCHANGE tx pool
         (quotient dx (Coin.decimals ci))
         [ leg add ci (Some (quotient dx (Coin.decimals ci)));
           leg remove cj None ]))).
Proof.
  intros Hname Hi Hsi Hj Hsj Hdx Hci Hcj Hd.
  rewrite <- unitsToDecimal_quotient.
  by apply (parseExchange_coins _ _ _ i j).
Qed.

(** C3. A [remove_liquidity_one_coin] call yields exactly one leg, for the
    pool coin that the coin-index argument selects, tagged [remove] with no
    amount; the computed total is the raw burn amount over
    [10^CURVE_POOL_TOKEN_DECIMALS], the precision of the LP token and not
    that of the selected coin (emitted unless the pool's asset type is
    unknown). The precision of the LP token is one that [formatUnits]
    accepts, of at most 256 digits. *)
Theorem remove_one_coin_leg
    (lp : nat) (tx : EtherscanTx.t) (pool : Pool.t)
    (d : TransactionDescription) (j : nat) (burn : BigNumber) (c : Coin.t) :
  (lp ≤ 256)%nat →
  name d = "remove_liquidity_one_coin" →
  args d !! "_token_amount" ?? args d !! "token_amount"
    ?? args d !! "_burn_amount" = Some (VBig burn) →
  args d !! "i" = Some (VBig (Z.of_nat j)) →
  Pool.coins pool !! j = Some c →
  parseRemoveLiquidity lp tx pool d
    = ([], Return (Some (classified REMOVE_LIQUIDITY tx pool
         (quotient burn lp)
         [ leg remove c None ]))).
Proof.
  intros Hlp Hname Hburn Hi Hc.
  rewrite <- unitsToDecimal_quotient.
  by apply (parseRemoveLiquidity_one_coin _ _ _ _ j).
Qed.

(** C4. A balanced [remove_liquidity] call over a pool with [N] coins yields
    exactly [N] legs, one per pool coin in the pool's coin order, all tagged
    [remove] with no amount; the computed total is the raw burn amount over
    [10^CURVE_POOL_TOKEN_DECIMALS] (emitted unless the pool's asset type is
    unknown). The precision of the LP token is one that [formatUnits]
    accepts, of at most 256 digits. *)
Theorem remove_balanced_legs
    (lp : nat) (tx : EtherscanTx.t) (pool : Pool.t)
    (d : TransactionDescription) (burn : BigNumber) :
  (lp ≤ 256)%nat →
  name d = "remove_liquidity" →
  args d !! "_amount" ?? args d !! "_burn_amount" = Some (VBig burn) →
  parseRemoveLiquidity lp tx pool d
    = ([], Return (Some (classified REMOVE_LIQUIDITY tx pool
         (quotient burn lp)
         (map (λ c, leg remove c None) (Pool.coins pool)))))
  ∧ length (map (λ c, leg remove c None) (Pool.coins pool))
    = length (Pool.coins pool).
Proof.
  intros Hlp Hname Hburn. split; [|apply length_map].
  rewrite <- unitsToDecimal_quotient.
  by apply parseRemoveLiquidity_balanced.
Qed.

(** ** What a returned classification looks like *)

Lemma formatUnits_Return x decimals t q :
  formatUnits x decimals = (t, Return q) →
  ∃ raw, x = Some (VBig raw) ∧ q = unitsToDecimal raw decimals ∧ t = []
         ∧ (decimals ≤ 256)%nat.
Proof.
  unfold formatUnits.
  destruct (Nat.ltb_spec 256 decimals) as [|Hd]; [discriminate|].
  destruct x as [[n|l]|]; try discriminate.
  intros [= <- <-]. eauto.
Qed.

Lemma toNumber_Return x t k :
  toNumber x = (t, Return k) → x = Some (VBig k) ∧ t = [].
Proof.
  destruct x as [[n|l]|]; simpl; try discriminate.
  destruct (Z.abs n <? 2 ^ 53)%Z; simpl; [|discriminate].
  by intros [= <- <-].
Qed.

(** Inverts a hypothesis [H] stating that a sequence of binds returned. *)
Ltac invert_run H :=
  repeat first
    [ let t1 := fresh "t" in let t2 := fresh "t" in let a := fresh "a" in
      let Hm := fresh "Hm" in
      apply bind_Return in H as (t1 & a & t2 & Hm & H & ->)
    | discriminate H ].

Lemma parseAddLiquidity_Return tx pool d t tr :
  parseAddLiquidity tx pool d = (t, Return (Some tr)) →
  ∃ total legs,
    tr = classified ADD_LIQUIDITY tx pool total legs
    ∧ name d = "add_liquidity"
    ∧ total = foldl Decimal_add 0%Qc (presentAmounts legs)
    ∧ Forall (λ l, ∃ q, CurveTokenWithAmount.amount l = Some q ∧ q ≠ 0%Qc)
             legs.
Proof.
  unfold parseAddLiquidity. intros H.
  apply bind_Return in H as (t1 & branch & t2 & Hbranch & H & ->).
  destruct branch as [[total legs]|]; [|discriminate].
  injection H as <- <-. exists total, legs. split; [done|].
  destruct (String.eqb_spec (name d) "add_liquidity") as [Hname|];
    [|invert_run Hbranch].
  apply bind_Return in Hbranch as (t3 & arr & t4 & _ & Hbranch & ->).
  apply bind_Return in Hbranch as (t5 & [mapped s'] & t6 & Hmap & Hret & ->).
  injection Hret as <- <- <-.
  by apply (Array_map_from_Return add) in Hmap as (_ & -> & Hall).
Qed.

(** The deposit decoder returns on the raw amounts [A] only if every entry
    of [A] that is not zero has a coin, of an accepted precision. *)
Lemma parseAddLiquidity_Return_range tx pool d A t r :
  name d = "add_liquidity" →
  args d !! "_amounts" ?? args d !! "amounts" ?? args d !! "uamounts"
    = Some (VArr A) →
  parseAddLiquidity tx pool d = (t, Return r) →
  nonZeroInRange A (Pool.coins pool) ∧ acceptedPrecisions A (Pool.coins pool).
Proof.
  intros Hname Hargs. unfold parseAddLiquidity. rewrite Hname, Hargs.
  cbn [String.eqb Ascii.eqb Bool.eqb asArray]. intros H.
  apply bind_Return in H as (t1 & branch & t2 & Hbranch & _ & ->).
  apply bind_Return in Hbranch as (t3 & arr & t4 & [= <- <-] & Hbranch & ->).
  apply bind_Return in Hbranch as (t5 & [mapped s'] & t6 & Hmap & _ & ->).
  apply entries_accepted.
  exact (Array_map_from_Return_range add _ _ _ _ _ _ Hmap).
Qed.

Lemma parseRemoveLiquidity_Return lp tx pool d t tr :
  parseRemoveLiquidity lp tx pool d = (t, Return (Some tr)) →
  ∃ total legs,
    tr = classified REMOVE_LIQUIDITY tx pool total legs
    ∧ ((name d = "remove_liquidity_imbalance"
        ∧ total = foldl Decimal_add 0%Qc (presentAmounts legs)
        ∧ Forall (λ l, ∃ q, CurveTokenWithAmount.amount l = Some q
                            ∧ q ≠ 0%Qc) legs)
       ∨ (∃ burn,
            ((name d = "remove_liquidity_one_coin"
              ∧ args d !! "_token_amount" ?? args d !! "token_amount"
                  ?? args d !! "_burn_amount" = Some (VBig burn))
             ∨ (name d = "remove_liquidity"
                ∧ args d !! "_amount" ?? args d !! "_burn_amount"
                  = Some (VBig burn)))
            ∧ (lp ≤ 256)%nat
            ∧ total = unitsToDecimal burn lp
            ∧ Forall (λ l, CurveTokenWithAmount.amount l = None) legs)).
Proof.
  unfold parseRemoveLiquidity. intros H.
  apply bind_Return in H as (t1 & branch & t2 & Hbranch & H & ->).
  destruct branch as [[total legs]|]; [|discriminate].
  injection H as <- <-. exists total, legs. split; [done|].
  destruct (String.eqb_spec (name d) "remove_liquidity_imbalance")
    as [Hname|_].
  { left.
    apply bind_Return in Hbranch as (t3 & arr & t4 & _ & Hbranch & ->).
    apply bind_Return in Hbranch as (t5 & [mapped s'] & t6 & Hmap & Hret & ->).
    injection Hret as <- <- <-.
    by apply (Array_map_from_Return remove) in Hmap as (_ & -> & Hall). }
  right.
  destruct (String.eqb_spec (name d) "remove_liquidity_one_coin")
    as [Hname|_].
  { apply bind_Return in Hbranch as (t3 & q & t4 & Hq & Hbranch & ->).
    apply formatUnits_Return in Hq as (burn & Hburn & -> & -> & Hlp).
    apply bind_Return in Hbranch as (t5 & sym & t6 & _ & Hbranch & ->).
    apply bind_Return in Hbranch as (t7 & addr & t8 & _ & Hret & ->).
    injection Hret as <- <- <-.
    exists burn. split; [by left|]. split; [done|]. split; [done|].
    by repeat constructor. }
  destruct (String.eqb_spec (name d) "remove_liquidity") as [Hname|_].
  { apply bind_Return in Hbranch as (t3 & q & t4 & Hq & Hret & ->).
    apply formatUnits_Return in Hq as (burn & Hburn & -> & -> & Hlp).
    injection Hret as <- <- <-.
    exists burn. split; [by right|]. split; [done|]. split; [done|].
    by apply Forall_map, Forall_true. }
  invert_run Hbranch.
Qed.

Lemma parseExchange_Return tx pool d t tr :
  parseExchange tx pool d = (t, Return (Some tr)) →
  ∃ i j raw ci cj,
    name d = "exchange"
    ∧ args d !! "i" = Some (VBig i) ∧ index (Pool.coins pool) i = Some ci
    ∧ args d !! "j" = Some (VBig j) ∧ index (Pool.coins pool) j = Some cj
    ∧ args d !! "dx" ?? args d !! "_dx" = Some (VBig raw)
    ∧ (Coin.decimals ci ≤ 256)%nat
    ∧ tr = classified EXCHANGE tx pool
             (unitsToDecimal raw (Coin.decimals ci))
             [ leg add ci (Some (unitsToDecimal raw (Coin.decimals ci)));
               leg remove cj None ].
Proof.
  unfold parseExchange. intros H.
  apply bind_Return in H as (t1 & branch & t2 & Hbranch & H & ->).
  destruct branch as [[total legs]|]; [|discriminate].
  injection H as <- <-.
  destruct (String.eqb_spec (name d) "exchange") as [Hname|_].
  - apply bind_Return in Hbranch as (t3 & i & t4 & Hi & Hbranch & ->).
    apply toNumber_Return in Hi as [Hi ->].
    apply bind_Return in Hbranch as (t5 & j & t6 & Hj & Hbranch & ->).
    apply toNumber_Return in Hj as [Hj ->].
    apply bind_Return in Hbranch as (t7 & dec & t8 & Hdec & Hbranch & ->).
    apply get_Return in Hdec as (ci & Hci & -> & ->).
    apply bind_Return in Hbranch as (t9 & q & t10 & Hq & Hbranch & ->).
    apply formatUnits_Return in Hq as (raw & Hraw & -> & -> & Hd).
    apply bind_Return in Hbranch as (t11 & fs & t12 & Hfs & Hbranch & ->).
    apply bind_Return in Hbranch as (t13 & fa & t14 & Hfa & Hbranch & ->).
    apply bind_Return in Hbranch as (t15 & ts & t16 & Hts & Hbranch & ->).
    apply bind_Return in Hbranch as (t17 & ta & t18 & Hta & Hret & ->).
    rewrite Hci in Hfs, Hfa. injection Hfs as <- <-. injection Hfa as <- <-.
    apply get_Return in Hts as (cj & Hcj & -> & ->).
    rewrite Hcj in Hta. injection Hta as <- <-.
    injection Hret as <- <- <-.
    by exists i, j, raw, ci, cj.
  - destruct (String.eqb_spec (name d) "exchange_underlying");
      invert_run Hbranch.
Qed.


(** C5. Whichever of the three decoders produced a classified transaction,
    its total amount is absent when the pool's asset type is "unknown",
    whatever amounts were computed for the legs. *)
Theorem unknown_asset_type_no_total
    (lp : nat) (tx : EtherscanTx.t) (pool : Pool.t)
    (d : TransactionDescription) (t : list Event) (tr : CurveTransaction.t) :
  Pool.assetTypeName pool = UNKNOWN →
  parseAddLiquidity tx pool d = (t, Return (Some tr))
  ∨ parseRemoveLiquidity lp tx pool d = (t, Return (Some tr))
  ∨ parseExchange tx pool d = (t, Return (Some tr)) →
  CurveTransaction.totalAmount tr = None.
Proof.
  intros Hunknown [H | [H | H]].
  - apply parseAddLiquidity_Return in H as (total & legs & -> & _).
    simpl. by rewrite Hunknown.
  - apply parseRemoveLiquidity_Return in H as (total & legs & -> & _).
    simpl. by rewrite Hunknown.
  - apply parseExchange_Return in H
      as (i & j & raw & ci & cj & _ & _ & _ & _ & _ & _ & _ & ->).
    simpl. by rewrite Hunknown.
Qed.


(** C7, as amended. No leg of a transaction produced by the add-liquidity or
    the remove-liquidity decoder has a present amount equal to zero: the zero
    entries of the raw amounts are dropped. The exchange decoder always emits
    its source leg, whose amount [dx / 10^decimals[i]] is zero exactly when
    [dx] is zero. *)
Theorem no_zero_amount_leg
    (lp : nat) (tx : EtherscanTx.t) (pool : Pool.t)
    (d : TransactionDescription) (t : list Event) (tr : CurveTransaction.t) :
  (parseAddLiquidity tx pool d = (t, Return (Some tr))
   ∨ parseRemoveLiquidity lp tx pool d = (t, Return (Some tr)) →
   ∀ l, l ∈ CurveTransaction.tokens tr →
        CurveTokenWithAmount.amount l ≠ Some 0%Qc)
  ∧ (∀ dx : BigNumber,
       parseExchange tx pool d = (t, Return (Some tr)) →
       args d !! "dx" ?? args d !! "_dx" = Some (VBig dx) →
       (∃ l, l ∈ CurveTransaction.tokens tr
             ∧ CurveTokenWithAmount.amount l = Some 0%Qc)
       ↔ dx = 0%Z).
Proof.
  split.
  - intros H l Hl.
    assert (Hlegs : Forall (λ l, CurveTokenWithAmount.amount l ≠ Some 0%Qc)
                           (CurveTransaction.tokens tr)).
    { destruct H as [H | H].
      - apply parseAddLiquidity_Return in H
          as (total & legs & -> & _ & _ & Hall).
        simpl. eapply Forall_impl; [exact Hall|].
        intros x (q & -> & Hq). congruence.
      - apply parseRemoveLiquidity_Return in H
          as (total & legs & ->
              & [(_ & _ & Hall) | (burn & _ & _ & _ & Hall)]);
          simpl; (eapply Forall_impl; [exact Hall|]).
        + intros x (q & -> & Hq). congruence.
        + intros x ->. discriminate. }
    rewrite Forall_forall in Hlegs. by apply Hlegs.
  - intros dx H Hdx.
    apply parseExchange_Return in H
      as (i & j & raw & ci & cj & _ & _ & _ & _ & _ & Hraw & _ & ->).
    rewrite Hdx in Hraw. injection Hraw as <-. simpl. split.
    + intros (l & Hl & Hzero).
      apply elem_of_cons in Hl as [-> | Hl].
      * simpl in Hzero. apply (inj Some) in Hzero.
        by apply unitsToDecimal_zero in Hzero.
      * apply list_elem_of_singleton in Hl as ->. discriminate.
    + intros ->. eexists. split; [apply list_elem_of_here|].
      simpl. f_equal. by apply unitsToDecimal_zero.
Qed.

(** ** The classifier *)

(** Past its two guards, [parseTransaction] starts by calling the decoder on
    the transaction's calldata. *)
Lemma parseTransaction_decodes lp pool tx :
  EtherscanTx.txreceipt_status tx = "1" →
  EtherscanTx.isError tx ≠ "1" →
  falsy (EtherscanTx.to tx) = false →
  ∃ t r, parseTransaction lp pool tx
         = (DecodeCall (EtherscanTx.input tx) (EtherscanTx.value tx) :: t, r).
Proof.
  intros Hs He Hto. unfold parseTransaction. rewrite Hs, Hto.
  destruct (String.eqb_spec (EtherscanTx.isError tx) "1"); [done|].
  cbn [String.eqb Ascii.eqb Bool.eqb negb orb]. unfold decode. simpl.
  destruct (Interface.parseTransaction _ _ _) as [d|e]; simpl.
  - destruct (if startsWith (name d) "remove_liquidity" then _ else _)
      as [t r]. destruct r; simpl; eauto.
  - destruct (code e) as [c|]; [destruct (String.eqb c _)|]; simpl; eauto.
Qed.

(** When the decoder reads the calldata as the call [d], the classifier runs
    the decoder that the prefix of [d]'s name selects. *)
Lemma parseTransaction_decoded lp pool tx d :
  decodesTo pool tx d →
  parseTransaction lp pool tx
  = let* _ := emit (DecodeCall (EtherscanTx.input tx) (EtherscanTx.value tx)) in
    let* transaction :=
      if startsWith (name d) "remove_liquidity" then
        parseRemoveLiquidity lp tx pool d
      else if startsWith (name d) "add_liquidity" then
        parseAddLiquidity tx pool d
      else if startsWith (name d) "exchange" then
        parseExchange tx pool d
      else ret None in
    ret {| ParseTransactionAPI.decodedInput := Some d;
           ParseTransactionAPI.transaction := transaction |}.
Proof.
  intros (Hs & He & Hto & Hd). unfold parseTransaction. rewrite Hs, Hto.
  destruct (String.eqb_spec (EtherscanTx.isError tx) "1"); [done|].
  cbn [String.eqb Ascii.eqb Bool.eqb negb orb]. unfold decode.
  rewrite Hd. simpl.
  by destruct (if startsWith (name d) "remove_liquidity" then _ else _)
    as [t [r|e]].
Qed.

(** C8. A transaction whose status is not success, or whose error flag is
    set, is not applicable: [parseTransaction] returns with the decoded call
    and the classification both absent, and without an event, so the
    decoder was not called on the calldata. *)
Theorem failed_transaction_not_applicable
    (lp : nat) (pool : Pool.t) (tx : EtherscanTx.t) :
  EtherscanTx.txreceipt_status tx ≠ "1" ∨ EtherscanTx.isError tx = "1" →
  parseTransaction lp pool tx = ([], Return notApplicable)
  ∧ ∀ data value, DecodeCall data value ∉ (parseTransaction lp pool tx).1.
Proof.
  intros Hfailed.
  assert (Hrun : parseTransaction lp pool tx = ([], Return notApplicable)).
  { unfold parseTransaction.
    destruct (String.eqb_spec (EtherscanTx.txreceipt_status tx) "1");
      destruct (String.eqb_spec (EtherscanTx.isError tx) "1");
      simpl; try done.
    by destruct Hfailed. }
  split; [done|]. intros data value. rewrite Hrun. simpl.
  apply not_elem_of_nil.
Qed.

(** C9. When the decoder is called and fails with the error [e],
    [parseTransaction] returns "not applicable" if and only if [e] is of the
    "invalid argument" class; any other failure is thrown again, to the
    caller. *)
Theorem decode_failure_handling
    (lp : nat) (pool : Pool.t) (tx : EtherscanTx.t) (e : JsError) :
  EtherscanTx.txreceipt_status tx = "1" →
  EtherscanTx.isError tx ≠ "1" →
  falsy (EtherscanTx.to tx) = false →
  Interface.parseTransaction (Pool.interface pool)
    (EtherscanTx.input tx) (EtherscanTx.value tx) = Throw e →
  ((parseTransaction lp pool tx).2 = Return notApplicable
   ↔ code e = Some "INVALID_ARGUMENT")
  ∧ (code e ≠ Some "INVALID_ARGUMENT" →
     (parseTransaction lp pool tx).2 = Throw e).
Proof.
  intros Hs He Hto Hd. unfold parseTransaction. rewrite Hs, Hto.
  destruct (String.eqb_spec (EtherscanTx.isError tx) "1"); [done|].
  cbn [String.eqb Ascii.eqb Bool.eqb negb orb]. unfold decode.
  rewrite Hd. simpl.
  destruct (code e) as [c|]; simpl.
  - destruct (String.eqb_spec c "INVALID_ARGUMENT") as [->|Hc]; simpl.
    + split; [done | congruence].
    + split; [|done]. split; [discriminate | congruence].
  - split; [|done]. split; discriminate.
Qed.

(** ** Coin indices *)

Lemma index_None {A} (arr : list A) (k : Z) :
  ¬ (0 ≤ k < Z.of_nat (length arr))%Z → index arr k = None.
Proof.
  intros Hk. unfold index. destruct (Z.ltb_spec k 0); [done|].
  apply lookup_ge_None. lia.
Qed.

(** An exception of a decoder leaves [parseTransaction] as it is: only the
    call of the ABI decoder is inside the [try]. *)
Lemma parseTransaction_exchange_Throw lp pool tx d t e :
  decodesTo pool tx d → name d = "exchange" →
  parseExchange tx pool d = (t, Throw e) →
  parseTransaction lp pool tx
  = (DecodeCall (EtherscanTx.input tx) (EtherscanTx.value tx) :: t, Throw e).
Proof.
  intros Hd Hname Hthrow.
  rewrite (parseTransaction_decoded _ _ _ _ Hd), Hname.
  change (startsWith "exchange" "remove_liquidity") with false.
  change (startsWith "exchange" "add_liquidity") with false.
  change (startsWith "exchange" "exchange") with true.
  cbv iota. by rewrite Hthrow.
Qed.

Lemma parseTransaction_one_coin_Throw lp pool tx d t e :
  decodesTo pool tx d → name d = "remove_liquidity_one_coin" →
  parseRemoveLiquidity lp tx pool d = (t, Throw e) →
  parseTransaction lp pool tx
  = (DecodeCall (EtherscanTx.input tx) (EtherscanTx.value tx) :: t, Throw e).
Proof.
  intros Hd Hname Hthrow.
  rewrite (parseTransaction_decoded _ _ _ _ Hd), Hname.
  change (startsWith "remove_liquidity_one_coin" "remove_liquidity")
    with true.
  cbv iota. by rewrite Hthrow.
Qed.

Lemma parseExchange_out_of_range tx pool d (i j : Z) :
  name d = "exchange" →
  args d !! "i" = Some (VBig i) →
  args d !! "j" = Some (VBig j) →
  ¬ ((0 ≤ i < Z.of_nat (length (Pool.coins pool)))%Z
     ∧ (0 ≤ j < Z.of_nat (length (Pool.coins pool)))%Z) →
  ∃ t e, parseExchange tx pool d = (t, Throw e).
Proof.
  intros Hname Hi Hj Hrange. unfold parseExchange.
  rewrite Hname, Hi, Hj. cbn [String.eqb Ascii.eqb Bool.eqb toNumber].
  destruct (Z.abs i <? 2 ^ 53)%Z; [|simpl; eauto].
  destruct (Z.abs j <? 2 ^ 53)%Z; [|simpl; eauto].
  cbn [bind ret app].
  destruct (index (Pool.coins pool) i) as [ci|] eqn:Hci; [|simpl; eauto].
  destruct (index (Pool.coins pool) j) as [cj|] eqn:Hcj.
  { apply index_Some in Hci, Hcj. tauto. }
  cbn [get bind ret app].
  destruct (formatUnits (args d !! "dx" ?? args d !! "_dx")
              (Coin.decimals ci)) as [t0 [q|e0]]; simpl; eauto.
Qed.

Lemma parseRemoveLiquidity_one_coin_out_of_range lp tx pool d (j : Z) :
  name d = "remove_liquidity_one_coin" →
  args d !! "i" = Some (VBig j) →
  ¬ (0 ≤ j < Z.of_nat (length (Pool.coins pool)))%Z →
  ∃ t e, parseRemoveLiquidity lp tx pool d = (t, Throw e).
Proof.
  intros Hname Hi Hrange. unfold parseRemoveLiquidity.
  rewrite Hname, Hi. cbn [String.eqb Ascii.eqb Bool.eqb indexByKey].
  rewrite index_None by done.
  destruct (formatUnits (args d !! "_token_amount"
                           ?? args d !! "token_amount"
                           ?? args d !! "_burn_amount") lp)
    as [t0 [q|e0]]; simpl; eauto.
Qed.

(** C10, as amended. The exchange and the one-coin removal decoders read
    the pool's coin sequence at the decoded coin indices without a bounds
    check. When every decoded index is at least zero and below the number of
    pool coins, the lookups find their coins, and the decoder returns its
    classification when, besides, its amount is an integer converted at a
    precision of at most 256 digits (and the indices of an exchange are below
    [2^53]). When an index is negative, or not below the number of coins,
    the decoder throws, and so does [parseTransaction]: it fails rather than
    return "not applicable". *)
Theorem coin_index_lookup
    (lp : nat) (tx : EtherscanTx.t) (pool : Pool.t)
    (d : TransactionDescription) :
  (∀ i j : BigNumber,
     name d = "exchange" →
     args d !! "i" = Some (VBig i) → args d !! "j" = Some (VBig j) →
     (0 ≤ i < Z.of_nat (length (Pool.coins pool)))%Z →
     (0 ≤ j < Z.of_nat (length (Pool.coins pool)))%Z →
     ∃ ci cj,
       index (Pool.coins pool) i = Some ci
       ∧ index (Pool.coins pool) j = Some cj
       ∧ ∀ dx : BigNumber,
           args d !! "dx" ?? args d !! "_dx" = Some (VBig dx) →
           (i < 2 ^ 53)%Z → (j < 2 ^ 53)%Z →
           (Coin.decimals ci ≤ 256)%nat →
           parseExchange tx pool d
           = ([], Return (Some (classified EXCHANGE tx pool
                (quotient dx (Coin.decimals ci))
                [ leg add ci (Some (quotient dx (Coin.decimals ci)));
                  leg remove cj None ]))))
  ∧ (∀ i j : BigNumber,
       name d = "exchange" →
       args d !! "i" = Some (VBig i) → args d !! "j" = Some (VBig j) →
       ¬ ((0 ≤ i < Z.of_nat (length (Pool.coins pool)))%Z
          ∧ (0 ≤ j < Z.of_nat (length (Pool.coins pool)))%Z) →
       ∃ t e,
         parseExchange tx pool d = (t, Throw e)
         ∧ (decodesTo pool tx d →
            parseTransaction lp pool tx
            = (DecodeCall (EtherscanTx.input tx) (EtherscanTx.value tx) :: t,
               Throw e)))
  ∧ (∀ j : BigNumber,
       name d = "remove_liquidity_one_coin" →
       args d !! "i" = Some (VBig j) →
       (0 ≤ j < Z.of_nat (length (Pool.coins pool)))%Z →
       ∃ c,
         indexByKey (Pool.coins pool) (args d !! "i") = Some c
         ∧ ∀ burn : BigNumber,
             args d !! "_token_amount" ?? args d !! "token_amount"
               ?? args d !! "_burn_amount" = Some (VBig burn) →
             (lp ≤ 256)%nat →
             parseRemoveLiquidity lp tx pool d
             = ([], Return (Some (classified REMOVE_LIQUIDITY tx pool
                  (quotient burn lp) [ leg remove c None ]))))
  ∧ (∀ j : BigNumber,
       name d = "remove_liquidity_one_coin" →
       args d !! "i" = Some (VBig j) →
       ¬ (0 ≤ j < Z.of_nat (length (Pool.coins pool)))%Z →
       ∃ t e,
         parseRemoveLiquidity lp tx pool d = (t, Throw e)
         ∧ (decodesTo pool tx d →
            parseTransaction lp pool tx
            = (DecodeCall (EtherscanTx.input tx) (EtherscanTx.value tx) :: t,
               Throw e))).
Proof.
  split_and!.
  - intros i j Hname Hi Hj Hri Hrj.
    destruct (index_in_range _ _ Hri) as [ci Hci].
    destruct (index_in_range _ _ Hrj) as [cj Hcj].
    exists ci, cj. split_and!; [done | done |].
    intros dx Hdx Hsi Hsj Hd. rewrite <- unitsToDecimal_quotient.
    apply (parseExchange_indices _ _ _ i j); try done; lia.
  - intros i j Hname Hi Hj Hrange.
    destruct (parseExchange_out_of_range tx pool d i j) as (t & e & Hthrow);
      try done.
    exists t, e. split; [done|]. intros Hd.
    by apply (parseTransaction_exchange_Throw _ _ _ d).
  - intros j Hname Hi Hrj.
    destruct (index_in_range _ _ Hrj) as [c Hc].
    exists c. split; [by rewrite Hi|].
    intros burn Hburn Hlp. rewrite <- unitsToDecimal_quotient.
    by apply (parseRemoveLiquidity_one_coin_index _ _ _ _ j).
  - intros j Hname Hi Hrange.
    destruct (parseRemoveLiquidity_one_coin_out_of_range lp tx pool d j)
      as (t & e & Hthrow); try done.
    exists t, e. split; [done|]. intros Hd.
    by apply (parseTransaction_one_coin_Throw _ _ _ d).
Qed.

(** * The properties on the sample data *)

Lemma someAmounts_in_range : nonZeroInRange someAmounts [DAI; USDC; USDT].
Proof.
  intros i a Hi _. apply lookup_lt_Some in Hi. simpl in *. lia.
Defined.

Lemma threePool_accepted A : acceptedPrecisions A [DAI; USDC; USDT].
Proof.
  intros i a c _ _ Hc.
  destruct i as [|[|[|i]]]; try discriminate Hc;
    injection Hc as <-; cbn [Coin.decimals DAI USDC USDT]; lia.
Defined.



(** The deposit of one DAI and two and a half USDT: no sum is rounded. *)
Lemma someDeposit_run :
  parseAddLiquidity okTx (threePool (Return addCall)) addCall
  = ([], Return (Some someDeposit)).
Proof.
  rewrite (parseAddLiquidity_amounts okTx (threePool (Return addCall))
             addCall someAmounts someAmounts_in_range (threePool_accepted _)
             eq_refl eq_refl).
  rewrite <- legs_converted.
  assert (Htotal :
    foldl Decimal_add 0%Qc
      (map amountOf
         (nonZeroEntries someAmounts
            (Pool.coins (threePool (Return addCall)))))
    = sumDecimal [ unitsToDecimal 1000000000000000000 18;
                   unitsToDecimal 2500000 6 ])
    by (apply Qc_is_canon; vm_compute; reflexivity).
  rewrite Htotal. reflexivity.
Qed.




(** C2 on the pool of three dollar coins: five DAI for USDT. *)
Lemma exchange_two_legs_witness :
  name (exchangeCall 0 2 5000000000000000000) = "exchange"
  ∧ args (exchangeCall 0 2 5000000000000000000) !! "i"
    = Some (VBig (Z.of_nat 0))
  ∧ (Z.of_nat 0 < 2 ^ 53)%Z
  ∧ args (exchangeCall 0 2 5000000000000000000) !! "j"
    = Some (VBig (Z.of_nat 2))
  ∧ (Z.of_nat 2 < 2 ^ 53)%Z
  ∧ args (exchangeCall 0 2 5000000000000000000) !! "dx"
      ?? args (exchangeCall 0 2 5000000000000000000) !! "_dx"
    = Some (VBig 5000000000000000000)
  ∧ Pool.coins (threePool (Return addCall)) !! 0 = Some DAI
  ∧ Pool.coins (threePool (Return addCall)) !! 2 = Some USDT
  ∧ (Coin.decimals DAI ≤ 256)%nat
  ∧ parseExchange okTx (threePool (Return addCall))
      (exchangeCall 0 2 5000000000000000000)
    = ([], Return (Some (classified EXCHANGE okTx
         (threePool (Return addCall))
         (quotient 5000000000000000000 (Coin.decimals DAI))
         [ leg add DAI
             (Some (quotient 5000000000000000000 (Coin.decimals DAI)));
           leg remove USDT None ]))).
Proof.
  assert (H0 : (Z.of_nat 0 < 2 ^ 53)%Z) by (simpl; lia).
  assert (H2 : (Z.of_nat 2 < 2 ^ 53)%Z) by (simpl; lia).
  assert (Hd : (Coin.decimals DAI ≤ 256)%nat) by (cbn [Coin.decimals DAI]; lia).
  pose proof (exchange_two_legs okTx (threePool (Return addCall))
                (exchangeCall 0 2 5000000000000000000) 0 2
                5000000000000000000 DAI USDT
                eq_refl eq_refl H0 eq_refl H2 eq_refl eq_refl eq_refl Hd)
    as Hrun.
  split_and!;
    [ reflexivity | reflexivity | exact H0 | reflexivity | exact H2
    | reflexivity | reflexivity | reflexivity | exact Hd | exact Hrun ].
Defined.

(** C3 on the pool of three dollar coins: one and a half LP tokens burnt for
    USDC. *)
Lemma remove_one_coin_leg_witness :
  (18 ≤ 256)%nat
  ∧ name (oneCoinCallAt 1) = "remove_liquidity_one_coin"
  ∧ args (oneCoinCallAt 1) !! "_token_amount"
      ?? args (oneCoinCallAt 1) !! "token_amount"
      ?? args (oneCoinCallAt 1) !! "_burn_amount"
    = Some (VBig 1500000000000000000)
  ∧ args (oneCoinCallAt 1) !! "i" = Some (VBig (Z.of_nat 1))
  ∧ Pool.coins (threePool (Return addCall)) !! 1 = Some USDC
  ∧ parseRemoveLiquidity 18 okTx (threePool (Return addCall))
      (oneCoinCallAt 1)
    = ([], Return (Some (classified REMOVE_LIQUIDITY okTx
         (threePool (Return addCall))
         (quotient 1500000000000000000 18)
         [ leg remove USDC None ]))).
Proof.
  assert (Hlp : (18 ≤ 256)%nat) by lia.
  pose proof (remove_one_coin_leg 18 okTx (threePool (Return addCall))
                (oneCoinCallAt 1) 1 1500000000000000000 USDC
                Hlp eq_refl eq_refl eq_refl eq_refl)
    as Hrun.
  split_and!;
    [ exact Hlp | reflexivity | reflexivity | reflexivity | reflexivity
    | exact Hrun ].
Defined.

(** C4 on the pool of three dollar coins. *)
Lemma remove_balanced_legs_witness :
  (18 ≤ 256)%nat
  ∧ name balancedCall = "remove_liquidity"
  ∧ args balancedCall !! "_amount" ?? args balancedCall !! "_burn_amount"
    = Some (VBig 1500000000000000000)
  ∧ parseRemoveLiquidity 18 okTx (threePool (Return addCall)) balancedCall
    = ([], Return (Some (classified REMOVE_LIQUIDITY okTx
         (threePool (Return addCall))
         (quotient 1500000000000000000 18)
         [ leg remove DAI None; leg remove USDC None;
           leg remove USDT None ])))
  ∧ length [ leg remove DAI None; leg remove USDC None; leg remove USDT None ]
    = 3.
Proof.
  assert (Hlp : (18 ≤ 256)%nat) by lia.
  destruct (remove_balanced_legs 18 okTx (threePool (Return addCall))
              balancedCall 1500000000000000000 Hlp eq_refl eq_refl)
    as [Hrun Hlen].
  split_and!;
    [exact Hlp | reflexivity | reflexivity | exact Hrun | exact Hlen].
Defined.

(** A deposit into the pool of coins of unlike kinds: a million million
    USDT and a tiny amount of WETH, which the rounded total does not show. *)
Lemma unlikeDeposit_run :
  parseAddLiquidity okTx triCrypto addCall
  = ([], Return (Some (classified ADD_LIQUIDITY okTx triCrypto
       (unitsToDecimal 1000000000000000000 6)
       [ leg add USDT (Some (unitsToDecimal 1000000000000000000 6));
         leg add WETH (Some (unitsToDecimal 2500000 18)) ]))).
Proof.
  assert (Hrange : nonZeroInRange someAmounts (Pool.coins triCrypto)).
  { intros i a Hi _. apply lookup_lt_Some in Hi. simpl in *. lia. }
  assert (Hprec : acceptedPrecisions someAmounts (Pool.coins triCrypto)).
  { intros i a c _ _ Hc.
    destruct i as [|[|[|i]]]; try discriminate Hc;
      injection Hc as <-; cbn [Coin.decimals USDT WBTC WETH]; lia. }
  rewrite (parseAddLiquidity_amounts okTx triCrypto addCall someAmounts
             Hrange Hprec eq_refl eq_refl).
  rewrite <- legs_converted.
  assert (Htotal :
    foldl Decimal_add 0%Qc
      (map amountOf (nonZeroEntries someAmounts (Pool.coins triCrypto)))
    = unitsToDecimal 1000000000000000000 6)
    by (apply Qc_is_canon; vm_compute; reflexivity).
  rewrite Htotal. reflexivity.
Qed.

(** C5 on the pool of unlike coins: the legs of a deposit carry amounts, the
    total is absent. *)
Lemma unknown_asset_type_no_total_witness :
  Pool.assetTypeName triCrypto = UNKNOWN
  ∧ (parseAddLiquidity okTx triCrypto addCall
     = ([], Return (Some (classified ADD_LIQUIDITY okTx triCrypto
          (unitsToDecimal 1000000000000000000 6)
          [ leg add USDT (Some (unitsToDecimal 1000000000000000000 6));
            leg add WETH (Some (unitsToDecimal 2500000 18)) ])))
     ∨ parseRemoveLiquidity 18 okTx triCrypto addCall
       = ([], Return (Some (classified ADD_LIQUIDITY okTx triCrypto
            (unitsToDecimal 1000000000000000000 6)
            [ leg add USDT (Some (unitsToDecimal 1000000000000000000 6));
              leg add WETH (Some (unitsToDecimal 2500000 18)) ])))
     ∨ parseExchange okTx triCrypto addCall
       = ([], Return (Some (classified ADD_LIQUIDITY okTx triCrypto
            (unitsToDecimal 1000000000000000000 6)
            [ leg add USDT (Some (unitsToDecimal 1000000000000000000 6));
              leg add WETH (Some (unitsToDecimal 2500000 18)) ]))))
  ∧ CurveTransaction.totalAmount
      (classified ADD_LIQUIDITY okTx triCrypto
         (unitsToDecimal 1000000000000000000 6)
         [ leg add USDT (Some (unitsToDecimal 1000000000000000000 6));
           leg add WETH (Some (unitsToDecimal 2500000 18)) ])
    = None.
Proof.
  split_and!; [reflexivity | left; exact unlikeDeposit_run |].
  exact (unknown_asset_type_no_total 18 okTx triCrypto addCall [] _
           eq_refl (or_introl unlikeDeposit_run)).
Defined.



(** The claim C7, as first stated, fails on an exchange of zero DAI for USDT
    in the pool of three dollar coins: the source leg is emitted, and its
    amount is present and zero. *)
Lemma zero_amount_leg_counterexample :
  parseExchange okTx (threePool (Return addCall)) (exchangeCall 0 2 0)
  = ([], Return (Some (classified EXCHANGE okTx (threePool (Return addCall))
       (unitsToDecimal 0 18)
       [ leg add DAI (Some (unitsToDecimal 0 18)); leg remove USDT None ])))
  ∧ leg add DAI (Some (unitsToDecimal 0 18))
    ∈ CurveTransaction.tokens
        (classified EXCHANGE okTx (threePool (Return addCall))
           (unitsToDecimal 0 18)
           [ leg add DAI (Some (unitsToDecimal 0 18));
             leg remove USDT None ])
  ∧ CurveTokenWithAmount.amount (leg add DAI (Some (unitsToDecimal 0 18)))
    = Some 0%Qc.
Proof.
  split_and!; [reflexivity | apply list_elem_of_here |].
  simpl. f_equal. by apply unitsToDecimal_zero.
Qed.

(** The amended C7 on the pool of three dollar coins: the legs of a deposit,
    and an exchange of five DAI. *)
Lemma no_zero_amount_leg_witness :
  (∀ l, l ∈ [ leg add DAI (Some (unitsToDecimal 1000000000000000000 18));
              leg add USDT (Some (unitsToDecimal 2500000 6)) ] →
        CurveTokenWithAmount.amount l ≠ Some 0%Qc)
  ∧ ((∃ l, l ∈ [ leg add DAI (Some (unitsToDecimal 5000000000000000000 18));
                 leg remove USDT None ]
           ∧ CurveTokenWithAmount.amount l = Some 0%Qc)
     ↔ 5000000000000000000%Z = 0%Z).
Proof.
  assert (Hlp : (18 ≤ 256)%nat) by lia.
  split.
  - exact (proj1 (no_zero_amount_leg 18 okTx (threePool (Return addCall))
                    addCall [] someDeposit)
             (or_introl someDeposit_run)).
  - exact (proj2 (no_zero_amount_leg 18 okTx (threePool (Return addCall))
                    (exchangeCall 0 2 5000000000000000000) [] _)
             5000000000000000000%Z
             (parseExchange_coins okTx (threePool (Return addCall))
                (exchangeCall 0 2 5000000000000000000) 0 2
                5000000000000000000 DAI USDT eq_refl eq_refl eq_refl
                eq_refl eq_refl eq_refl eq_refl eq_refl Hlp)
             eq_refl).
Defined.

(** C8 on a reverted transaction. *)
Lemma failed_transaction_not_applicable_witness :
  (EtherscanTx.txreceipt_status revertedTx ≠ "1"
   ∨ EtherscanTx.isError revertedTx = "1")
  ∧ parseTransaction 18 (threePool (Return addCall)) revertedTx
    = ([], Return notApplicable)
  ∧ ∀ data value,
      DecodeCall data value
      ∉ (parseTransaction 18 (threePool (Return addCall)) revertedTx).1.
Proof.
  split; [right; reflexivity|].
  exact (failed_transaction_not_applicable 18 (threePool (Return addCall))
           revertedTx (or_intror eq_refl)).
Defined.

(** C9 on two decoders: one rejects the calldata as an invalid argument, the
    other overruns its buffer. *)
Lemma decode_failure_handling_witness :
  EtherscanTx.txreceipt_status okTx = "1"
  ∧ EtherscanTx.isError okTx ≠ "1"
  ∧ falsy (EtherscanTx.to okTx) = false
  ∧ (parseTransaction 18 (threePool (Throw INVALID_ARGUMENT)) okTx).2
    = Return notApplicable
  ∧ (parseTransaction 18 (threePool (Throw BUFFER_OVERRUN)) okTx).2
    = Throw BUFFER_OVERRUN.
Proof.
  assert (He : EtherscanTx.isError okTx ≠ "1") by discriminate.
  assert (Hc : code BUFFER_OVERRUN ≠ Some "INVALID_ARGUMENT") by discriminate.
  split_and!; [reflexivity | exact He | reflexivity | |].
  - exact (proj2 (proj1 (decode_failure_handling 18
                           (threePool (Throw INVALID_ARGUMENT)) okTx
                           INVALID_ARGUMENT eq_refl He eq_refl eq_refl))
             eq_refl).
  - exact (proj2 (decode_failure_handling 18
                    (threePool (Throw BUFFER_OVERRUN)) okTx
                    BUFFER_OVERRUN eq_refl He eq_refl eq_refl)
             Hc).
Defined.

Lemma okTx_decodesTo d : decodesTo (threePool (Return d)) okTx d.
Proof. repeat split. discriminate. Qed.

(** What the classifier does with coin indices in the pool of three dollar
    coins: an exchange into a fourth coin and a removal of an eighth coin
    throw a [TypeError]. *)
Example exchange_out_of_range_run :
  parseTransaction 18
    (threePool (Return (exchangeCall 0 3 5000000000000000000))) okTx
  = ([DecodeCall "0x3df02124" "0"], Throw TypeError).
Proof. reflexivity. Qed.

Example one_coin_out_of_range_run :
  parseTransaction 18 (threePool (Return (oneCoinCallAt 7))) okTx
  = ([DecodeCall "0x3df02124" "0"], Throw TypeError).
Proof. reflexivity. Qed.

Example exchange_negative_index_run :
  parseTransaction 18
    (threePool (Return (exchangeCall (-1) 2 5000000000000000000))) okTx
  = ([DecodeCall "0x3df02124" "0"], Throw TypeError).
Proof. reflexivity. Qed.

(** The claim C10, as first stated, fails on the coin index -1, which the
    signed index argument of a pool can hold: it is less than the number of
    coins of the pool of three dollar coins, yet the lookup finds no coin,
    and the exchange and the one-coin removal throw a [TypeError], to the
    caller of [parseTransaction]. *)
Lemma coin_index_counterexample :
  (-1 < Z.of_nat (length (Pool.coins (threePool (Return addCall)))))%Z
  ∧ (2 < Z.of_nat (length (Pool.coins (threePool (Return addCall)))))%Z
  ∧ args (exchangeCall (-1) 2 5000000000000000000) !! "i"
    = Some (VBig (-1))
  ∧ args (exchangeCall (-1) 2 5000000000000000000) !! "j"
    = Some (VBig 2)
  ∧ index (Pool.coins (threePool (Return addCall))) (-1) = None
  ∧ parseExchange okTx (threePool (Return addCall))
      (exchangeCall (-1) 2 5000000000000000000)
    = ([], Throw TypeError)
  ∧ parseTransaction 18
      (threePool (Return (exchangeCall (-1) 2 5000000000000000000))) okTx
    = ([DecodeCall "0x3df02124" "0"], Throw TypeError)
  ∧ args (oneCoinCallAt (-1)) !! "i" = Some (VBig (-1))
  ∧ indexByKey (Pool.coins (threePool (Return addCall)))
      (args (oneCoinCallAt (-1)) !! "i")
    = None
  ∧ parseRemoveLiquidity 18 okTx (threePool (Return addCall))
      (oneCoinCallAt (-1))
    = ([], Throw TypeError)
  ∧ parseTransaction 18 (threePool (Return (oneCoinCallAt (-1)))) okTx
    = ([DecodeCall "0x3df02124" "0"], Throw TypeError).
Proof. split_and!; solve [reflexivity | simpl; lia]. Qed.

(** The amended C10 on the pool of three dollar coins: indices 0 and 2 find
    DAI and USDT, index 3 finds nothing; index 1 finds USDC, index 7 finds
    nothing. *)
Lemma coin_index_lookup_witness :
  (∃ ci cj,
     index (Pool.coins (threePool (Return addCall))) 0 = Some ci
     ∧ index (Pool.coins (threePool (Return addCall))) 2 = Some cj
     ∧ ∀ dx : BigNumber,
         args (exchangeCall 0 2 5000000000000000000) !! "dx"
           ?? args (exchangeCall 0 2 5000000000000000000) !! "_dx"
         = Some (VBig dx) →
         (0 < 2 ^ 53)%Z → (2 < 2 ^ 53)%Z →
         (Coin.decimals ci ≤ 256)%nat →
         parseExchange okTx (threePool (Return addCall))
           (exchangeCall 0 2 5000000000000000000)
         = ([], Return (Some (classified EXCHANGE okTx
              (threePool (Return addCall))
              (quotient dx (Coin.decimals ci))
              [ leg add ci (Some (quotient dx (Coin.decimals ci)));
                leg remove cj None ]))))
  ∧ (∃ t e,
       parseExchange okTx
         (threePool (Return (exchangeCall 0 3 5000000000000000000)))
         (exchangeCall 0 3 5000000000000000000)
       = (t, Throw e)
       ∧ parseTransaction 18
           (threePool (Return (exchangeCall 0 3 5000000000000000000))) okTx
         = (DecodeCall (EtherscanTx.input okTx) (EtherscanTx.value okTx) :: t,
            Throw e))
  ∧ (∃ c,
       indexByKey (Pool.coins (threePool (Return addCall)))
         (args (oneCoinCallAt 1) !! "i")
       = Some c
       ∧ ∀ burn : BigNumber,
           args (oneCoinCallAt 1) !! "_token_amount"
             ?? args (oneCoinCallAt 1) !! "token_amount"
             ?? args (oneCoinCallAt 1) !! "_burn_amount"
           = Some (VBig burn) →
           (18 ≤ 256)%nat →
           parseRemoveLiquidity 18 okTx (threePool (Return addCall))
             (oneCoinCallAt 1)
           = ([], Return (Some (classified REMOVE_LIQUIDITY okTx
                (threePool (Return addCall))
                (quotient burn 18) [ leg remove c None ]))))
  ∧ (∃ t e,
       parseRemoveLiquidity 18 okTx (threePool (Return (oneCoinCallAt 7)))
         (oneCoinCallAt 7)
       = (t, Throw e)
       ∧ parseTransaction 18 (threePool (Return (oneCoinCallAt 7))) okTx
         = (DecodeCall (EtherscanTx.input okTx) (EtherscanTx.value okTx) :: t,
            Throw e)).
Proof.
  assert (Hout3 : ¬ ((0 ≤ 0 < Z.of_nat 3)%Z ∧ (0 ≤ 3 < Z.of_nat 3)%Z))
    by (simpl; lia).
  assert (Hout7 : ¬ (0 ≤ 7 < Z.of_nat 3)%Z) by (simpl; lia).
  assert (Hin0 : (0 ≤ 0 < Z.of_nat 3)%Z) by (simpl; lia).
  assert (Hin1 : (0 ≤ 1 < Z.of_nat 3)%Z) by (simpl; lia).
  assert (Hin2 : (0 ≤ 2 < Z.of_nat 3)%Z) by (simpl; lia).
  split_and!.
  - exact (proj1 (coin_index_lookup 18 okTx (threePool (Return addCall))
                    (exchangeCall 0 2 5000000000000000000))
             0%Z 2%Z eq_refl eq_refl eq_refl Hin0 Hin2).
  - destruct (proj1 (proj2 (coin_index_lookup 18 okTx
                (threePool (Return (exchangeCall 0 3 5000000000000000000)))
                (exchangeCall 0 3 5000000000000000000)))
              0%Z 3%Z eq_refl eq_refl eq_refl Hout3)
      as (t & e & Hthrow & Hcaller).
    exists t, e. split; [exact Hthrow|].
    exact (Hcaller (okTx_decodesTo _)).
  - exact (proj1 (proj2 (proj2 (coin_index_lookup 18 okTx
                    (threePool (Return addCall)) (oneCoinCallAt 1))))
             1%Z eq_refl eq_refl Hin1).
  - destruct (proj2 (proj2 (proj2 (coin_index_lookup 18 okTx
                (threePool (Return (oneCoinCallAt 7))) (oneCoinCallAt 7))))
              7%Z eq_refl eq_refl Hout7)
      as (t & e & Hthrow & Hcaller).
    exists t, e. split; [exact Hthrow|].
    exact (Hcaller (okTx_decodesTo _)).
Defined.

(** * Further properties of the parser *)

(** ** What the decoders emit *)

Lemma silent_bind {A B} (m : M A) (k : A → M B) :
  silent m → (∀ a, silent (k a)) → silent (bind m k).
Proof.
  unfold silent. destruct m as [t [a|e]]; simpl; intros -> Hk; [|done].
  specialize (Hk a). by destruct (k a) as [t' r].
Qed.

Lemma silent_get {A B} (o : option A) (field : A → B) : silent (get o field).
Proof. by destruct o. Qed.

Lemma silent_formatUnits x decimals : silent (formatUnits x decimals).
Proof.
  unfold formatUnits. destruct (256 <? decimals)%nat; [done|].
  by destruct x as [[n|l]|].
Qed.

Lemma silent_toNumber x : silent (toNumber x).
Proof.
  destruct x as [[n|l]|]; try done.
  unfold toNumber. by destruct (Z.abs n <? 2 ^ 53)%Z.
Qed.

Lemma silent_asArray x : silent (asArray x).
Proof. by destruct x as [[n|l]|]. Qed.

Lemma silent_Array_map_from {St A B} (callback : A → nat → St → M (B * St)) :
  (∀ x i s, silent (callback x i s)) →
  ∀ arr i s, silent (Array_map_from callback i arr s).
Proof.
  intros Hcb. induction arr as [|x arr IH]; intros i s; [done|].
  cbn [Array_map_from]. apply silent_bind; [apply Hcb|].
  intros [b s1]. apply silent_bind; [apply IH|]. by intros [bs s2].
Qed.

(** Closes a goal [silent m] for a sequence of binds of silent steps. *)
Ltac silence :=
  repeat first
    [ apply silent_get | apply silent_formatUnits | apply silent_toNumber
    | apply silent_asArray | reflexivity
    | apply silent_bind; [|intros]
    | apply silent_Array_map_from; intros
    | match goal with
      | p : (_ * _)%type |- _ => destruct p
      | |- silent (if ?b then _ else _) => destruct b
      | |- silent (match ?o with Some _ => _ | None => _ end) => destruct o
      end ].

Lemma silent_parseAddLiquidity tx pool d :
  name d = "add_liquidity" → silent (parseAddLiquidity tx pool d).
Proof.
  intros Hname. unfold parseAddLiquidity. rewrite Hname.
  cbn [String.eqb Ascii.eqb Bool.eqb]. unfold Array_map. silence.
Qed.

Lemma silent_parseRemoveLiquidity lp tx pool d :
  name d = "remove_liquidity_imbalance"
  ∨ name d = "remove_liquidity_one_coin"
  ∨ name d = "remove_liquidity" →
  silent (parseRemoveLiquidity lp tx pool d).
Proof.
  intros [Hname | [Hname | Hname]]; unfold parseRemoveLiquidity;
    rewrite Hname; cbn [String.eqb Ascii.eqb Bool.eqb]; unfold Array_map;
    silence.
Qed.

Lemma silent_parseExchange tx pool d :
  name d = "exchange" ∨ name d = "exchange_underlying" →
  silent (parseExchange tx pool d).
Proof.
  intros [Hname | Hname]; unfold parseExchange; rewrite Hname;
    cbn [String.eqb Ascii.eqb Bool.eqb]; silence.
Qed.

(** ** Names the decoders do not know *)

Lemma parseAddLiquidity_unknown tx pool d :
  name d ≠ "add_liquidity" →
  parseAddLiquidity tx pool d
  = ([ConsoleWarn "[parseAddLiquidity] Unknown transaction type: " (name d)],
     Return None).
Proof.
  intros Hname. unfold parseAddLiquidity.
  by destruct (String.eqb_spec (name d) "add_liquidity").
Qed.

Lemma parseRemoveLiquidity_unknown lp tx pool d :
  name d ≠ "remove_liquidity_imbalance" →
  name d ≠ "remove_liquidity_one_coin" →
  name d ≠ "remove_liquidity" →
  parseRemoveLiquidity lp tx pool d
  = ([ConsoleWarn "[parseRemoveLiquidity] Unknown transaction type: "
        (name d)],
     Return None).
Proof.
  intros H1 H2 H3. unfold parseRemoveLiquidity.
  destruct (String.eqb_spec (name d) "remove_liquidity_imbalance"); [done|].
  destruct (String.eqb_spec (name d) "remove_liquidity_one_coin"); [done|].
  by destruct (String.eqb_spec (name d) "remove_liquidity").
Qed.

Lemma parseExchange_unknown tx pool d :
  name d ≠ "exchange" → name d ≠ "exchange_underlying" →
  parseExchange tx pool d
  = ([ConsoleWarn "[parseExchange] Unknown transaction type: " (name d)],
     Return None).
Proof.
  intros H1 H2. unfold parseExchange.
  destruct (String.eqb_spec (name d) "exchange"); [done|].
  by destruct (String.eqb_spec (name d) "exchange_underlying").
Qed.

Lemma parseExchange_underlying tx pool d :
  name d = "exchange_underlying" →
  parseExchange tx pool d = ([], Return None).
Proof. intros Hname. unfold parseExchange. by rewrite Hname. Qed.

(** ** The three prefixes *)

(** No name starts with two of the prefixes that [parseTransaction] tests:
    they differ in their first letter. *)
Lemma prefixes_exclusive s :
  (startsWith s "remove_liquidity" = true →
   startsWith s "add_liquidity" = false ∧ startsWith s "exchange" = false)
  ∧ (startsWith s "add_liquidity" = true →
     startsWith s "remove_liquidity" = false
     ∧ startsWith s "exchange" = false)
  ∧ (startsWith s "exchange" = true →
     startsWith s "remove_liquidity" = false
     ∧ startsWith s "add_liquidity" = false).
Proof.
  unfold startsWith. destruct s as [|b s]; cbn [String.prefix]; [done|].
  repeat match goal with
         | |- context [Ascii.ascii_dec ?c ?x] =>
             destruct (Ascii.ascii_dec c x) as [?|?]; subst; try discriminate
         end; repeat split; done.
Qed.

(** ** The guards of the classifier *)

Lemma parseTransaction_guard lp pool tx :
  EtherscanTx.txreceipt_status tx ≠ "1"
  ∨ EtherscanTx.isError tx = "1"
  ∨ falsy (EtherscanTx.to tx) = true →
  parseTransaction lp pool tx = ([], Return notApplicable).
Proof.
  intros Hguard. unfold parseTransaction.
  destruct (String.eqb_spec (EtherscanTx.txreceipt_status tx) "1");
    destruct (String.eqb_spec (EtherscanTx.isError tx) "1");
    simpl; try done.
  destruct (falsy (EtherscanTx.to tx)); [done|].
  by destruct Hguard as [? | [? | ?]].
Qed.

(** The classifier, once the decoder threw [e]. *)
Lemma parseTransaction_decode_Throw lp pool tx e :
  EtherscanTx.txreceipt_status tx = "1" →
  EtherscanTx.isError tx ≠ "1" →
  falsy (EtherscanTx.to tx) = false →
  Interface.parseTransaction (Pool.interface pool)
    (EtherscanTx.input tx) (EtherscanTx.value tx) = Throw e →
  parseTransaction lp pool tx
  = ([DecodeCall (EtherscanTx.input tx) (EtherscanTx.value tx)],
     if bool_decide (code e = Some "INVALID_ARGUMENT")
     then Return notApplicable else Throw e).
Proof.
  intros Hs He Hto Hd. unfold parseTransaction. rewrite Hs, Hto.
  destruct (String.eqb_spec (EtherscanTx.isError tx) "1"); [done|].
  cbn [String.eqb Ascii.eqb Bool.eqb negb orb]. unfold decode.
  rewrite Hd. cbn [bind emit try_catch app].
  case_bool_decide as Hcode.
  - rewrite Hcode. reflexivity.
  - destruct (code e) as [c|]; [|done].
    destruct (String.eqb_spec c "INVALID_ARGUMENT") as [->|Hc]; done.
Qed.

(** ** Transactions that are not classified *)

(** X1. A transaction without a recipient ([to] absent or empty, as on a
    contract creation) is not applicable, whatever its status flags, and the
    decoder is not called on it. *)
Theorem contract_creation_not_applicable
    (lp : nat) (pool : Pool.t) (tx : EtherscanTx.t) :
  falsy (EtherscanTx.to tx) = true →
  parseTransaction lp pool tx = ([], Return notApplicable).
Proof. intros Hto. apply parseTransaction_guard. auto. Qed.

(** X2. An [exchange_underlying] call is decoded but not classified, and no
    diagnostic is printed: [parseExchange] returns nothing, silently, and
    [parseTransaction] returns the decoded call without a classification. *)
Theorem exchange_underlying_not_classified
    (lp : nat) (pool : Pool.t) (tx : EtherscanTx.t)
    (d : TransactionDescription) :
  decodesTo pool tx d →
  name d = "exchange_underlying" →
  parseExchange tx pool d = ([], Return None)
  ∧ parseTransaction lp pool tx
    = ([DecodeCall (EtherscanTx.input tx) (EtherscanTx.value tx)],
       Return {| ParseTransactionAPI.decodedInput := Some d;
                 ParseTransactionAPI.transaction := None |}).
Proof.
  intros Hd Hname. split; [by apply parseExchange_underlying|].
  rewrite (parseTransaction_decoded _ _ _ _ Hd), Hname.
  change (startsWith "exchange_underlying" "remove_liquidity") with false.
  change (startsWith "exchange_underlying" "add_liquidity") with false.
  change (startsWith "exchange_underlying" "exchange") with true.
  cbv iota. by rewrite parseExchange_underlying.
Qed.

(** X3. A call whose name starts with one of the three prefixes without
    being a variant its decoder knows is decoded but not classified, and
    exactly one diagnostic is printed, naming the decoder and the call. *)
Theorem unknown_variant_warns
    (lp : nat) (pool : Pool.t) (tx : EtherscanTx.t)
    (d : TransactionDescription) :
  decodesTo pool tx d →
  (startsWith (name d) "remove_liquidity" = true →
   name d ≠ "remove_liquidity_imbalance" →
   name d ≠ "remove_liquidity_one_coin" →
   name d ≠ "remove_liquidity" →
   parseTransaction lp pool tx
   = ([DecodeCall (EtherscanTx.input tx) (EtherscanTx.value tx);
       ConsoleWarn "[parseRemoveLiquidity] Unknown transaction type: "
         (name d)],
      Return {| ParseTransactionAPI.decodedInput := Some d;
                ParseTransactionAPI.transaction := None |}))
  ∧ (startsWith (name d) "add_liquidity" = true →
     name d ≠ "add_liquidity" →
     parseTransaction lp pool tx
     = ([DecodeCall (EtherscanTx.input tx) (EtherscanTx.value tx);
         ConsoleWarn "[parseAddLiquidity] Unknown transaction type: "
           (name d)],
        Return {| ParseTransactionAPI.decodedInput := Some d;
                  ParseTransactionAPI.transaction := None |}))
  ∧ (startsWith (name d) "exchange" = true →
     name d ≠ "exchange" → name d ≠ "exchange_underlying" →
     parseTransaction lp pool tx
     = ([DecodeCall (EtherscanTx.input tx) (EtherscanTx.value tx);
         ConsoleWarn "[parseExchange] Unknown transaction type: "
           (name d)],
        Return {| ParseTransactionAPI.decodedInput := Some d;
                  ParseTransactionAPI.transaction := None |})).
Proof.
  intros Hd. rewrite (parseTransaction_decoded _ _ _ _ Hd).
  destruct (prefixes_exclusive (name d)) as (Hr & Ha & He).
  split_and!.
  - intros Hp H1 H2 H3. rewrite Hp.
    by rewrite parseRemoveLiquidity_unknown.
  - intros Hp H1. destruct (Ha Hp) as [-> _]. rewrite Hp.
    by rewrite parseAddLiquidity_unknown.
  - intros Hp H1 H2. destruct (He Hp) as [-> ->]. rewrite Hp.
    by rewrite parseExchange_unknown.
Qed.

(** X4. A call whose name starts with none of the three prefixes is decoded
    but not classified, and nothing is printed: the only event is the call
    of the decoder. *)
Theorem foreign_call_not_classified
    (lp : nat) (pool : Pool.t) (tx : EtherscanTx.t)
    (d : TransactionDescription) :
  decodesTo pool tx d →
  startsWith (name d) "remove_liquidity" = false →
  startsWith (name d) "add_liquidity" = false →
  startsWith (name d) "exchange" = false →
  parseTransaction lp pool tx
  = ([DecodeCall (EtherscanTx.input tx) (EtherscanTx.value tx)],
     Return {| ParseTransactionAPI.decodedInput := Some d;
               ParseTransactionAPI.transaction := None |}).
Proof.
  intros Hd Hr Ha He.
  by rewrite (parseTransaction_decoded _ _ _ _ Hd), Hr, Ha, He.
Qed.

(** ** Transactions that are classified *)

(** Every run of [parseTransaction] is of one of three kinds: a guard
    stopped it, the decoder threw, or the decoder returned a call. *)
Lemma parseTransaction_cases lp pool tx :
  parseTransaction lp pool tx = ([], Return notApplicable)
  ∨ (∃ e, parseTransaction lp pool tx
          = ([DecodeCall (EtherscanTx.input tx) (EtherscanTx.value tx)],
             if bool_decide (code e = Some "INVALID_ARGUMENT")
             then Return notApplicable else Throw e))
  ∨ (∃ d, decodesTo pool tx d).
Proof.
  destruct (decide (EtherscanTx.txreceipt_status tx = "1")) as [Hs|Hs];
    [|left; apply parseTransaction_guard; auto].
  destruct (decide (EtherscanTx.isError tx = "1")) as [He|He];
    [left; apply parseTransaction_guard; auto|].
  destruct (falsy (EtherscanTx.to tx)) eqn:Hto;
    [left; apply parseTransaction_guard; auto|].
  right.
  destruct (Interface.parseTransaction (Pool.interface pool)
              (EtherscanTx.input tx) (EtherscanTx.value tx)) as [d|e] eqn:Hd.
  - right. by exists d.
  - left. exists e. by apply parseTransaction_decode_Throw.
Qed.

(** A classification comes from the decoder that the name of the decoded
    call selects, and that decoder emitted nothing. *)
Lemma parseTransaction_Return_transaction lp pool tx t r tr :
  parseTransaction lp pool tx = (t, Return r) →
  ParseTransactionAPI.transaction r = Some tr →
  ∃ d,
    decodesTo pool tx d
    ∧ ParseTransactionAPI.decodedInput r = Some d
    ∧ t = [DecodeCall (EtherscanTx.input tx) (EtherscanTx.value tx)]
    ∧ ((startsWith (name d) "remove_liquidity" = true
        ∧ parseRemoveLiquidity lp tx pool d = ([], Return (Some tr)))
       ∨ (name d = "add_liquidity"
          ∧ parseAddLiquidity tx pool d = ([], Return (Some tr)))
       ∨ (name d = "exchange"
          ∧ parseExchange tx pool d = ([], Return (Some tr)))).
Proof.
  intros Hrun Htr.
  destruct (parseTransaction_cases lp pool tx) as [H | [[e H] | [d Hd]]].
  - rewrite H in Hrun. injection Hrun as <- <-. discriminate.
  - rewrite H in Hrun. case_bool_decide; [|discriminate].
    injection Hrun as <- <-. discriminate.
  - exists d. split; [done|].
    rewrite (parseTransaction_decoded _ _ _ _ Hd) in Hrun.
    apply bind_Return in Hrun as (t1 & [] & t2 & [= <-] & Hrun & ->).
    apply bind_Return in Hrun as (t3 & o & t4 & Hdec & [= <- <-] & ->).
    simpl in Htr. subst o. simpl. split; [done|].
    destruct (startsWith (name d) "remove_liquidity") eqn:Hr.
    { pose proof Hdec as Hinv.
      apply parseRemoveLiquidity_Return in Hinv
        as (total & legs & _ & [(Hn & _) | (burn & Hn & _)]).
      - pose proof (silent_parseRemoveLiquidity lp tx pool d (or_introl Hn))
          as Hsil. unfold silent in Hsil. rewrite Hdec in Hsil.
        simpl in Hsil. subst t3. auto.
      - assert (Hsil : silent (parseRemoveLiquidity lp tx pool d)).
        { apply silent_parseRemoveLiquidity.
          destruct Hn as [[Hn _] | [Hn _]]; auto. }
        unfold silent in Hsil. rewrite Hdec in Hsil.
        simpl in Hsil. subst t3. auto. }
    destruct (startsWith (name d) "add_liquidity") eqn:Ha.
    { pose proof Hdec as Hinv.
      apply parseAddLiquidity_Return in Hinv as (total & legs & _ & Hn & _).
      pose proof (silent_parseAddLiquidity tx pool d Hn) as Hsil.
      unfold silent in Hsil. rewrite Hdec in Hsil.
      simpl in Hsil. subst t3. auto. }
    destruct (startsWith (name d) "exchange") eqn:He; [|discriminate].
    pose proof Hdec as Hinv.
    apply parseExchange_Return in Hinv
      as (i & j & raw & ci & cj & Hn & _).
    pose proof (silent_parseExchange tx pool d (or_introl Hn)) as Hsil.
    unfold silent in Hsil. rewrite Hdec in Hsil.
    simpl in Hsil. subst t3. auto.
Qed.

(** X5. Whenever [parseTransaction] returns a classification, it returns the
    decoded call with it, it called the decoder once and printed nothing,
    and the classification carries the hash and the timestamp of the
    transaction, the address of the pool, and the kind that the prefix of
    the decoded name selects. *)
Theorem classification_metadata
    (lp : nat) (pool : Pool.t) (tx : EtherscanTx.t) (t : list Event)
    (r : ParseTransactionAPI.t) (tr : CurveTransaction.t) :
  parseTransaction lp pool tx = (t, Return r) →
  ParseTransactionAPI.transaction r = Some tr →
  ∃ d,
    ParseTransactionAPI.decodedInput r = Some d
    ∧ Interface.parseTransaction (Pool.interface pool)
        (EtherscanTx.input tx) (EtherscanTx.value tx) = Return d
    ∧ t = [DecodeCall (EtherscanTx.input tx) (EtherscanTx.value tx)]
    ∧ CurveTransaction.hash tr = EtherscanTx.hash tx
    ∧ CurveTransaction.pool tr = Pool.address pool
    ∧ CurveTransaction.timestamp tr = Number (EtherscanTx.timeStamp tx)
    ∧ CurveTransaction.type tr
      = (if startsWith (name d) "remove_liquidity" then REMOVE_LIQUIDITY
         else if startsWith (name d) "add_liquidity" then ADD_LIQUIDITY
         else EXCHANGE).
Proof.
  intros Hrun Htr.
  destruct (parseTransaction_Return_transaction _ _ _ _ _ _ Hrun Htr)
    as (d & Hd & Hdi & -> & Hcase).
  exists d. split; [done|]. split; [apply Hd|]. split; [done|].
  destruct (prefixes_exclusive (name d)) as (_ & Ha & He).
  destruct Hcase as [[Hp H] | [[Hn H] | [Hn H]]].
  - apply parseRemoveLiquidity_Return in H as (total & legs & -> & _).
    by rewrite Hp.
  - apply parseAddLiquidity_Return in H as (total & legs & -> & _).
    assert (Hp : startsWith (name d) "add_liquidity" = true)
      by (by rewrite Hn).
    destruct (Ha Hp) as [-> _]. by rewrite Hp.
  - apply parseExchange_Return in H
      as (i & j & raw & ci & cj & _ & _ & _ & _ & _ & _ & _ & ->).
    assert (Hp : startsWith (name d) "exchange" = true) by (by rewrite Hn).
    by destruct (He Hp) as [-> ->].
Qed.

(** A decoder either is silent or prints its one diagnostic and returns
    nothing. *)
Lemma decoder_events lp tx pool d :
  let run :=
    if startsWith (name d) "remove_liquidity" then
      parseRemoveLiquidity lp tx pool d
    else if startsWith (name d) "add_liquidity" then
      parseAddLiquidity tx pool d
    else if startsWith (name d) "exchange" then
      parseExchange tx pool d
    else ret None in
  silent run ∨ ∃ message, run = ([ConsoleWarn message (name d)], Return None).
Proof.
  cbv zeta.
  destruct (startsWith (name d) "remove_liquidity").
  { destruct (decide (name d = "remove_liquidity_imbalance")) as [H1|H1];
      [left; apply silent_parseRemoveLiquidity; auto|].
    destruct (decide (name d = "remove_liquidity_one_coin")) as [H2|H2];
      [left; apply silent_parseRemoveLiquidity; auto|].
    destruct (decide (name d = "remove_liquidity")) as [H3|H3];
      [left; apply silent_parseRemoveLiquidity; auto|].
    right. eexists. by apply parseRemoveLiquidity_unknown. }
  destruct (startsWith (name d) "add_liquidity").
  { destruct (decide (name d = "add_liquidity")) as [H1|H1];
      [left; by apply silent_parseAddLiquidity|].
    right. eexists. by apply parseAddLiquidity_unknown. }
  destruct (startsWith (name d) "exchange"); [|by left].
  destruct (decide (name d = "exchange")) as [H1|H1];
    [left; apply silent_parseExchange; auto|].
  destruct (decide (name d = "exchange_underlying")) as [H2|H2];
    [left; apply silent_parseExchange; auto|].
  right. eexists. by apply parseExchange_unknown.
Qed.

(** X6. In every run, [parseTransaction] calls the decoder at most once, on
    the calldata and the value of the transaction, before anything else; it
    prints at most one diagnostic, and only when it returns the decoded call
    without a classification. *)
Theorem parseTransaction_events
    (lp : nat) (pool : Pool.t) (tx : EtherscanTx.t) :
  (parseTransaction lp pool tx).1 = []
  ∨ (parseTransaction lp pool tx).1
    = [DecodeCall (EtherscanTx.input tx) (EtherscanTx.value tx)]
  ∨ ∃ message d,
      parseTransaction lp pool tx
      = ([DecodeCall (EtherscanTx.input tx) (EtherscanTx.value tx);
          ConsoleWarn message (name d)],
         Return {| ParseTransactionAPI.decodedInput := Some d;
                   ParseTransactionAPI.transaction := None |}).
Proof.
  destruct (parseTransaction_cases lp pool tx) as [H | [[e H] | [d Hd]]].
  - left. by rewrite H.
  - right. left. by rewrite H.
  - right. rewrite (parseTransaction_decoded _ _ _ _ Hd).
    destruct (decoder_events lp tx pool d) as [Hsil | [message Hwarn]].
    + left. unfold silent in Hsil. cbn [bind emit].
      destruct (if startsWith (name d) "remove_liquidity" then _ else _)
        as [t [o|e]]; simpl in *; by subst t.
    + right. exists message, d. cbv zeta in Hwarn. by rewrite Hwarn.
Qed.

(** ** The exact shape of what the decoders return *)

Lemma asArray_Return x t l :
  asArray x = (t, Return l) → x = Some (VArr l) ∧ t = [].
Proof. destruct x as [[n|l']|]; try discriminate. by intros [= <- <-]. Qed.

(** Whatever the deposit decoder returns is what [parseAddLiquidity_amounts]
    describes. *)
Lemma parseAddLiquidity_Return_amounts tx pool d t tr :
  parseAddLiquidity tx pool d = (t, Return (Some tr)) →
  ∃ A,
    name d = "add_liquidity"
    ∧ args d !! "_amounts" ?? args d !! "amounts" ?? args d !! "uamounts"
      = Some (VArr A)
    ∧ nonZeroInRange A (Pool.coins pool)
    ∧ acceptedPrecisions A (Pool.coins pool)
    ∧ t = []
    ∧ tr = classified ADD_LIQUIDITY tx pool
             (foldl Decimal_add 0%Qc
                (map amountOf (nonZeroEntries A (Pool.coins pool))))
             (map (λ p, leg add p.2 (Some (amountOf p)))
                  (nonZeroEntries A (Pool.coins pool))).
Proof.
  intros Hrun.
  destruct (parseAddLiquidity_Return _ _ _ _ _ Hrun)
    as (total & legs & _ & Hname & _).
  pose proof Hrun as Hinv. unfold parseAddLiquidity in Hinv.
  rewrite Hname in Hinv. cbn [String.eqb Ascii.eqb Bool.eqb] in Hinv.
  apply bind_Return in Hinv as (t1 & branch & t2 & Hbranch & _ & _).
  apply bind_Return in Hbranch as (t3 & A & t4 & HA & _ & _).
  apply asArray_Return in HA as [HA _].
  exists A.
  destruct (parseAddLiquidity_Return_range _ _ _ _ _ _ Hname HA Hrun)
    as [Hrange Hprec].
  rewrite (parseAddLiquidity_amounts _ _ _ _ Hrange Hprec Hname HA) in Hrun.
  by injection Hrun as <- <-.
Qed.

(** Whatever the removal decoder returns is of one of three shapes, by the
    name of the call. *)
Lemma parseRemoveLiquidity_Return_shape lp tx pool d t tr :
  parseRemoveLiquidity lp tx pool d = (t, Return (Some tr)) →
  t = []
  ∧ ((∃ A,
        name d = "remove_liquidity_imbalance"
        ∧ args d !! "_amounts" ?? args d !! "amounts" = Some (VArr A)
        ∧ nonZeroInRange A (Pool.coins pool)
        ∧ acceptedPrecisions A (Pool.coins pool)
        ∧ tr = classified REMOVE_LIQUIDITY tx pool
                 (foldl Decimal_add 0%Qc
                    (map amountOf (nonZeroEntries A (Pool.coins pool))))
                 (map (λ p, leg remove p.2 (Some (amountOf p)))
                      (nonZeroEntries A (Pool.coins pool))))
     ∨ (∃ burn c,
          name d = "remove_liquidity_one_coin"
          ∧ args d !! "_token_amount" ?? args d !! "token_amount"
              ?? args d !! "_burn_amount" = Some (VBig burn)
          ∧ (lp ≤ 256)%nat
          ∧ indexByKey (Pool.coins pool) (args d !! "i") = Some c
          ∧ tr = classified REMOVE_LIQUIDITY tx pool
                   (unitsToDecimal burn lp) [ leg remove c None ])
     ∨ (∃ burn,
          name d = "remove_liquidity"
          ∧ args d !! "_amount" ?? args d !! "_burn_amount"
            = Some (VBig burn)
          ∧ (lp ≤ 256)%nat
          ∧ tr = classified REMOVE_LIQUIDITY tx pool
                   (unitsToDecimal burn lp)
                   (map (λ c, leg remove c None) (Pool.coins pool)))).
Proof.
  intros Hrun.
  destruct (parseRemoveLiquidity_Return _ _ _ _ _ _ Hrun)
    as (total & legs & _
        & [(Hname & _) | (burn & [[Hname Hb] | [Hname Hb]] & Hlp & _)]).
  - pose proof Hrun as Hinv. unfold parseRemoveLiquidity in Hinv.
    rewrite Hname in Hinv. cbn [String.eqb Ascii.eqb Bool.eqb] in Hinv.
    apply bind_Return in Hinv as (t1 & branch & t2 & Hbranch & _ & _).
    apply bind_Return in Hbranch as (t3 & A & t4 & HA & Hbranch & _).
    apply asArray_Return in HA as [HA _].
    apply bind_Return in Hbranch as (t5 & [mapped s'] & t6 & Hmap & _ & _).
    destruct (proj2 (entries_accepted A (Pool.coins pool))
                (Array_map_from_Return_range remove _ _ _ _ _ _ Hmap))
      as [Hrange Hprec].
    rewrite (parseRemoveLiquidity_imbalance _ _ _ _ _ Hrange Hprec Hname HA)
      in Hrun.
    injection Hrun as <- <-. split; [done|]. left. by exists A.
  - pose proof Hrun as Hinv. unfold parseRemoveLiquidity in Hinv.
    rewrite Hname, Hb in Hinv.
    cbn [String.eqb Ascii.eqb Bool.eqb] in Hinv.
    apply bind_Return in Hinv as (t1 & branch & t2 & Hbranch & _ & _).
    apply bind_Return in Hbranch as (t3 & q & t4 & _ & Hbranch & _).
    apply bind_Return in Hbranch as (t5 & sym & t6 & Hsym & _ & _).
    apply get_Return in Hsym as (c & Hc & _ & _).
    destruct (args d !! "i") as [[j|[|j [|? ?]]]|] eqn:Hi;
      cbn [indexByKey] in Hc; try discriminate Hc.
    + rewrite (parseRemoveLiquidity_one_coin_index _ _ _ _ j burn c
                 Hname Hb Hi Hc Hlp) in Hrun.
      injection Hrun as <- <-. split; [done|]. right. left.
      by exists burn, c.
    + unfold parseRemoveLiquidity in Hrun.
      rewrite Hname, Hb, Hi in Hrun.
      cbn [String.eqb Ascii.eqb Bool.eqb indexByKey] in Hrun.
      rewrite Hc, formatUnits_accepted in Hrun by done.
      injection Hrun as <- <-. split; [done|]. right. left.
      by exists burn, c.
  - rewrite (parseRemoveLiquidity_balanced _ _ _ _ _ Hname Hb Hlp) in Hrun.
    injection Hrun as <- <-. split; [done|]. right. right. by exists burn.
Qed.

(** ** The legs and the coins of the pool *)

Lemma sublist_map {A B} (f : A → B) l1 l2 :
  l1 `sublist_of` l2 → map f l1 `sublist_of` map f l2.
Proof. induction 1; simpl; by constructor. Qed.

Lemma zip_snd_sublist {A B} (l : list A) (k : list B) :
  map snd (zip l k) `sublist_of` k.
Proof.
  revert k. induction l as [|x l IH]; intros [|y k]; simpl;
    try apply sublist_nil_l.
  apply sublist_skip, IH.
Qed.

Lemma nonZeroEntries_sublist A coins :
  map snd (nonZeroEntries A coins) `sublist_of` coins.
Proof.
  transitivity (map snd (zip A coins)); [|apply zip_snd_sublist].
  apply sublist_map, sublist_filter.
Qed.

Lemma index_elem_of {A} (arr : list A) k x : index arr k = Some x → x ∈ arr.
Proof.
  unfold index. destruct (k <? 0)%Z; [done|]. apply list_elem_of_lookup_2.
Qed.

Lemma indexByKey_elem_of {A} (arr : list A) x c :
  indexByKey arr x = Some c → c ∈ arr.
Proof.
  destruct x as [[n|[|n [|? ?]]]|]; simpl; try done; apply index_elem_of.
Qed.

Lemma elem_of_map {A B} (f : A → B) l x : x ∈ l → f x ∈ map f l.
Proof. induction 1; simpl; by constructor. Qed.

(** X7. The legs of a transaction returned by the deposit decoder or by the
    removal decoder follow the order of the pool's coins, with at most one
    leg for a coin position: their symbols and addresses are a subsequence
    of those of the coins, so there are at most as many legs as coins. *)
Theorem legs_in_pool_order
    (lp : nat) (tx : EtherscanTx.t) (pool : Pool.t)
    (d : TransactionDescription) (t : list Event) (tr : CurveTransaction.t) :
  parseAddLiquidity tx pool d = (t, Return (Some tr))
  ∨ parseRemoveLiquidity lp tx pool d = (t, Return (Some tr)) →
  map (λ l, (CurveTokenWithAmount.symbol l, CurveTokenWithAmount.address l))
      (CurveTransaction.tokens tr)
    `sublist_of` map (λ c, (Coin.symbol c, Coin.address c)) (Pool.coins pool)
  ∧ (length (CurveTransaction.tokens tr) ≤ length (Pool.coins pool))%nat.
Proof.
  intros Hrun.
  assert (Hsub :
    map (λ l, (CurveTokenWithAmount.symbol l, CurveTokenWithAmount.address l))
        (CurveTransaction.tokens tr)
      `sublist_of`
    map (λ c, (Coin.symbol c, Coin.address c)) (Pool.coins pool)).
  { assert (Hentries : ∀ dir A,
      map (λ l, (CurveTokenWithAmount.symbol l,
                 CurveTokenWithAmount.address l))
          (map (λ p, leg dir p.2 (Some (amountOf p)))
               (nonZeroEntries A (Pool.coins pool)))
        `sublist_of`
      map (λ c, (Coin.symbol c, Coin.address c)) (Pool.coins pool)).
    { intros dir A. rewrite map_map. simpl.
      rewrite <- (map_map snd (λ c, (Coin.symbol c, Coin.address c))).
      apply sublist_map, nonZeroEntries_sublist. }
    destruct Hrun as [Hrun | Hrun].
    - apply parseAddLiquidity_Return_amounts in Hrun
        as (A & _ & _ & _ & _ & _ & ->).
      apply Hentries.
    - apply parseRemoveLiquidity_Return_shape in Hrun
        as (_ & [(A & _ & _ & _ & _ & ->)
                | [(burn & c & _ & _ & _ & Hc & ->)
                  | (burn & _ & _ & _ & ->)]]).
      + apply Hentries.
      + simpl. apply singleton_sublist_l.
        apply indexByKey_elem_of in Hc.
        by apply (elem_of_map (λ c, (Coin.symbol c, Coin.address c))).
      + simpl. by rewrite map_map. }
  split; [done|].
  apply sublist_length in Hsub. by rewrite !length_map in Hsub.
Qed.

Lemma nonZeroEntries_legs dir A coins :
  Forall (λ l, (∃ c, c ∈ coins
                     ∧ CurveTokenWithAmount.symbol l = Coin.symbol c
                     ∧ CurveTokenWithAmount.address l = Coin.address c)
               ∧ CurveTokenWithAmount.type l = dir)
         (map (λ p, leg dir p.2 (Some (amountOf p)))
              (nonZeroEntries A coins)).
Proof.
  apply Forall_forall. intros l Hl. apply list_elem_of_In, in_map_iff in Hl.
  destruct Hl as ([a c] & <- & Hin). apply list_elem_of_In in Hin.
  apply nonZeroEntries_spec in Hin as (_ & i & _ & Hc).
  split; [|done]. exists c. split; [|done]. by eapply list_elem_of_lookup_2.
Qed.

(** X8. Every leg of a classification that [parseTransaction] returns names
    a coin of the pool, by its symbol and address. A deposit has only [add]
    legs, a removal only [remove] legs, and an exchange an [add] leg
    followed by a [remove] leg. *)
Theorem legs_are_pool_coins
    (lp : nat) (pool : Pool.t) (tx : EtherscanTx.t) (t : list Event)
    (r : ParseTransactionAPI.t) (tr : CurveTransaction.t) :
  parseTransaction lp pool tx = (t, Return r) →
  ParseTransactionAPI.transaction r = Some tr →
  Forall (λ l, ∃ c, c ∈ Pool.coins pool
                    ∧ CurveTokenWithAmount.symbol l = Coin.symbol c
                    ∧ CurveTokenWithAmount.address l = Coin.address c)
         (CurveTransaction.tokens tr)
  ∧ match CurveTransaction.type tr with
    | ADD_LIQUIDITY =>
        Forall (λ l, CurveTokenWithAmount.type l = add)
               (CurveTransaction.tokens tr)
    | REMOVE_LIQUIDITY =>
        Forall (λ l, CurveTokenWithAmount.type l = remove)
               (CurveTransaction.tokens tr)
    | EXCHANGE =>
        map CurveTokenWithAmount.type (CurveTransaction.tokens tr)
        = [add; remove]
    end.
Proof.
  intros Hrun Htr.
  destruct (parseTransaction_Return_transaction _ _ _ _ _ _ Hrun Htr)
    as (d & _ & _ & _ & [[_ H] | [[_ H] | [_ H]]]).
  - apply parseRemoveLiquidity_Return_shape in H
      as (_ & [(A & _ & _ & _ & _ & ->)
              | [(burn & c & _ & _ & _ & Hc & ->)
                | (burn & _ & _ & _ & ->)]]);
      simpl.
    + pose proof (nonZeroEntries_legs remove A (Pool.coins pool)) as Hall.
      split; (eapply Forall_impl; [exact Hall|]); by intros l [? ?].
    + apply indexByKey_elem_of in Hc.
      split; repeat constructor. by exists c.
    + split; apply Forall_forall; intros l Hl;
        apply list_elem_of_In, in_map_iff in Hl; destruct Hl as (c & <- & Hc);
        [|done].
      exists c. by apply list_elem_of_In in Hc.
  - apply parseAddLiquidity_Return_amounts in H
      as (A & _ & _ & _ & _ & _ & ->).
    simpl. pose proof (nonZeroEntries_legs add A (Pool.coins pool)) as Hall.
    split; (eapply Forall_impl; [exact Hall|]); by intros l [? ?].
  - apply parseExchange_Return in H
      as (i & j & raw & ci & cj & _ & _ & Hci & _ & Hcj & _ & _ & ->).
    apply index_elem_of in Hci, Hcj. simpl.
    split; [|done]. repeat constructor; [by exists ci | by exists cj].
Qed.

(** ** Arguments that are missing *)

Lemma formatUnits_missing x decimals :
  (∀ b, x ≠ Some (VBig b)) →
  formatUnits x decimals = ([], Throw INVALID_ARGUMENT).
Proof.
  intros Hx. unfold formatUnits. destruct (256 <? decimals)%nat; [done|].
  destruct x as [[n|l]|]; try done. by destruct (Hx n).
Qed.

Lemma asArray_missing x :
  (∀ A, x ≠ Some (VArr A)) → asArray x = ([], Throw TypeError).
Proof. intros Hx. destruct x as [[n|l]|]; try done. by destruct (Hx l). Qed.

(** An exception of the removal decoder, or of the deposit decoder, leaves
    [parseTransaction] as it is. *)
Lemma parseTransaction_remove_Throw lp pool tx d t e :
  decodesTo pool tx d → startsWith (name d) "remove_liquidity" = true →
  parseRemoveLiquidity lp tx pool d = (t, Throw e) →
  parseTransaction lp pool tx
  = (DecodeCall (EtherscanTx.input tx) (EtherscanTx.value tx) :: t, Throw e).
Proof.
  intros Hd Hp Hthrow.
  by rewrite (parseTransaction_decoded _ _ _ _ Hd), Hp, Hthrow.
Qed.

Lemma parseTransaction_add_Throw lp pool tx d t e :
  decodesTo pool tx d → name d = "add_liquidity" →
  parseAddLiquidity tx pool d = (t, Throw e) →
  parseTransaction lp pool tx
  = (DecodeCall (EtherscanTx.input tx) (EtherscanTx.value tx) :: t, Throw e).
Proof.
  intros Hd Hname Hthrow.
  rewrite (parseTransaction_decoded _ _ _ _ Hd), Hname.
  change (startsWith "add_liquidity" "remove_liquidity") with false.
  change (startsWith "add_liquidity" "add_liquidity") with true.
  cbv iota. by rewrite Hthrow.
Qed.

(** X9. An invalid-argument error that the conversion of a missing amount
    raises inside a decoder (no burn amount under any of its names, no
    [dx]) is thrown to the caller of [parseTransaction]: unlike the same
    error of the ABI decoding, it is not turned into "not applicable". *)
Theorem missing_amount_throws
    (lp : nat) (pool : Pool.t) (tx : EtherscanTx.t)
    (d : TransactionDescription) :
  decodesTo pool tx d →
  (name d = "remove_liquidity" →
   (∀ b, args d !! "_amount" ?? args d !! "_burn_amount" ≠ Some (VBig b)) →
   parseTransaction lp pool tx
   = ([DecodeCall (EtherscanTx.input tx) (EtherscanTx.value tx)],
      Throw INVALID_ARGUMENT))
  ∧ (name d = "remove_liquidity_one_coin" →
     (∀ b, args d !! "_token_amount" ?? args d !! "token_amount"
             ?? args d !! "_burn_amount" ≠ Some (VBig b)) →
     parseTransaction lp pool tx
     = ([DecodeCall (EtherscanTx.input tx) (EtherscanTx.value tx)],
        Throw INVALID_ARGUMENT))
  ∧ (∀ (i j : nat) (ci : Coin.t),
       name d = "exchange" →
       args d !! "i" = Some (VBig (Z.of_nat i)) → (Z.of_nat i < 2 ^ 53)%Z →
       args d !! "j" = Some (VBig (Z.of_nat j)) → (Z.of_nat j < 2 ^ 53)%Z →
       Pool.coins pool !! i = Some ci →
       (∀ b, args d !! "dx" ?? args d !! "_dx" ≠ Some (VBig b)) →
       parseTransaction lp pool tx
       = ([DecodeCall (EtherscanTx.input tx) (EtherscanTx.value tx)],
          Throw INVALID_ARGUMENT)).
Proof.
  intros Hd. split_and!.
  - intros Hname Hmissing.
    apply (parseTransaction_remove_Throw _ _ _ d); [done | by rewrite Hname |].
    unfold parseRemoveLiquidity. rewrite Hname.
    cbn [String.eqb Ascii.eqb Bool.eqb].
    by rewrite formatUnits_missing.
  - intros Hname Hmissing.
    apply (parseTransaction_remove_Throw _ _ _ d); [done | by rewrite Hname |].
    unfold parseRemoveLiquidity. rewrite Hname.
    cbn [String.eqb Ascii.eqb Bool.eqb].
    by rewrite formatUnits_missing.
  - intros i j ci Hname Hi Hsi Hj Hsj Hci Hmissing.
    apply (parseTransaction_exchange_Throw _ _ _ d); [done | done |].
    unfold parseExchange.
    rewrite Hname, Hi, Hj, !toNumber_safe by done.
    cbn [String.eqb Ascii.eqb Bool.eqb bind app].
    rewrite !index_of_nat, Hci. cbn [get bind ret app].
    by rewrite formatUnits_missing.
Qed.

(** X10. A deposit or an imbalanced removal whose amounts argument is
    missing under all of its names, or is not an array, makes the decoder
    throw a [TypeError], which [parseTransaction] throws to its caller. *)
Theorem missing_amounts_throw
    (lp : nat) (pool : Pool.t) (tx : EtherscanTx.t)
    (d : TransactionDescription) :
  decodesTo pool tx d →
  (name d = "add_liquidity" →
   (∀ A, args d !! "_amounts" ?? args d !! "amounts" ?? args d !! "uamounts"
         ≠ Some (VArr A)) →
   parseAddLiquidity tx pool d = ([], Throw TypeError)
   ∧ parseTransaction lp pool tx
     = ([DecodeCall (EtherscanTx.input tx) (EtherscanTx.value tx)],
        Throw TypeError))
  ∧ (name d = "remove_liquidity_imbalance" →
     (∀ A, args d !! "_amounts" ?? args d !! "amounts" ≠ Some (VArr A)) →
     parseRemoveLiquidity lp tx pool d = ([], Throw TypeError)
     ∧ parseTransaction lp pool tx
       = ([DecodeCall (EtherscanTx.input tx) (EtherscanTx.value tx)],
          Throw TypeError)).
Proof.
  intros Hd. split.
  - intros Hname Hmissing.
    assert (Hthrow : parseAddLiquidity tx pool d = ([], Throw TypeError)).
    { unfold parseAddLiquidity. rewrite Hname.
      cbn [String.eqb Ascii.eqb Bool.eqb]. by rewrite asArray_missing. }
    split; [done|]. by apply (parseTransaction_add_Throw _ _ _ d).
  - intros Hname Hmissing.
    assert (Hthrow :
      parseRemoveLiquidity lp tx pool d = ([], Throw TypeError)).
    { unfold parseRemoveLiquidity. rewrite Hname.
      cbn [String.eqb Ascii.eqb Bool.eqb]. by rewrite asArray_missing. }
    split; [done|].
    apply (parseTransaction_remove_Throw _ _ _ d); [done | by rewrite Hname |].
    done.
Qed.

(** X11. A deposit or an imbalanced removal whose amounts are all zero, and
    one with no amounts at all, is still classified, over any pool: it has
    no legs and its computed total is zero. *)
Theorem zero_amounts_no_legs
    (lp : nat) (tx : EtherscanTx.t) (pool : Pool.t)
    (dAdd dRemove : TransactionDescription) (A : list BigNumber) :
  Forall (λ a, a = 0%Z) A →
  name dAdd = "add_liquidity" →
  args dAdd !! "_amounts" ?? args dAdd !! "amounts" ?? args dAdd !! "uamounts"
    = Some (VArr A) →
  name dRemove = "remove_liquidity_imbalance" →
  args dRemove !! "_amounts" ?? args dRemove !! "amounts" = Some (VArr A) →
  parseAddLiquidity tx pool dAdd
    = ([], Return (Some (classified ADD_LIQUIDITY tx pool 0%Qc [])))
  ∧ parseRemoveLiquidity lp tx pool dRemove
    = ([], Return (Some (classified REMOVE_LIQUIDITY tx pool 0%Qc []))).
Proof.
  intros Hzero HnA HaA HnR HaR.
  assert (Hrange : nonZeroInRange A (Pool.coins pool)).
  { intros i a Hi Ha. rewrite Forall_forall in Hzero.
    destruct Ha. apply Hzero. by eapply list_elem_of_lookup_2. }
  assert (Hnone : nonZeroEntries A (Pool.coins pool) = []).
  { destruct (nonZeroEntries A (Pool.coins pool)) as [|[a c] l] eqn:He;
      [done|].
    assert (Hin : (a, c) ∈ nonZeroEntries A (Pool.coins pool))
      by (rewrite He; apply list_elem_of_here).
    apply nonZeroEntries_spec in Hin as (Ha & i & Hi & _).
    rewrite Forall_forall in Hzero. destruct Ha. apply Hzero.
    by eapply list_elem_of_lookup_2. }
  assert (Hprec : acceptedPrecisions A (Pool.coins pool)).
  { intros i a c Hi Ha _. rewrite Forall_forall in Hzero.
    destruct Ha. apply Hzero. by eapply list_elem_of_lookup_2. }
  split.
  - rewrite (parseAddLiquidity_amounts _ _ _ _ Hrange Hprec HnA HaA).
    by rewrite Hnone.
  - rewrite (parseRemoveLiquidity_imbalance _ _ _ _ _ Hrange Hprec HnR HaR).
    by rewrite Hnone.
Qed.

(** ** When a decoder returns a classification *)

(** X12. The deposit decoder returns a classification exactly when the call
    is named [add_liquidity], its amounts argument is an array, and every
    amount that is not zero has a coin of the pool at its index, of a
    precision of at most 256 digits; the classification is then the one of
    the non-zero amounts, with the total that adding them in order gives
    when every sum is rounded to 20 significant digits, and nothing is
    printed. *)
Theorem deposit_returns_iff
    (tx : EtherscanTx.t) (pool : Pool.t) (d : TransactionDescription)
    (t : list Event) (tr : CurveTransaction.t) :
  parseAddLiquidity tx pool d = (t, Return (Some tr))
  ↔ ∃ (A : list BigNumber) (total : Decimal),
      name d = "add_liquidity"
      ∧ args d !! "_amounts" ?? args d !! "amounts" ?? args d !! "uamounts"
        = Some (VArr A)
      ∧ nonZeroInRange A (Pool.coins pool)
      ∧ acceptedPrecisions A (Pool.coins pool)
      ∧ t = []
      ∧ accumulates 0%Qc (map amountOf (nonZeroEntries A (Pool.coins pool)))
          total
      ∧ tr = classified ADD_LIQUIDITY tx pool total
               (map (λ p, leg add p.2 (Some (amountOf p)))
                    (nonZeroEntries A (Pool.coins pool))).
Proof.
  split.
  - intros Hrun. apply parseAddLiquidity_Return_amounts in Hrun
      as (A & Hname & HA & Hrange & Hprec & -> & ->).
    exists A. eexists. split_and!; try done. apply foldl_accumulates.
  - intros (A & total & Hname & HA & Hrange & Hprec & -> & Hacc & ->).
    apply accumulates_unique in Hacc as ->.
    by apply parseAddLiquidity_amounts.
Qed.

(** X13. The removal decoder returns a classification exactly in three
    cases: an imbalanced removal whose amounts are an array with a coin, of
    a precision of at most 256 digits, at the index of every amount that is
    not zero; a one-coin removal with an integer burn amount and a coin
    index that finds a coin; a balanced removal with an integer burn amount;
    in the last two, the precision of the LP token is at most 256 digits.
    Nothing is printed. *)
Theorem removal_returns_iff
    (lp : nat) (tx : EtherscanTx.t) (pool : Pool.t)
    (d : TransactionDescription) (t : list Event) (tr : CurveTransaction.t) :
  parseRemoveLiquidity lp tx pool d = (t, Return (Some tr))
  ↔ t = []
    ∧ ((∃ (A : list BigNumber) (total : Decimal),
          name d = "remove_liquidity_imbalance"
          ∧ args d !! "_amounts" ?? args d !! "amounts" = Some (VArr A)
          ∧ nonZeroInRange A (Pool.coins pool)
          ∧ acceptedPrecisions A (Pool.coins pool)
          ∧ accumulates 0%Qc
              (map amountOf (nonZeroEntries A (Pool.coins pool))) total
          ∧ tr = classified REMOVE_LIQUIDITY tx pool total
                   (map (λ p, leg remove p.2 (Some (amountOf p)))
                        (nonZeroEntries A (Pool.coins pool))))
       ∨ (∃ burn c,
            name d = "remove_liquidity_one_coin"
            ∧ args d !! "_token_amount" ?? args d !! "token_amount"
                ?? args d !! "_burn_amount" = Some (VBig burn)
            ∧ (lp ≤ 256)%nat
            ∧ indexByKey (Pool.coins pool) (args d !! "i") = Some c
            ∧ tr = classified REMOVE_LIQUIDITY tx pool
                     (quotient burn lp) [ leg remove c None ])
       ∨ (∃ burn,
            name d = "remove_liquidity"
            ∧ args d !! "_amount" ?? args d !! "_burn_amount"
              = Some (VBig burn)
            ∧ (lp ≤ 256)%nat
            ∧ tr = classified REMOVE_LIQUIDITY tx pool
                     (quotient burn lp)
                     (map (λ c, leg remove c None) (Pool.coins pool)))).
Proof.
  split.
  - intros Hrun. apply parseRemoveLiquidity_Return_shape in Hrun
      as (-> & [(A & Hname & HA & Hrange & Hprec & ->)
               | [(burn & c & Hname & Hb & Hlp & Hc & ->)
                 | (burn & Hname & Hb & Hlp & ->)]]).
    + split; [done|]. left. exists A. eexists.
      split_and!; try done. apply foldl_accumulates.
    + split; [done|]. right. left. exists burn, c.
      by rewrite <- unitsToDecimal_quotient.
    + split; [done|]. right. right. exists burn.
      by rewrite <- unitsToDecimal_quotient.
  - intros (-> & [(A & total & Hname & HA & Hrange & Hprec & Hacc & ->)
                 | [(burn & c & Hname & Hb & Hlp & Hc & ->)
                   | (burn & Hname & Hb & Hlp & ->)]]).
    + apply accumulates_unique in Hacc as ->.
      by apply parseRemoveLiquidity_imbalance.
    + rewrite <- unitsToDecimal_quotient.
      unfold parseRemoveLiquidity. rewrite Hname, Hb.
      cbn [String.eqb Ascii.eqb Bool.eqb].
      by rewrite Hc, formatUnits_accepted.
    + rewrite <- unitsToDecimal_quotient.
      by apply parseRemoveLiquidity_balanced.
Qed.

(** X14. The exchange decoder returns a classification exactly when the
    call is named [exchange], both coin indices are integers that
    [toNumber] accepts and that find a coin of the pool, the precision of
    the source coin is at most 256 digits, and the input amount is an
    integer; the classification is then the one of these two coins, and
    nothing is printed. *)
Theorem exchange_returns_iff
    (tx : EtherscanTx.t) (pool : Pool.t) (d : TransactionDescription)
    (t : list Event) (tr : CurveTransaction.t) :
  parseExchange tx pool d = (t, Return (Some tr))
  ↔ t = []
    ∧ ∃ i j dx ci cj,
        name d = "exchange"
        ∧ args d !! "i" = Some (VBig i) ∧ (Z.abs i < 2 ^ 53)%Z
        ∧ index (Pool.coins pool) i = Some ci
        ∧ args d !! "j" = Some (VBig j) ∧ (Z.abs j < 2 ^ 53)%Z
        ∧ index (Pool.coins pool) j = Some cj
        ∧ args d !! "dx" ?? args d !! "_dx" = Some (VBig dx)
        ∧ (Coin.decimals ci ≤ 256)%nat
        ∧ tr = classified EXCHANGE tx pool
                 (quotient dx (Coin.decimals ci))
                 [ leg add ci (Some (quotient dx (Coin.decimals ci)));
                   leg remove cj None ].
Proof.
  split.
  - intros Hrun.
    destruct (parseExchange_Return _ _ _ _ _ Hrun)
      as (i & j & dx & ci & cj & Hname & Hi & Hci & Hj & Hcj & Hdx & Hd & ->).
    pose proof (silent_parseExchange tx pool d (or_introl Hname)) as Hsil.
    unfold silent in Hsil. rewrite Hrun in Hsil. simpl in Hsil. subst t.
    split; [done|]. exists i, j, dx, ci, cj.
    unfold parseExchange in Hrun. rewrite Hname, Hi, Hj in Hrun.
    cbn [String.eqb Ascii.eqb Bool.eqb toNumber] in Hrun.
    destruct (Z.ltb_spec (Z.abs i) (2 ^ 53)); [|discriminate].
    destruct (Z.ltb_spec (Z.abs j) (2 ^ 53)); [|discriminate].
    by rewrite <- unitsToDecimal_quotient.
  - intros (-> & i & j & dx & ci & cj
            & Hname & Hi & Hsi & Hci & Hj & Hsj & Hcj & Hdx & Hd & ->).
    rewrite <- unitsToDecimal_quotient.
    by apply (parseExchange_indices _ _ _ i j).
Qed.

(** ** The names of an argument *)

(** X15. The first name under which an argument is present wins: when
    [_amounts] is present, whatever is stored under [amounts] and
    [uamounts] does not change what the deposit decoder does, and when
    [_token_amount] is present in a one-coin removal, whatever is stored
    under [token_amount] and [_burn_amount] does not change what the removal
    decoder does. *)
Theorem first_alias_wins
    (lp : nat) (tx : EtherscanTx.t) (pool : Pool.t)
    (d : TransactionDescription) (v w w' : ArgValue) :
  (args d !! "_amounts" = Some v →
   parseAddLiquidity tx pool
     {| name := name d;
        args := <[ "amounts" := w ]> (<[ "uamounts" := w' ]> (args d)) |}
   = parseAddLiquidity tx pool d)
  ∧ (name d = "remove_liquidity_one_coin" →
     args d !! "_token_amount" = Some v →
     parseRemoveLiquidity lp tx pool
       {| name := name d;
          args := <[ "token_amount" := w ]>
                    (<[ "_burn_amount" := w' ]> (args d)) |}
     = parseRemoveLiquidity lp tx pool d).
Proof.
  split.
  - intros Hv. unfold parseAddLiquidity. cbn [name args].
    rewrite !lookup_insert_ne by done. by rewrite Hv.
  - intros Hname Hv. unfold parseRemoveLiquidity. cbn [name args].
    rewrite Hname. cbn [String.eqb Ascii.eqb Bool.eqb].
    rewrite !(lookup_insert_ne _ "token_amount" "_token_amount") by done.
    rewrite !(lookup_insert_ne _ "_burn_amount" "_token_amount") by done.
    rewrite !(lookup_insert_ne _ "token_amount" "i") by done.
    rewrite !(lookup_insert_ne _ "_burn_amount" "i") by done.
    by rewrite Hv.
Qed.

(** ** Unsigned amounts *)

Lemma unitsToDecimal_pos raw decimals :
  (0 < raw)%Z → (0 < unitsToDecimal raw decimals)%Qc.
Proof.
  intros Hraw. unfold Qclt, unitsToDecimal. cbn [this Q2Qc].
  rewrite !Qred_correct. unfold Qlt. simpl. lia.
Qed.

Lemma nonZeroEntries_pos A coins :
  Forall (λ a, 0 ≤ a)%Z A →
  Forall (λ x, 0 < x)%Qc (map amountOf (nonZeroEntries A coins)).
Proof.
  intros Hnonneg. apply Forall_forall. intros x Hx.
  apply list_elem_of_In, in_map_iff in Hx. destruct Hx as ([a c] & <- & Hin).
  apply list_elem_of_In, nonZeroEntries_spec in Hin as (Ha & i & Hi & _).
  rewrite Forall_forall in Hnonneg.
  apply list_elem_of_lookup_2, Hnonneg in Hi.
  rewrite <- converted_amountOf. apply unitsToDecimal_pos. simpl. lia.
Qed.

(** A rounded sum of a total that is not negative and a positive amount is
    positive: rounding does not reach zero. *)
Lemma Decimal_add_pos (acc x : Decimal) :
  (0 ≤ acc)%Qc → (0 < x)%Qc → (0 < Decimal_add acc x)%Qc.
Proof.
  unfold Qcle, Qclt. change (this 0%Qc) with 0%Q. intros Hacc Hx.
  apply (roundsTo_pos (acc + x)%Q); [lra | apply Decimal_add_spec].
Qed.

Lemma foldl_Decimal_add_pos l :
  ∀ acc : Decimal,
    (0 < acc)%Qc → Forall (λ x, 0 < x)%Qc l →
    (0 < foldl Decimal_add acc l)%Qc.
Proof.
  induction l as [|x l IH]; intros acc Hacc Hall; [done|].
  apply Forall_cons in Hall as [Hx Hall]. cbn [foldl].
  apply IH; [|done]. apply Decimal_add_pos; [|done].
  by apply Qclt_le_weak.
Qed.

(** The amounts and the total of the legs of unsigned entries. *)
Lemma unsigned_entries dir A coins :
  Forall (λ a, 0 ≤ a)%Z A →
  let legs := map (λ p, leg dir p.2 (Some (amountOf p)))
                  (nonZeroEntries A coins) in
  let total := foldl Decimal_add 0%Qc
                 (map amountOf (nonZeroEntries A coins)) in
  (0 ≤ total)%Qc
  ∧ Forall (λ l, ∃ x, CurveTokenWithAmount.amount l = Some x ∧ (0 < x)%Qc)
           legs
  ∧ (total = 0%Qc ↔ legs = []).
Proof.
  intros Hnonneg legs total.
  pose proof (nonZeroEntries_pos A coins Hnonneg) as Hpos.
  assert (Hlegs : Forall (λ l, ∃ x, CurveTokenWithAmount.amount l = Some x
                                    ∧ (0 < x)%Qc) legs).
  { subst legs. rewrite Forall_forall in Hpos.
    apply Forall_forall. intros l Hl.
    apply list_elem_of_In, in_map_iff in Hl. destruct Hl as (p & <- & Hp).
    exists (amountOf p). split; [done|].
    apply Hpos, elem_of_map. by apply list_elem_of_In. }
  subst legs total.
  destruct (nonZeroEntries A coins) as [|p E]; [done|].
  cbn [map foldl] in *. apply Forall_cons in Hpos as [Hp Hpos].
  assert (Hgt : (0 < foldl Decimal_add (Decimal_add 0%Qc (amountOf p))
                       (map amountOf E))%Qc).
  { apply foldl_Decimal_add_pos; [|done]. by apply Decimal_add_pos. }
  split_and!; [by apply Qclt_le_weak | done |].
  split; [|done]. intros Hzero. rewrite Hzero in Hgt.
  by apply Qclt_not_eq in Hgt.
Qed.

(** X16. When the raw amounts of a deposit or of an imbalanced removal are
    unsigned, every leg of the classification has a positive amount, and the
    total, where it is present, is not negative, and is zero exactly when
    there is no leg: rounding never takes a total to zero. *)
Theorem unsigned_amounts_total
    (lp : nat) (tx : EtherscanTx.t) (pool : Pool.t)
    (d : TransactionDescription) (A : list BigNumber)
    (t : list Event) (tr : CurveTransaction.t) :
  Forall (λ a, 0 ≤ a)%Z A →
  (args d !! "_amounts" ?? args d !! "amounts" ?? args d !! "uamounts"
   = Some (VArr A)
   ∧ parseAddLiquidity tx pool d = (t, Return (Some tr)))
  ∨ (name d = "remove_liquidity_imbalance"
     ∧ args d !! "_amounts" ?? args d !! "amounts" = Some (VArr A)
     ∧ parseRemoveLiquidity lp tx pool d = (t, Return (Some tr))) →
  Forall (λ l, ∃ x, CurveTokenWithAmount.amount l = Some x ∧ (0 < x)%Qc)
         (CurveTransaction.tokens tr)
  ∧ ∀ q, CurveTransaction.totalAmount tr = Some q →
         (0 ≤ q)%Qc ∧ (q = 0%Qc ↔ CurveTransaction.tokens tr = []).
Proof.
  intros Hnonneg Hrun.
  assert (Hshape : ∃ kind dir,
    tr = classified kind tx pool
           (foldl Decimal_add 0%Qc
              (map amountOf (nonZeroEntries A (Pool.coins pool))))
           (map (λ p, leg dir p.2 (Some (amountOf p)))
                (nonZeroEntries A (Pool.coins pool)))).
  { destruct Hrun as [[HA Hrun] | (Hname & HA & Hrun)].
    - apply parseAddLiquidity_Return_amounts in Hrun
        as (A' & _ & HA' & _ & _ & _ & ->).
      rewrite HA in HA'. injection HA' as <-. by exists ADD_LIQUIDITY, add.
    - apply parseRemoveLiquidity_Return_shape in Hrun
        as (_ & [(A' & _ & HA' & _ & _ & ->)
                | [(? & ? & Hn & _) | (? & Hn & _)]]);
        [|by rewrite Hname in Hn..].
      rewrite HA in HA'. injection HA' as <-.
      by exists REMOVE_LIQUIDITY, remove. }
  destruct Hshape as (kind & dir & ->).
  destruct (unsigned_entries dir A (Pool.coins pool) Hnonneg)
    as (H0 & Hlegs & Hzero).
  cbn [CurveTransaction.tokens CurveTransaction.totalAmount classified].
  split; [done|].
  intros q Hq. destruct (isKnown (Pool.assetTypeName pool)); [|done].
  by injection Hq as <-.
Qed.

(** ** Precisions that ethers does not accept *)

(** X17. When the precision of the LP token is above 256 digits, a balanced
    and a one-coin removal make the conversion of the burn amount throw an
    invalid-argument error, whatever the burn amount and the coin index
    are; so does an exchange whose source coin has such a precision. Like
    the error of a missing amount, it is thrown to the caller of
    [parseTransaction] and not turned into "not applicable". *)
Theorem rejected_precision_throws
    (lp : nat) (pool : Pool.t) (tx : EtherscanTx.t)
    (d : TransactionDescription) :
  decodesTo pool tx d →
  (name d = "remove_liquidity" ∨ name d = "remove_liquidity_one_coin" →
   (256 < lp)%nat →
   parseRemoveLiquidity lp tx pool d = ([], Throw INVALID_ARGUMENT)
   ∧ parseTransaction lp pool tx
     = ([DecodeCall (EtherscanTx.input tx) (EtherscanTx.value tx)],
        Throw INVALID_ARGUMENT))
  ∧ (∀ (i j : BigNumber) (ci : Coin.t),
       name d = "exchange" →
       args d !! "i" = Some (VBig i) → (Z.abs i < 2 ^ 53)%Z →
       args d !! "j" = Some (VBig j) → (Z.abs j < 2 ^ 53)%Z →
       index (Pool.coins pool) i = Some ci →
       (256 < Coin.decimals ci)%nat →
       parseExchange tx pool d = ([], Throw INVALID_ARGUMENT)
       ∧ parseTransaction lp pool tx
         = ([DecodeCall (EtherscanTx.input tx) (EtherscanTx.value tx)],
            Throw INVALID_ARGUMENT)).
Proof.
  intros Hd. split.
  - intros Hname Hlp.
    assert (Hthrow :
      parseRemoveLiquidity lp tx pool d = ([], Throw INVALID_ARGUMENT)).
    { unfold parseRemoveLiquidity.
      destruct Hname as [Hname | Hname]; rewrite Hname;
        cbn [String.eqb Ascii.eqb Bool.eqb];
        by rewrite formatUnits_rejected. }
    split; [done|].
    apply (parseTransaction_remove_Throw _ _ _ d); [done | | done].
    by destruct Hname as [-> | ->].
  - intros i j ci Hname Hi Hsi Hj Hsj Hci Hprec.
    assert (Hthrow : parseExchange tx pool d = ([], Throw INVALID_ARGUMENT)).
    { unfold parseExchange.
      rewrite Hname, Hi, Hj, !toNumber_in_range by done.
      cbn [String.eqb Ascii.eqb Bool.eqb bind app].
      rewrite Hci. cbn [get bind ret app].
      by rewrite formatUnits_rejected. }
    split; [done|].
    by apply (parseTransaction_exchange_Throw _ _ _ d).
Qed.

(** * The further properties on the sample data *)

Lemma someExchange_run :
  parseTransaction 18
    (threePool (Return (exchangeCall 0 2 5000000000000000000))) okTx
  = ([DecodeCall "0x3df02124" "0"],
     Return {| ParseTransactionAPI.decodedInput :=
                 Some (exchangeCall 0 2 5000000000000000000);
               ParseTransactionAPI.transaction := Some someExchange |}).
Proof. reflexivity. Qed.

(** X1 on a contract creation. *)
Lemma contract_creation_not_applicable_witness :
  falsy (EtherscanTx.to deployTx) = true
  ∧ parseTransaction 18 (threePool (Return addCall)) deployTx
    = ([], Return notApplicable).
Proof.
  split; [reflexivity|].
  exact (contract_creation_not_applicable 18 (threePool (Return addCall))
           deployTx eq_refl).
Defined.

(** X2 on the pool of three dollar coins. *)
Lemma exchange_underlying_not_classified_witness :
  decodesTo (threePool (Return (namedCall "exchange_underlying"))) okTx
    (namedCall "exchange_underlying")
  ∧ name (namedCall "exchange_underlying") = "exchange_underlying"
  ∧ parseExchange okTx (threePool (Return (namedCall "exchange_underlying")))
      (namedCall "exchange_underlying")
    = ([], Return None)
  ∧ parseTransaction 18
      (threePool (Return (namedCall "exchange_underlying"))) okTx
    = ([DecodeCall (EtherscanTx.input okTx) (EtherscanTx.value okTx)],
       Return {| ParseTransactionAPI.decodedInput :=
                   Some (namedCall "exchange_underlying");
                 ParseTransactionAPI.transaction := None |}).
Proof.
  pose proof (okTx_decodesTo (namedCall "exchange_underlying")) as Hd.
  destruct (exchange_underlying_not_classified 18 _ _ _ Hd eq_refl)
    as [Hdecoder Hrun].
  split_and!; [exact Hd | reflexivity | exact Hdecoder | exact Hrun].
Defined.

(** X3 on three names that no decoder knows. *)
Lemma unknown_variant_warns_witness :
  parseTransaction 18
    (threePool (Return (namedCall "remove_liquidity_fixed_out"))) okTx
  = ([DecodeCall (EtherscanTx.input okTx) (EtherscanTx.value okTx);
      ConsoleWarn "[parseRemoveLiquidity] Unknown transaction type: "
        "remove_liquidity_fixed_out"],
     Return {| ParseTransactionAPI.decodedInput :=
                 Some (namedCall "remove_liquidity_fixed_out");
               ParseTransactionAPI.transaction := None |})
  ∧ parseTransaction 18
      (threePool (Return (namedCall "add_liquidity_once"))) okTx
    = ([DecodeCall (EtherscanTx.input okTx) (EtherscanTx.value okTx);
        ConsoleWarn "[parseAddLiquidity] Unknown transaction type: "
          "add_liquidity_once"],
       Return {| ParseTransactionAPI.decodedInput :=
                   Some (namedCall "add_liquidity_once");
                 ParseTransactionAPI.transaction := None |})
  ∧ parseTransaction 18
      (threePool (Return (namedCall "exchange_multiple"))) okTx
    = ([DecodeCall (EtherscanTx.input okTx) (EtherscanTx.value okTx);
        ConsoleWarn "[parseExchange] Unknown transaction type: "
          "exchange_multiple"],
       Return {| ParseTransactionAPI.decodedInput :=
                   Some (namedCall "exchange_multiple");
                 ParseTransactionAPI.transaction := None |}).
Proof.
  split_and!.
  - refine (proj1 (unknown_variant_warns 18 _ okTx
                     (namedCall "remove_liquidity_fixed_out")
                     (okTx_decodesTo _)) eq_refl _ _ _); discriminate.
  - refine (proj1 (proj2 (unknown_variant_warns 18 _ okTx
                            (namedCall "add_liquidity_once")
                            (okTx_decodesTo _))) eq_refl _); discriminate.
  - refine (proj2 (proj2 (unknown_variant_warns 18 _ okTx
                            (namedCall "exchange_multiple")
                            (okTx_decodesTo _))) eq_refl _ _); discriminate.
Defined.

(** X4 on a call that is none of the pool's liquidity functions. *)
Lemma foreign_call_not_classified_witness :
  decodesTo (threePool (Return (namedCall "claim_admin_fees"))) okTx
    (namedCall "claim_admin_fees")
  ∧ startsWith (name (namedCall "claim_admin_fees")) "remove_liquidity"
    = false
  ∧ startsWith (name (namedCall "claim_admin_fees")) "add_liquidity" = false
  ∧ startsWith (name (namedCall "claim_admin_fees")) "exchange" = false
  ∧ parseTransaction 18
      (threePool (Return (namedCall "claim_admin_fees"))) okTx
    = ([DecodeCall (EtherscanTx.input okTx) (EtherscanTx.value okTx)],
       Return {| ParseTransactionAPI.decodedInput :=
                   Some (namedCall "claim_admin_fees");
                 ParseTransactionAPI.transaction := None |}).
Proof.
  pose proof (okTx_decodesTo (namedCall "claim_admin_fees")) as Hd.
  pose proof (foreign_call_not_classified 18 _ _ _ Hd eq_refl eq_refl eq_refl)
    as Hrun.
  split_and!;
    [exact Hd | reflexivity | reflexivity | reflexivity | exact Hrun].
Defined.

(** X5 on the exchange of five DAI. *)
Lemma classification_metadata_witness :
  parseTransaction 18
    (threePool (Return (exchangeCall 0 2 5000000000000000000))) okTx
  = ([DecodeCall "0x3df02124" "0"],
     Return {| ParseTransactionAPI.decodedInput :=
                 Some (exchangeCall 0 2 5000000000000000000);
               ParseTransactionAPI.transaction := Some someExchange |})
  ∧ ∃ d,
      Some (exchangeCall 0 2 5000000000000000000) = Some d
      ∧ Return (exchangeCall 0 2 5000000000000000000) = Return d
      ∧ [DecodeCall "0x3df02124" "0"]
        = [DecodeCall (EtherscanTx.input okTx) (EtherscanTx.value okTx)]
      ∧ CurveTransaction.hash someExchange = EtherscanTx.hash okTx
      ∧ CurveTransaction.pool someExchange = "0xbEbc"
      ∧ CurveTransaction.timestamp someExchange
        = Number (EtherscanTx.timeStamp okTx)
      ∧ CurveTransaction.type someExchange
        = (if startsWith (name d) "remove_liquidity" then REMOVE_LIQUIDITY
           else if startsWith (name d) "add_liquidity" then ADD_LIQUIDITY
           else EXCHANGE).
Proof.
  split; [exact someExchange_run|].
  exact (classification_metadata 18 _ okTx _ _ someExchange
           someExchange_run eq_refl).
Defined.

(** X7 on the deposit of one DAI and two and a half USDT: the legs DAI and
    USDT, in the order of the coins DAI, USDC, USDT. *)
Lemma legs_in_pool_order_witness :
  (parseAddLiquidity okTx (threePool (Return addCall)) addCall
   = ([], Return (Some someDeposit))
   ∨ parseRemoveLiquidity 18 okTx (threePool (Return addCall)) addCall
     = ([], Return (Some someDeposit)))
  ∧ [ ("DAI", "0x6B17"); ("USDT", "0xdAC1") ]
      `sublist_of` [ ("DAI", "0x6B17"); ("USDC", "0xA0b8");
                     ("USDT", "0xdAC1") ]
  ∧ (2 ≤ 3)%nat.
Proof.
  split; [left; exact someDeposit_run|].
  exact (legs_in_pool_order 18 okTx (threePool (Return addCall)) addCall []
           someDeposit (or_introl someDeposit_run)).
Defined.

(** X8 on the exchange of five DAI for USDT. *)
Lemma legs_are_pool_coins_witness :
  parseTransaction 18
    (threePool (Return (exchangeCall 0 2 5000000000000000000))) okTx
  = ([DecodeCall "0x3df02124" "0"],
     Return {| ParseTransactionAPI.decodedInput :=
                 Some (exchangeCall 0 2 5000000000000000000);
               ParseTransactionAPI.transaction := Some someExchange |})
  ∧ Forall (λ l, ∃ c, c ∈ [DAI; USDC; USDT]
                      ∧ CurveTokenWithAmount.symbol l = Coin.symbol c
                      ∧ CurveTokenWithAmount.address l = Coin.address c)
           (CurveTransaction.tokens someExchange)
  ∧ map CurveTokenWithAmount.type (CurveTransaction.tokens someExchange)
    = [add; remove].
Proof.
  split; [exact someExchange_run|].
  exact (legs_are_pool_coins 18 _ okTx _ _ someExchange
           someExchange_run eq_refl).
Defined.

(** X9 on a balanced removal and a one-coin removal without arguments, and
    on an exchange without amount. *)
Lemma missing_amount_throws_witness :
  parseTransaction 18 (threePool (Return (bareCall "remove_liquidity"))) okTx
  = ([DecodeCall (EtherscanTx.input okTx) (EtherscanTx.value okTx)],
     Throw INVALID_ARGUMENT)
  ∧ parseTransaction 18
      (threePool (Return (bareCall "remove_liquidity_one_coin"))) okTx
    = ([DecodeCall (EtherscanTx.input okTx) (EtherscanTx.value okTx)],
       Throw INVALID_ARGUMENT)
  ∧ parseTransaction 18 (threePool (Return exchangeWithoutAmount)) okTx
    = ([DecodeCall (EtherscanTx.input okTx) (EtherscanTx.value okTx)],
       Throw INVALID_ARGUMENT).
Proof.
  split_and!.
  - refine (proj1 (missing_amount_throws 18 _ okTx
                     (bareCall "remove_liquidity") (okTx_decodesTo _))
              eq_refl _).
    intros b Hb. vm_compute in Hb. discriminate Hb.
  - refine (proj1 (proj2 (missing_amount_throws 18 _ okTx
                            (bareCall "remove_liquidity_one_coin")
                            (okTx_decodesTo _)))
              eq_refl _).
    intros b Hb. vm_compute in Hb. discriminate Hb.
  - refine (proj2 (proj2 (missing_amount_throws 18 _ okTx
                            exchangeWithoutAmount (okTx_decodesTo _)))
              0 2 DAI eq_refl eq_refl eq_refl eq_refl eq_refl eq_refl _).
    intros b Hb. vm_compute in Hb. discriminate Hb.
Defined.

(** X10 on a deposit and an imbalanced removal without arguments. *)
Lemma missing_amounts_throw_witness :
  (parseAddLiquidity okTx (threePool (Return (bareCall "add_liquidity")))
     (bareCall "add_liquidity")
   = ([], Throw TypeError)
   ∧ parseTransaction 18 (threePool (Return (bareCall "add_liquidity"))) okTx
     = ([DecodeCall (EtherscanTx.input okTx) (EtherscanTx.value okTx)],
        Throw TypeError))
  ∧ (parseRemoveLiquidity 18 okTx
       (threePool (Return (bareCall "remove_liquidity_imbalance")))
       (bareCall "remove_liquidity_imbalance")
     = ([], Throw TypeError)
     ∧ parseTransaction 18
         (threePool (Return (bareCall "remove_liquidity_imbalance"))) okTx
       = ([DecodeCall (EtherscanTx.input okTx) (EtherscanTx.value okTx)],
          Throw TypeError)).
Proof.
  split.
  - refine (proj1 (missing_amounts_throw 18 _ okTx (bareCall "add_liquidity")
                     (okTx_decodesTo _))
              eq_refl _).
    intros A HA. vm_compute in HA. discriminate HA.
  - refine (proj2 (missing_amounts_throw 18 _ okTx
                     (bareCall "remove_liquidity_imbalance")
                     (okTx_decodesTo _))
              eq_refl _).
    intros A HA. vm_compute in HA. discriminate HA.
Defined.

(** X11 on a deposit of nothing into the pool of coins of unlike kinds. *)
Lemma zero_amounts_no_legs_witness :
  Forall (λ a, a = 0%Z) [0; 0; 0]%Z
  ∧ parseAddLiquidity okTx triCrypto (zeroCall "add_liquidity")
    = ([], Return (Some (classified ADD_LIQUIDITY okTx triCrypto 0%Qc [])))
  ∧ parseRemoveLiquidity 18 okTx triCrypto
      (zeroCall "remove_liquidity_imbalance")
    = ([], Return (Some (classified REMOVE_LIQUIDITY okTx triCrypto
                           0%Qc []))).
Proof.
  assert (Hzero : Forall (λ a, a = 0%Z) [0; 0; 0]%Z)
    by (repeat constructor).
  split; [exact Hzero|].
  exact (zero_amounts_no_legs 18 okTx triCrypto (zeroCall "add_liquidity")
           (zeroCall "remove_liquidity_imbalance") [0; 0; 0]%Z Hzero
           eq_refl eq_refl eq_refl eq_refl).
Defined.

(** X15 on a deposit and on a one-coin removal to which later names of the
    argument are added. *)
Lemma first_alias_wins_witness :
  parseAddLiquidity okTx (threePool (Return addCall))
    {| name := "add_liquidity";
       args := <[ "amounts" := VBig 7 ]>
                 (<[ "uamounts" := VArr [] ]>
                    (args (zeroCall "add_liquidity"))) |}
  = parseAddLiquidity okTx (threePool (Return addCall))
      (zeroCall "add_liquidity")
  ∧ parseRemoveLiquidity 18 okTx (threePool (Return addCall))
      {| name := "remove_liquidity_one_coin";
         args := <[ "token_amount" := VBig 7 ]>
                   (<[ "_burn_amount" := VArr [] ]>
                      (args (oneCoinCallAt 1))) |}
    = parseRemoveLiquidity 18 okTx (threePool (Return addCall))
        (oneCoinCallAt 1).
Proof.
  split.
  - exact (proj1 (first_alias_wins 18 okTx (threePool (Return addCall))
                    (zeroCall "add_liquidity") (VArr [0; 0; 0]%Z)
                    (VBig 7) (VArr []))
             eq_refl).
  - exact (proj2 (first_alias_wins 18 okTx (threePool (Return addCall))
                    (oneCoinCallAt 1) (VBig 1500000000000000000)
                    (VBig 7) (VArr []))
             eq_refl eq_refl).
Defined.

(** X16 on the deposit of one DAI and two and a half USDT. *)
Lemma unsigned_amounts_total_witness :
  Forall (λ a, 0 ≤ a)%Z someAmounts
  ∧ Forall (λ l, ∃ x, CurveTokenWithAmount.amount l = Some x ∧ (0 < x)%Qc)
           (CurveTransaction.tokens someDeposit)
  ∧ ∀ q, CurveTransaction.totalAmount someDeposit = Some q →
         (0 ≤ q)%Qc ∧ (q = 0%Qc ↔ CurveTransaction.tokens someDeposit = []).
Proof.
  assert (Hnonneg : Forall (λ a, 0 ≤ a)%Z someAmounts)
    by (repeat constructor; lia).
  split; [exact Hnonneg|].
  exact (unsigned_amounts_total 18 okTx (threePool (Return addCall)) addCall
           someAmounts [] someDeposit Hnonneg
           (or_introl (conj eq_refl someDeposit_run))).
Defined.

(** X17 on the pool of three dollar coins, were the precision of its LP
    token 300 digits. *)
Lemma rejected_precision_throws_witness :
  decodesTo (threePool (Return balancedCall)) okTx balancedCall
  ∧ (name balancedCall = "remove_liquidity"
     ∨ name balancedCall = "remove_liquidity_one_coin")
  ∧ (256 < 300)%nat
  ∧ parseRemoveLiquidity 300 okTx (threePool (Return balancedCall))
      balancedCall
    = ([], Throw INVALID_ARGUMENT)
  ∧ parseTransaction 300 (threePool (Return balancedCall)) okTx
    = ([DecodeCall (EtherscanTx.input okTx) (EtherscanTx.value okTx)],
       Throw INVALID_ARGUMENT).
Proof.
  pose proof (okTx_decodesTo balancedCall) as Hd.
  assert (Hname : name balancedCall = "remove_liquidity"
                  ∨ name balancedCall = "remove_liquidity_one_coin")
    by (left; reflexivity).
  assert (Hlp : (256 < 300)%nat) by lia.
  destruct (proj1 (rejected_precision_throws 300 _ okTx balancedCall Hd)
              Hname Hlp) as [Hdecoder Hrun].
  split_and!; [exact Hd | exact Hname | exact Hlp | exact Hdecoder
              | exact Hrun].
Defined.
